(** * Schedule_Analyzer: WBS rollups, hierarchy builders and Gantt bar layout

    A shallow embedding of the client-side logic of
    [frontend/src/ActivitiesPage.tsx], [frontend/src/EnhancedActivitiesPage.tsx]
    and [frontend/src/GanttChart.tsx], with the properties the specification
    states about it.

    Conventions of the embedding.
    - A JavaScript [number] field that measures something (duration, progress,
      float) is a rational [Q]; sums, products and quotients are exact.  The
      special values NaN, Infinity and -0 only matter where the code divides
      by a value that can be zero, which is the bar layout of the Gantt chart;
      they are modelled there by the type [num].  Where a statement depends on
      the rounding of the arithmetic, the expression is evaluated in binary64
      as well, in the module [Doubles].
    - A date string is represented by its timestamp, the value of
      [new Date(s).getTime()] in milliseconds; [null] (and the empty string,
      which is falsy as well) is [None].
    - [Map<string, Activity[]>] is a [gmap string (list Activity.t)] and
      [Set<string>] is a [gset string].  The builders that sort arrays in
      place are given a second time over a heap of arrays, in the modules
      [ActivitiesPageHeap] and [GanttChartHeap], where an array is named by
      its address and a [Set] instance is the list of its elements; the two
      embeddings are proved to return the same rows.
    - [String.prototype.localeCompare] depends on the collation of the host; it
      is a parameter of the development.
    - The tree builders recurse along the parent links of the WBS list with no
      bound, so they are defined with a fuel argument; [None] means that the
      fuel ran out and nothing else. *)

From Stdlib Require Import ZArith QArith Qround Qminmax Lqa Lia Sorted PrimFloat.
From stdpp Require Import base option list strings gmap pretty.

Local Open Scope Z_scope.

(** ** Data model *)

Module Activity.
(** [interface Activity]; the three pages declare it with different sets of
    fields, this is the union of the fields their tree and rollup code reads. *)
Record t := mk {
  task_id : string;
  task_name : string;
  activity_code : string;
  wbs_id : string;
  duration_days : Q;
  early_start_date : option Z;
  early_end_date : option Z;
  actual_start_date : option Z;
  actual_end_date : option Z;
  progress_pct : Q;
  total_float_days : Q;
  task_type : string;
  status_code : string
}.
End Activity.

Module WBSItem.
(** [interface WBSItem], again the union over the three pages. *)
Record t := mk {
  wbs_id : string;
  wbs_name : string;
  wbs_code : string;
  parent_wbs_id : option string;
  proj_node_flag : string;
  level : Z;
  sort_order : Z
}.
End WBSItem.

(** ** JavaScript helpers *)

(** [x || 0] on a number. *)
Definition orZero (x : Q) : Q := if Qeq_bool x 0 then 0%Q else x.

(** [s || d] on a string: the empty string is the only falsy string. *)
Definition orString (s d : string) : string := if decide (s = "") then d else s.

(** [!s] on a nullable string: [null] and the empty string are falsy. *)
Definition falsy (s : option string) : bool :=
  match s with
  | None => true
  | Some s => bool_decide (s = "")
  end.

(** Truthiness of a nullable date string. *)
Definition truthy {A} (d : option A) : bool := bool_decide (is_Some d).

(** [d ? new Date(d).getTime() : 0]; where the source calls [getTime] without
    the test, on the activities that passed the date filter, the date is there. *)
Definition getTime (d : option Z) : Z := default 0 d.

(** [Math.min(...xs)] and [Math.max(...xs)] on a list that is not empty, given
    as head and tail (every call in the source is guarded by a length test). *)
Definition Math_min (x : Z) (xs : list Z) : Z := fold_left Z.min xs x.
Definition Math_max (x : Z) (xs : list Z) : Z := fold_left Z.max xs x.
Definition Math_minQ (x : Q) (xs : list Q) : Q := fold_left Qmin xs x.

(** [Math.round]: the nearest integer, halves rounded up. *)
Definition Math_round (x : Q) : Z := Qfloor (x + (1 # 2))%Q.

(** ** JavaScript numbers where a division can meet zero

    A finite value is an exact rational; [Fin 0] is +0 and [NegZero] is -0. *)
Inductive num := Fin (q : Q) | NegZero | PosInf | NegInf | NaN.

Definition Qltb (a b : Q) : bool := negb (Qle_bool b a).

Definition num_of_Z (z : Z) : num := Fin (inject_Z z).

(** The value of a number that is not infinite. *)
Definition num_val (x : num) : Q :=
  match x with
  | Fin q => q
  | _ => 0%Q
  end.

(** The sign bit. *)
Definition num_neg (x : num) : bool :=
  match x with
  | Fin q => Qltb q 0
  | NegZero | NegInf => true
  | PosInf | NaN => false
  end.

Definition num_isZero (x : num) : bool :=
  match x with
  | Fin q => Qeq_bool q 0
  | NegZero => true
  | _ => false
  end.

Definition signedZero (neg : bool) : num := if neg then NegZero else Fin 0.
Definition signedInf (neg : bool) : num := if neg then NegInf else PosInf.

(** [a / b]: 0/0 and Infinity/Infinity are NaN, a non-zero number over zero is
    an infinity, the sign is the exclusive or of the signs. *)
Definition num_div (a b : num) : num :=
  let neg := xorb (num_neg a) (num_neg b) in
  match a, b with
  | NaN, _ | _, NaN => NaN
  | (PosInf | NegInf), (PosInf | NegInf) => NaN
  | (PosInf | NegInf), _ => signedInf neg
  | _, (PosInf | NegInf) => signedZero neg
  | _, _ =>
      if num_isZero b then (if num_isZero a then NaN else signedInf neg)
      else if num_isZero a then signedZero neg
      else Fin (num_val a / num_val b)
  end.

(** [a * b]: zero times an infinity is NaN. *)
Definition num_mul (a b : num) : num :=
  let neg := xorb (num_neg a) (num_neg b) in
  match a, b with
  | NaN, _ | _, NaN => NaN
  | (PosInf | NegInf), _ => if num_isZero b then NaN else signedInf neg
  | _, (PosInf | NegInf) => if num_isZero a then NaN else signedInf neg
  | _, _ =>
      if num_isZero a || num_isZero b then signedZero neg
      else Fin (num_val a * num_val b)
  end.

(** [Math.max(a, b)]: NaN if either is NaN, and +0 is larger than -0. *)
Definition num_max (a b : num) : num :=
  match a, b with
  | NaN, _ | _, NaN => NaN
  | PosInf, _ | _, PosInf => PosInf
  | NegInf, x | x, NegInf => x
  | _, _ =>
      if Qltb (num_val a) (num_val b) then b
      else if Qltb (num_val b) (num_val a) then a
      else if num_neg a then b else a
  end.

(** [Math.ceil(a)]: a negative number above -1 goes to -0. *)
Definition num_ceil (a : num) : num :=
  match a with
  | Fin q =>
      if bool_decide (Qceiling q = 0) && Qltb q 0 then NegZero
      else Fin (inject_Z (Qceiling q))
  | _ => a
  end.

(** [xs.reduce((sum, a) => sum + f(a), 0)]. *)
Definition reduce_sum {A} (f : A → Q) (xs : list A) : Q :=
  fold_left (λ sum a, (sum + f a)%Q) xs 0%Q.

(** [Array.prototype.sort(cmp)]: a stable sort; [cmp a b <= 0] keeps [a] before
    [b].  For a comparator that is a consistent ordering this is the result the
    language prescribes. *)
Section Sort.
Context {A : Type} (cmp : A → A → Z).

Fixpoint sort_insert (x : A) (l : list A) : list A :=
  match l with
  | [] => [x]
  | y :: l' => if cmp x y <=? 0 then x :: y :: l' else y :: sort_insert x l'
  end.

Definition sortBy (l : list A) : list A := foldr sort_insert [] l.
End Sort.

(** The activities that have both early dates. *)
Definition validActivities (l : list Activity.t) : list Activity.t :=
  List.filter (λ a, truthy (Activity.early_start_date a) && truthy (Activity.early_end_date a)) l.

Definition minStart (valid : list Activity.t) : option Z :=
  match List.map (λ a, getTime (Activity.early_start_date a)) valid with
  | [] => None
  | t :: ts => Some (Math_min t ts)
  end.

Definition maxEnd (valid : list Activity.t) : option Z :=
  match List.map (λ a, getTime (Activity.early_end_date a)) valid with
  | [] => None
  | t :: ts => Some (Math_max t ts)
  end.

(** [activities.forEach(a => { ...; activitiesByWBS.get(key(a)).push(a) })]. *)
Definition groupByWBS (key : Activity.t → string) (activities : list Activity.t)
  : gmap string (list Activity.t) :=
  fold_left (λ m a, <[key a := default [] (m !! key a) ++ [a]]> m) activities ∅.

(** A [forEach] whose body may run out of fuel: the store is threaded
    through the iterations and the elements pushed by each are appended. *)
Section ForEach.
Context {St A B : Type}.

Fixpoint forEachM (body : St → A → option (St * list B)) (s : St) (l : list A)
  : option (St * list B) :=
  match l with
  | [] => Some (s, [])
  | x :: l' =>
      match body s x with
      | None => None
      | Some (s1, out1) =>
          match forEachM body s1 l' with
          | None => None
          | Some (s2, out2) => Some (s2, out1 ++ out2)
          end
      end
  end.

(** [xs.flatMap(f)] for an [f] that may run out of fuel. *)
Fixpoint flatMapM (f : A → option (list B)) (l : list A) : option (list B) :=
  match l with
  | [] => Some []
  | x :: l' =>
      match f x with
      | None => None
      | Some ys =>
          match flatMapM f l' with
          | None => None
          | Some zs => Some (ys ++ zs)
          end
      end
  end.
End ForEach.

(** [const next = new Set(expanded); next.has(id) ? next.delete(id) :
    next.add(id)]: the body the three pages share for their toggle. *)
Definition toggleIn (expanded : gset string) (nodeId : string) : gset string :=
  if bool_decide (nodeId ∈ expanded) then expanded ∖ {[nodeId]} else expanded ∪ {[nodeId]}.

(** [s.replace(pattern, replacement)] for a string pattern and a replacement
    without [$]: the first occurrence of the pattern is replaced. *)
Fixpoint dropString (n : nat) (s : string) : string :=
  match n, s with
  | O, _ => s
  | S n', String _ s' => dropString n' s'
  | S _, EmptyString => EmptyString
  end.

Fixpoint replaceFirst (pattern replacement s : string) : string :=
  if String.prefix pattern s then replacement +:+ dropString (String.length pattern) s
  else
    match s with
    | EmptyString => EmptyString
    | String c s' => String c (replaceFirst pattern replacement s')
    end.

Inductive NodeType := project | wbs | activity.

(** ** ActivitiesPage.tsx *)

Module ActivitiesPage.

Record ProjectInfo := {
  project_id : Z;
  project_name : string;
  schedule_name : string;
  schedule_id : Z
}.

(** [interface HierarchyNode].  An optional field that is absent is [None];
    the field [activities], an alias of the array held in [activitiesByWBS]
    that the page never reads, is left out. *)
Record HierarchyNode := {
  id : string;
  type : NodeType;
  name : string;
  level : nat;
  expanded : option bool;
  isParent : bool;
  children : option nat;
  parent : option string;
  wbs_id : option string;
  task_id : option string;
  task_name : option string;
  duration_days : option Q;
  early_start_date : option Z;
  early_end_date : option Z;
  actual_start_date : option Z;
  actual_end_date : option Z;
  progress_pct : option Q;
  total_float_days : option Q;
  task_type : option string;
  status_code : option string
}.

(** The object [calculateWBSStats] returns. *)
Record Stats := {
  totalDuration : Q;
  avgProgress : Q;
  minFloat : Q;
  startDate : option Z;
  endDate : option Z
}.

(** [calculateWBSStats] (lines 198-228). *)
Definition calculateWBSStats (wbsId : string) (allDescendantActivities : list Activity.t)
  : Stats :=
  match allDescendantActivities with
  | [] =>
      {| totalDuration := 0; avgProgress := 0; minFloat := 0;
         startDate := None; endDate := None |}
  | a :: rest =>
      let valid := validActivities allDescendantActivities in
      {| totalDuration :=
           reduce_sum (λ a, orZero (Activity.duration_days a)) allDescendantActivities;
         avgProgress :=
           if (0 <? Z.of_nat (length allDescendantActivities))%Z
           then (reduce_sum (λ a, orZero (Activity.progress_pct a)) allDescendantActivities
                 / inject_Z (Z.of_nat (length allDescendantActivities)))%Q
           else 0%Q;
         minFloat :=
           Math_minQ (orZero (Activity.total_float_days a))
                     (List.map (λ a, orZero (Activity.total_float_days a)) rest);
         startDate := minStart valid;
         endDate := maxEnd valid |}
  end.

Section Hierarchy.
Variable localeCompare : string → string → Z.
Variable activities : list Activity.t.
Variable wbsStructure : list WBSItem.t.
Variable projectInfo : ProjectInfo.
Variable expandedNodes : gset string.

(** [activity.wbs_id || 'unassigned'] (lines 173-180). *)
Definition activitiesByWBS : gmap string (list Activity.t) :=
  groupByWBS (λ a, orString (Activity.wbs_id a) "unassigned") activities.

(** The project root node (lines 183-191). *)
Definition projectNode : HierarchyNode :=
  {| id := "project-root"; type := project;
     name := "📊 " +:+ project_name projectInfo +:+ " - " +:+ schedule_name projectInfo;
     level := 0;
     expanded := Some (bool_decide ("project-root" ∈ expandedNodes));
     isParent := true;
     children := Some (length wbsStructure);
     parent := None; wbs_id := None; task_id := None; task_name := None;
     duration_days := None; early_start_date := None; early_end_date := None;
     actual_start_date := None; actual_end_date := None;
     progress_pct := None; total_float_days := None;
     task_type := None; status_code := None |}.

(** [wbsStructure.filter(wbs => wbs.parent_wbs_id === wbsId)]. *)
Definition childrenOf (wbsId : string) : list WBSItem.t :=
  List.filter (λ w, bool_decide (WBSItem.parent_wbs_id w = Some wbsId)) wbsStructure.

(** [getAllDescendantActivities] (lines 231-239). *)
Fixpoint getAllDescendantActivities (fuel : nat) (byWBS : gmap string (list Activity.t))
    (wbsId : string) : option (list Activity.t) :=
  match fuel with
  | O => None
  | S fuel' =>
      let directActivities := default [] (byWBS !! wbsId) in
      match flatMapM (λ childWbs,
               getAllDescendantActivities fuel' byWBS (WBSItem.wbs_id childWbs))
              (childrenOf wbsId) with
      | None => None
      | Some childActivities => Some (directActivities ++ childActivities)
      end
  end.

(** The filter of [buildWBSTree] (lines 244-252). *)
Definition isChildOf (parentWbsId : option string) (w : WBSItem.t) : bool :=
  match parentWbsId with
  | None =>
      falsy (WBSItem.parent_wbs_id w)
      || bool_decide (WBSItem.parent_wbs_id w = Some (pretty (project_id projectInfo)))
      || bool_decide (WBSItem.parent_wbs_id w = Some (pretty (schedule_id projectInfo)))
  | Some pid => bool_decide (WBSItem.parent_wbs_id w = Some pid)
  end.

(** The comparator of the activities under a WBS node (lines 291-299). *)
Definition compareActivities (a b : Activity.t) : Z :=
  match Activity.early_start_date a, Activity.early_start_date b with
  | Some dateA, Some dateB =>
      if bool_decide (dateA ≠ dateB) then dateA - dateB
      else localeCompare (Activity.task_id a) (Activity.task_id b)
  | _, _ => localeCompare (Activity.task_id a) (Activity.task_id b)
  end.

(** An activity row: [{ id, type, name, level, isParent, parent, ...activity }]. *)
Definition activityNode (lvl : nat) (parentId : string) (a : Activity.t) : HierarchyNode :=
  {| id := Activity.task_id a; type := activity;
     name := orString (Activity.task_name a) "Unnamed Activity";
     level := lvl; expanded := None; isParent := false; children := None;
     parent := Some parentId;
     wbs_id := Some (Activity.wbs_id a);
     task_id := Some (Activity.task_id a);
     task_name := Some (Activity.task_name a);
     duration_days := Some (Activity.duration_days a);
     early_start_date := Activity.early_start_date a;
     early_end_date := Activity.early_end_date a;
     actual_start_date := Activity.actual_start_date a;
     actual_end_date := Activity.actual_end_date a;
     progress_pct := Some (Activity.progress_pct a);
     total_float_days := Some (Activity.total_float_days a);
     task_type := Some (Activity.task_type a);
     status_code := Some (Activity.status_code a) |}.

(** The WBS row (lines 266-284). *)
Definition wbsNode (parentWbsId : option string) (lvl : nat) (w : WBSItem.t)
    (directActivities : list Activity.t) (stats : Stats) : HierarchyNode :=
  {| id := "wbs-" +:+ WBSItem.wbs_id w; type := wbs;
     name := "📁 " +:+ WBSItem.wbs_name w;
     level := lvl;
     expanded := Some (bool_decide (WBSItem.wbs_id w ∈ expandedNodes));
     isParent := true;
     children := Some (length directActivities);
     parent := Some (orString (default "" parentWbsId) "project-root");
     wbs_id := Some (WBSItem.wbs_id w);
     task_id := None; task_name := None;
     duration_days := Some (totalDuration stats);
     early_start_date := startDate stats;
     early_end_date := endDate stats;
     actual_start_date := None; actual_end_date := None;
     progress_pct := Some (inject_Z (Math_round (avgProgress stats)));
     total_float_days := Some (minFloat stats);
     task_type := Some "WBS"; status_code := Some "WBS" |}.

(** [buildWBSTree] (lines 242-316): the store is [activitiesByWBS], whose
    arrays are sorted in place, the result is what the call pushes on
    [hierarchyArray]. *)
Fixpoint buildWBSTree (fuel : nat) (byWBS : gmap string (list Activity.t))
    (parentWbsId : option string) (lvl : nat)
    : option (gmap string (list Activity.t) * list HierarchyNode) :=
  match fuel with
  | O => None
  | S fuel' =>
      let childrenWBS :=
        sortBy (λ a b, localeCompare (WBSItem.wbs_name a) (WBSItem.wbs_name b))
               (List.filter (isChildOf parentWbsId) wbsStructure) in
      forEachM (λ byWBS w,
        match getAllDescendantActivities fuel' byWBS (WBSItem.wbs_id w) with
        | None => None
        | Some allDescendantActivities =>
            let directActivities := default [] (byWBS !! WBSItem.wbs_id w) in
            let stats := calculateWBSStats (WBSItem.wbs_id w) allDescendantActivities in
            let node := wbsNode parentWbsId lvl w directActivities stats in
            let sorted := sortBy compareActivities directActivities in
            let shown :=
              bool_decide (WBSItem.wbs_id w ∈ expandedNodes)
              && (0 <? Z.of_nat (length directActivities))%Z in
            let byWBS1 := if shown then <[WBSItem.wbs_id w := sorted]> byWBS else byWBS in
            let rows :=
              if shown
              then List.map (activityNode (lvl + 1) (WBSItem.wbs_id w)) sorted
              else [] in
            match buildWBSTree fuel' byWBS1 (Some (WBSItem.wbs_id w)) (lvl + 1) with
            | None => None
            | Some (byWBS2, sub) => Some (byWBS2, node :: rows ++ sub)
            end
        end) byWBS childrenWBS
  end.

(** The pseudo WBS row of the unassigned bucket (lines 324-337). *)
Definition unassignedNode (unassignedActivities : list Activity.t) : HierarchyNode :=
  {| id := "wbs-unassigned"; type := wbs;
     name := "📁 Unassigned Activities (" +:+ pretty (length unassignedActivities) +:+ ")";
     level := 1;
     expanded := Some (bool_decide ("unassigned" ∈ expandedNodes));
     isParent := true;
     children := Some (length unassignedActivities);
     parent := Some "project-root";
     wbs_id := Some "unassigned";
     task_id := None; task_name := None;
     duration_days := None; early_start_date := None; early_end_date := None;
     actual_start_date := None; actual_end_date := None;
     progress_pct := None; total_float_days := None;
     task_type := Some "WBS"; status_code := Some "WBS" |}.

(** The bucket of unassigned activities (lines 321-354). *)
Definition unassignedRows (byWBS : gmap string (list Activity.t)) : list HierarchyNode :=
  let unassignedActivities := default [] (byWBS !! "unassigned") in
  if (0 <? Z.of_nat (length unassignedActivities))%Z
  then unassignedNode unassignedActivities
         :: (if bool_decide ("unassigned" ∈ expandedNodes)
             then List.map (activityNode 2 "unassigned") unassignedActivities
             else [])
  else [].

(** The body of [hierarchy] once [projectInfo] is known (lines 164-358). *)
Definition hierarchyWith (fuel : nat) : option (list HierarchyNode) :=
  if bool_decide ("project-root" ∈ expandedNodes)
  then
    match buildWBSTree fuel activitiesByWBS None 1 with
    | None => None
    | Some (byWBS, tree) => Some (projectNode :: tree ++ unassignedRows byWBS)
    end
  else Some [projectNode].
End Hierarchy.

(** [hierarchy] (lines 151-359); without [projectInfo] it is empty. *)
Definition hierarchy (localeCompare : string → string → Z) (fuel : nat)
    (activities : list Activity.t) (wbsStructure : list WBSItem.t)
    (projectInfo : option ProjectInfo) (expandedNodes : gset string)
    : option (list HierarchyNode) :=
  match projectInfo with
  | None => Some []
  | Some info => hierarchyWith localeCompare activities wbsStructure info expandedNodes fuel
  end.

(** [toggleNode] (lines 362-370). *)
Definition toggleNode (expandedNodes : gset string) (nodeId : string) : gset string :=
  toggleIn expandedNodes nodeId.

(** The argument of [toggleNode] in the click handler of a project or WBS row
    (line 614): [isProject ? 'project-root' : node.wbs_id!]. *)
Definition toggleTarget (node : HierarchyNode) : string :=
  match type node with
  | project => "project-root"
  | _ => default "" (wbs_id node)
  end.

(** [getActivityStatus] (lines 387-391). *)
Definition getActivityStatus (progress : Q) : string :=
  if Qle_bool 100 progress then "Complete"
  else if Qltb 0 progress then "In Progress"
  else "Not Started".

(** The status a row shows (line 661): [getActivityStatus(node.progress_pct || 0)]. *)
Definition statusLabel (node : HierarchyNode) : string :=
  getActivityStatus (orZero (default 0%Q (progress_pct node))).

(** The button Expand All (lines 473-481). *)
Definition expandAll (wbsStructure : list WBSItem.t) : gset string :=
  list_to_set ("project-root" :: List.map WBSItem.wbs_id wbsStructure ++ ["unassigned"]).

(** The button Collapse All (line 496): [new Set()]. *)
Definition collapseAll : gset string := ∅.

End ActivitiesPage.

(** ** EnhancedActivitiesPage.tsx *)

Module EnhancedActivitiesPage.

(** The fields of [interface Schedule] the tree reads. *)
Record Schedule := {
  schedule_name : string;
  proj_id : string;
  proj_short_name : string
}.

(** The fields of [interface ProjectSummary] the tree reads. *)
Record ProjectSummary := {
  project_start : option Z;
  project_finish : option Z;
  total_duration : Q;
  overall_progress : Z
}.

(** [interface TreeNode]; [children] is declared as an array of nodes and is
    never filled. *)
#[local] Unset Elimination Schemes.
Inductive TreeNode := mkTreeNode {
  id : string;
  type : NodeType;
  code : string;
  name : string;
  level : nat;
  isExpanded : bool;
  hasChildren : bool;
  children : list TreeNode;
  activityCount : option nat;
  task_id : option string;
  wbs_id : option string;
  duration_days : option Q;
  progress_pct : option Q;
  total_float_days : option Q;
  early_start_date : option Z;
  early_end_date : option Z;
  actual_start_date : option Z;
  actual_end_date : option Z;
  task_type : option string;
  status_code : option string
}.
#[local] Set Elimination Schemes.

(** The object [calculateWBSRollups] returns. *)
Record Rollup := {
  rollup_progress_pct : Z;
  rollup_early_start_date : option Z;
  rollup_early_end_date : option Z;
  rollup_duration_days : Q;
  rollup_total_float_days : Q
}.

(** The constants [totalDuration] and [avgProgress] of [calculateWBSRollups]
    (lines 421-423). *)
Definition totalDuration (descendantActivities : list Activity.t) : Q :=
  reduce_sum (λ a, orZero (Activity.duration_days a)) descendantActivities.

Definition avgProgress (descendantActivities : list Activity.t) : Q :=
  if Qlt_le_dec 0 (totalDuration descendantActivities)
  then (reduce_sum (λ a, orZero (Activity.progress_pct a) * orZero (Activity.duration_days a))
          descendantActivities / totalDuration descendantActivities)%Q
  else 0%Q.

(** [calculateWBSRollups] (lines 404-434). *)
Definition calculateWBSRollups (descendantActivities : list Activity.t) : Rollup :=
  match descendantActivities with
  | [] =>
      {| rollup_progress_pct := 0; rollup_early_start_date := None;
         rollup_early_end_date := None; rollup_duration_days := 0;
         rollup_total_float_days := 0 |}
  | a :: rest =>
      let valid := validActivities descendantActivities in
      {| rollup_progress_pct := Math_round (avgProgress descendantActivities);
         rollup_early_start_date := minStart valid;
         rollup_early_end_date := maxEnd valid;
         rollup_duration_days := totalDuration descendantActivities;
         rollup_total_float_days :=
           Math_minQ (orZero (Activity.total_float_days a))
                     (List.map (λ a, orZero (Activity.total_float_days a)) rest) |}
  end.

Section TreeData.
Variable localeCompare : string → string → Z.
Variable activities : list Activity.t.
Variable wbsStructure : list WBSItem.t.
Variable expandedWBS : gset string.
Variable schedule : Schedule.

(** Lines 273-280: the key is [activity.wbs_id] as it is. *)
Definition activitiesByWBS : gmap string (list Activity.t) :=
  groupByWBS Activity.wbs_id activities.

(** The project root node (lines 286-301). *)
Definition projectNode (projectSummary : ProjectSummary) : TreeNode :=
  {| id := "project-root"; type := project;
     code := orString (proj_id schedule) "PROJ";
     name := orString (proj_short_name schedule) (schedule_name schedule);
     level := 0;
     isExpanded := bool_decide ("project-root" ∈ expandedWBS);
     hasChildren := true;
     children := [];
     activityCount := Some (length activities);
     task_id := None; wbs_id := None;
     duration_days := Some (total_duration projectSummary);
     progress_pct := Some (inject_Z (overall_progress projectSummary));
     total_float_days := None;
     early_start_date := project_start projectSummary;
     early_end_date := project_finish projectSummary;
     actual_start_date := None; actual_end_date := None;
     task_type := Some "Project"; status_code := None |}.

Definition childrenOf (wbsId : string) : list WBSItem.t :=
  List.filter (λ w, bool_decide (WBSItem.parent_wbs_id w = Some wbsId)) wbsStructure.

(** [getAllDescendantActivities] (lines 397-402). *)
Fixpoint getAllDescendantActivities (fuel : nat) (byWBS : gmap string (list Activity.t))
    (wbsId : string) : option (list Activity.t) :=
  match fuel with
  | O => None
  | S fuel' =>
      let directActivities := default [] (byWBS !! wbsId) in
      match flatMapM (λ childWbs,
               getAllDescendantActivities fuel' byWBS (WBSItem.wbs_id childWbs))
              (childrenOf wbsId) with
      | None => None
      | Some childActivities => Some (directActivities ++ childActivities)
      end
  end.

(** The filter of [buildWBSNodes] (lines 311-316). *)
Definition isChildOf (parentId : option string) (w : WBSItem.t) : bool :=
  match parentId with
  | None =>
      bool_decide (WBSItem.proj_node_flag w = "Y")
      || bool_decide (WBSItem.level w = 0)
      || falsy (WBSItem.parent_wbs_id w)
  | Some pid => bool_decide (WBSItem.parent_wbs_id w = Some pid)
  end.

(** The comparator of the WBS items (line 317). *)
Definition compareWBS (a b : WBSItem.t) : Z :=
  let d := WBSItem.sort_order a - WBSItem.sort_order b in
  if bool_decide (d ≠ 0) then d
  else localeCompare (orString (WBSItem.wbs_code a) (WBSItem.wbs_name a))
                     (orString (WBSItem.wbs_code b) (WBSItem.wbs_name b)).

(** The comparator of the activities (lines 353-362). *)
Definition compareActivities (a b : Activity.t) : Z :=
  let byDate := getTime (Activity.early_start_date a) - getTime (Activity.early_start_date b) in
  if bool_decide (Activity.activity_code a ≠ "" ∧ Activity.activity_code b ≠ "")
  then
    let codeCompare := localeCompare (Activity.activity_code a) (Activity.activity_code b) in
    if bool_decide (codeCompare ≠ 0) then codeCompare else byDate
  else byDate.

(** An activity row (lines 364-391). *)
Definition activityNode (lvl : nat) (a : Activity.t) : TreeNode :=
  {| id := "activity-" +:+ Activity.task_id a; type := activity;
     code := orString (Activity.activity_code a) (Activity.task_id a);
     name := orString (Activity.task_name a) "Unnamed Activity";
     level := lvl; isExpanded := false; hasChildren := false; children := [];
     activityCount := None;
     task_id := Some (Activity.task_id a);
     wbs_id := Some (Activity.wbs_id a);
     duration_days := Some (Activity.duration_days a);
     progress_pct := Some (Activity.progress_pct a);
     total_float_days := Some (Activity.total_float_days a);
     early_start_date := Activity.early_start_date a;
     early_end_date := Activity.early_end_date a;
     actual_start_date := Activity.actual_start_date a;
     actual_end_date := Activity.actual_end_date a;
     task_type := Some (Activity.task_type a);
     status_code := Some (Activity.status_code a) |}.

(** The WBS row (lines 328-341): [...rollupData] fills the aggregates. *)
Definition wbsNode (lvl : nat) (w : WBSItem.t) (wbsActivities : list Activity.t)
    (hasChildWBS : bool) (allDescendantActivities : list Activity.t) : TreeNode :=
  let rollupData := calculateWBSRollups allDescendantActivities in
  {| id := "wbs-" +:+ WBSItem.wbs_id w; type := wbs;
     code := orString (WBSItem.wbs_code w) ("L" +:+ pretty (WBSItem.level w));
     name := orString (WBSItem.wbs_name w) "Unnamed WBS";
     level := lvl;
     isExpanded := bool_decide (WBSItem.wbs_id w ∈ expandedWBS);
     hasChildren := hasChildWBS || (0 <? Z.of_nat (length wbsActivities))%Z;
     children := [];
     activityCount := Some (length allDescendantActivities);
     task_id := None;
     wbs_id := Some (WBSItem.wbs_id w);
     duration_days := Some (rollup_duration_days rollupData);
     progress_pct := Some (inject_Z (rollup_progress_pct rollupData));
     total_float_days := Some (rollup_total_float_days rollupData);
     early_start_date := rollup_early_start_date rollupData;
     early_end_date := rollup_early_end_date rollupData;
     actual_start_date := None; actual_end_date := None;
     task_type := Some "WBS"; status_code := None |}.

(** [wbsActivities.sort(...)] after the recursive call: the array is the
    one the store holds under this id, if it holds one. *)
Definition sortStored (byWBS : gmap string (list Activity.t)) (wbsId : string)
    : gmap string (list Activity.t) * list Activity.t :=
  match byWBS !! wbsId with
  | Some l => (<[wbsId := sortBy compareActivities l]> byWBS, sortBy compareActivities l)
  | None => (byWBS, [])
  end.

(** [buildWBSNodes] (lines 309-395). *)
Fixpoint buildWBSNodes (fuel : nat) (byWBS : gmap string (list Activity.t))
    (parentId : option string) (lvl : nat)
    : option (gmap string (list Activity.t) * list TreeNode) :=
  match fuel with
  | O => None
  | S fuel' =>
      let childWBS := sortBy compareWBS (List.filter (isChildOf parentId) wbsStructure) in
      forEachM (λ byWBS w,
        let wbsActivities := default [] (byWBS !! WBSItem.wbs_id w) in
        let hasChildWBS :=
          existsb (λ c, bool_decide (WBSItem.parent_wbs_id c = Some (WBSItem.wbs_id w)))
                  wbsStructure in
        match getAllDescendantActivities fuel' byWBS (WBSItem.wbs_id w) with
        | None => None
        | Some allDescendantActivities =>
            let node := wbsNode lvl w wbsActivities hasChildWBS allDescendantActivities in
            if bool_decide (WBSItem.wbs_id w ∈ expandedWBS)
            then
              match (if hasChildWBS
                     then buildWBSNodes fuel' byWBS (Some (WBSItem.wbs_id w)) (lvl + 1)
                     else Some (byWBS, [])) with
              | None => None
              | Some (byWBS1, sub) =>
                  let '(byWBS2, sorted) := sortStored byWBS1 (WBSItem.wbs_id w) in
                  Some (byWBS2, node :: sub ++ List.map (activityNode (lvl + 1)) sorted)
              end
            else Some (byWBS, [node])
        end) byWBS childWBS
  end.

(** [treeData] (lines 266-438); [projectSummary] is state of the page. *)
Definition treeData (fuel : nat) (projectSummary : option ProjectSummary)
    : option (list TreeNode) :=
  if bool_decide (length wbsStructure = 0%nat ∨ length activities = 0%nat) then Some []
  else
    match projectSummary with
    | None => Some []
    | Some summary =>
        if bool_decide ("project-root" ∈ expandedWBS)
        then
          match buildWBSNodes fuel activitiesByWBS None 1 with
          | None => None
          | Some (_, tree) => Some (projectNode summary :: tree)
          end
        else Some [projectNode summary]
    end.
End TreeData.

(** The three counters of [calculateEnhancedProjectSummary] that classify the
    activities by progress, and the counter of critical activities (lines
    253-257). *)
Definition countIf (keep : Activity.t → bool) (activities : list Activity.t) : nat :=
  length (List.filter keep activities).

Definition isCompleted (a : Activity.t) : bool :=
  Qle_bool 100 (orZero (Activity.progress_pct a)).
Definition isInProgress (a : Activity.t) : bool :=
  Qltb 0 (orZero (Activity.progress_pct a)) && Qltb (orZero (Activity.progress_pct a)) 100.
Definition isNotStarted (a : Activity.t) : bool :=
  Qeq_bool (orZero (Activity.progress_pct a)) 0.
Definition isCriticalActivity (a : Activity.t) : bool :=
  Qeq_bool (orZero (Activity.total_float_days a)) 0.

(** The part of [interface ProjectSummary] that [calculateEnhancedProjectSummary]
    computes from the fields of the activities modelled here; the statistics
    of the activity codes and of the user defined fields are left out. *)
Record SummaryCounts := {
  summary : ProjectSummary;
  critical_activities : nat;
  completed_activities : nat;
  in_progress_activities : nat;
  not_started_activities : nat;
  total_activities : nat
}.

(** [calculateEnhancedProjectSummary] (lines 200-263). *)
Definition calculateEnhancedProjectSummary (activities : list Activity.t) : SummaryCounts :=
  match activities with
  | [] =>
      {| summary := {| project_start := None; project_finish := None;
                       total_duration := 0; overall_progress := 0 |};
         critical_activities := 0; completed_activities := 0;
         in_progress_activities := 0; not_started_activities := 0;
         total_activities := 0 |}
  | _ :: _ =>
      let valid := validActivities activities in
      let total_duration :=
        reduce_sum (λ a, orZero (Activity.duration_days a)) activities in
      let overall_progress :=
        if Qlt_le_dec 0 total_duration
        then (reduce_sum
                (λ a, orZero (Activity.progress_pct a) * orZero (Activity.duration_days a))
                activities / total_duration)%Q
        else 0%Q in
      {| summary := {| project_start := minStart valid; project_finish := maxEnd valid;
                       total_duration := total_duration;
                       overall_progress := Math_round overall_progress |};
         critical_activities := countIf isCriticalActivity activities;
         completed_activities := countIf isCompleted activities;
         in_progress_activities := countIf isInProgress activities;
         not_started_activities := countIf isNotStarted activities;
         total_activities := length activities |}
  end.

(** [toggleWBS] (lines 440-448). *)
Definition toggleWBS (expandedWBS : gset string) (nodeId : string) : gset string :=
  toggleIn expandedWBS nodeId.

(** The click handler of a row (lines 827-835), as the change it makes to the
    expanded set: a project row toggles ['project-root'], a WBS row with
    children toggles [node.id.replace('wbs-', '')], any other row leaves the
    set as it is. *)
Definition clickRow (expandedWBS : gset string) (node : TreeNode) : gset string :=
  match type node with
  | project => toggleWBS expandedWBS "project-root"
  | wbs =>
      if hasChildren node then toggleWBS expandedWBS (replaceFirst "wbs-" "" (id node))
      else expandedWBS
  | activity => expandedWBS
  end.

(** The expanded set after a load (lines 173-178): it is set when the load
    returned a WBS list that is not empty, and left as it is otherwise. *)
Definition expandedAfterLoad (expandedWBS : gset string) (wbs_structure : list WBSItem.t)
    : gset string :=
  if (0 <? Z.of_nat (length wbs_structure))%Z
  then
    let rootWBS :=
      List.map WBSItem.wbs_id
        (List.filter (λ w, bool_decide (WBSItem.proj_node_flag w = "Y")
                           || (WBSItem.level w <=? 1))
                     wbs_structure) in
    list_to_set ("project-root" :: take 3 rootWBS)
  else expandedWBS.

(** [getActivityIcon] (lines 463-477); a field that is absent reads as
    [undefined], which [|| 0] turns into 0. *)
Definition getActivityIcon (node : TreeNode) : string :=
  match type node with
  | project => "🏗️"
  | wbs =>
      let colors := ["🟦"; "🟩"; "🟨"; "🟧"; "🟪"] in
      orString (default "" (colors !! (level node `mod` length colors)%nat)) "📁"
  | activity =>
      let isCritical := Qeq_bool (orZero (default 0%Q (total_float_days node))) 0 in
      let progress := orZero (default 0%Q (progress_pct node)) in
      if isCritical then "🔴"
      else if Qle_bool 100 progress then "✅"
      else if Qltb 0 progress then "🟡"
      else "⚪"
  end.

End EnhancedActivitiesPage.

(** ** GanttChart.tsx *)

Module GanttChart.

(** [24 * 60 * 60 * 1000]. *)
Definition msPerDay : Z := 24 * 60 * 60 * 1000.

(** The object [projectTimeline] holds. *)
Record Timeline := {
  start : Z;
  end_ : Z;
  projectStart : Z;
  projectEnd : Z;
  totalDays : num
}.

(** [projectTimeline] (lines 105-129). *)
Definition projectTimeline (activities : list Activity.t) : option Timeline :=
  if bool_decide (length activities = 0%nat) then None
  else
    let valid := validActivities activities in
    match minStart valid, maxEnd valid with
    | Some projectStart, Some projectEnd =>
        let padDays := 30 in
        let timelineStart := projectStart - padDays * 24 * 60 * 60 * 1000 in
        let timelineEnd := projectEnd + padDays * 24 * 60 * 60 * 1000 in
        Some {| start := timelineStart; end_ := timelineEnd;
                projectStart := projectStart; projectEnd := projectEnd;
                totalDays :=
                  num_ceil (num_div (num_of_Z (timelineEnd - timelineStart))
                                    (num_of_Z msPerDay)) |}
    | _, _ => None
    end.

(** [interface GanttNode]; only the two kinds ['wbs'] and ['activity'] occur. *)
Record GanttNode := {
  id : string;
  type : NodeType;
  name : string;
  level : nat;
  isExpanded : bool;
  planned_start : option Z;
  planned_end : option Z;
  actual_start : option Z;
  actual_end : option Z;
  progress : Q;
  duration : Q;
  float : Q;
  isCritical : bool;
  color : string;
  task_id : option string;
  wbs_code : option string;
  activityCount : option nat
}.

(** The locals of the WBS summary block. *)
Record Summary := {
  wbsStart : option Z;
  wbsEnd : option Z;
  totalDuration : Q;
  weightedProgress : Q
}.

(** The WBS summary block of [buildWBSNodes] (lines 191-209): the duration
    and the progress are assigned inside the branch for a non-empty
    [validActivities] only. *)
Definition wbsSummary (wbsActivities : list Activity.t) : Summary :=
  let none :=
    {| wbsStart := None; wbsEnd := None; totalDuration := 0; weightedProgress := 0 |} in
  if (0 <? Z.of_nat (length wbsActivities))%Z then
    let valid := validActivities wbsActivities in
    if (0 <? Z.of_nat (length valid))%Z then
      let totalDuration :=
        reduce_sum (λ a, orZero (Activity.duration_days a)) wbsActivities in
      {| wbsStart := minStart valid;
         wbsEnd := maxEnd valid;
         totalDuration := totalDuration;
         weightedProgress :=
           if Qlt_le_dec 0 totalDuration
           then (reduce_sum
                   (λ a, orZero (Activity.progress_pct a) * orZero (Activity.duration_days a))
                   wbsActivities / totalDuration)%Q
           else 0%Q |}
    else none
  else none.

Inductive BarType := planned | actual.

(** The style object of a bar: [{ display: 'none' }] or the four properties. *)
Inductive BarStyle :=
| DisplayNone
| Bar (leftPercent widthPercent : num) (backgroundColor : string) (opacity : Q).

(** [calculateBarStyle] (lines 274-295). *)
Definition calculateBarStyle (projectTimeline : option Timeline) (showCriticalPath : bool)
    (node : GanttNode) (barType : BarType) : BarStyle :=
  match projectTimeline with
  | None => DisplayNone
  | Some timeline =>
      let startDate :=
        match barType with planned => planned_start node | actual => actual_start node end in
      let endDate :=
        match barType with planned => planned_end node | actual => actual_end node end in
      match startDate, endDate with
      | Some s, Some e =>
          let startOffset := num_div (num_of_Z (s - start timeline)) (num_of_Z msPerDay) in
          let duration := num_div (num_of_Z (e - s)) (num_of_Z msPerDay) in
          let leftPercent := num_mul (num_div startOffset (totalDays timeline)) (Fin 100) in
          let widthPercent :=
            num_max (num_mul (num_div duration (totalDays timeline)) (Fin 100))
                    (Fin (1 # 2)) in
          Bar leftPercent widthPercent (color node)
              (if showCriticalPath then (if isCritical node then 1 else 7 # 10) else 1)%Q
      | _, _ => DisplayNone
      end
  end.

Section GanttData.
Variable localeCompare : string → string → Z.
Variable activities : list Activity.t.
Variable wbsStructure : list WBSItem.t.
Variable expandedWBS : gset string.

(** Lines 170-177. *)
Definition activitiesByWBS : gmap string (list Activity.t) :=
  groupByWBS Activity.wbs_id activities.

(** The filter of [buildWBSNodes] (lines 181-184). *)
Definition isChildOf (parentId : option string) (w : WBSItem.t) : bool :=
  match parentId with
  | None => bool_decide (WBSItem.level w = 0) || falsy (WBSItem.parent_wbs_id w)
  | Some pid => bool_decide (WBSItem.parent_wbs_id w = Some pid)
  end.

(** The comparator of the activities (lines 234-238). *)
Definition compareActivities (a b : Activity.t) : Z :=
  getTime (Activity.early_start_date a) - getTime (Activity.early_start_date b).

(** The WBS row (lines 211-228). *)
Definition wbsNode (lvl : nat) (w : WBSItem.t) (wbsActivities : list Activity.t)
    : GanttNode :=
  let summary := wbsSummary wbsActivities in
  {| id := "wbs-" +:+ WBSItem.wbs_id w; type := wbs;
     name := WBSItem.wbs_name w;
     level := lvl;
     isExpanded := bool_decide (WBSItem.wbs_id w ∈ expandedWBS);
     planned_start := wbsStart summary;
     planned_end := wbsEnd summary;
     actual_start := None; actual_end := None;
     progress := inject_Z (Math_round (weightedProgress summary));
     duration := totalDuration summary;
     float := 0;
     isCritical := false;
     color := "hsl(" +:+ pretty ((lvl * 60) `mod` 360)%nat +:+ ", 60%, 70%)";
     task_id := None;
     wbs_code := Some (WBSItem.wbs_id w);
     activityCount := Some (length wbsActivities) |}.

(** An activity row (lines 240-261). *)
Definition activityNode (lvl : nat) (a : Activity.t) : GanttNode :=
  let isCritical := Qeq_bool (orZero (Activity.total_float_days a)) 0 in
  {| id := "activity-" +:+ Activity.task_id a; type := activity;
     name := Activity.task_name a;
     level := lvl;
     isExpanded := false;
     planned_start := Activity.early_start_date a;
     planned_end := Activity.early_end_date a;
     actual_start := Activity.actual_start_date a;
     actual_end := Activity.actual_end_date a;
     progress := orZero (Activity.progress_pct a);
     duration := orZero (Activity.duration_days a);
     float := orZero (Activity.total_float_days a);
     isCritical := isCritical;
     color :=
       if isCritical then "#FF5722"
       else if Qle_bool 100 (Activity.progress_pct a) then "#4CAF50"
       else if Qltb 0 (Activity.progress_pct a) then "#2196F3"
       else "#9E9E9E";
     task_id := Some (Activity.task_id a);
     wbs_code := Some (Activity.wbs_id a);
     activityCount := None |}.

(** [buildWBSNodes] (lines 179-267). *)
Fixpoint buildWBSNodes (fuel : nat) (byWBS : gmap string (list Activity.t))
    (parentId : option string) (lvl : nat)
    : option (gmap string (list Activity.t) * list GanttNode) :=
  match fuel with
  | O => None
  | S fuel' =>
      let childWBS :=
        sortBy (λ a b, localeCompare (WBSItem.wbs_name a) (WBSItem.wbs_name b))
               (List.filter (isChildOf parentId) wbsStructure) in
      forEachM (λ byWBS w,
        let wbsActivities := default [] (byWBS !! WBSItem.wbs_id w) in
        let node := wbsNode lvl w wbsActivities in
        if bool_decide (WBSItem.wbs_id w ∈ expandedWBS)
        then
          let sorted := sortBy compareActivities wbsActivities in
          let byWBS1 :=
            match byWBS !! WBSItem.wbs_id w with
            | Some _ => <[WBSItem.wbs_id w := sorted]> byWBS
            | None => byWBS
            end in
          match buildWBSNodes fuel' byWBS1 (Some (WBSItem.wbs_id w)) (lvl + 1) with
          | None => None
          | Some (byWBS2, sub) =>
              Some (byWBS2, node :: List.map (activityNode (lvl + 1)) sorted ++ sub)
          end
        else Some (byWBS, [node])) byWBS childWBS
  end.

(** [ganttData] (lines 166-271). *)
Definition ganttData (fuel : nat) : option (list GanttNode) :=
  match projectTimeline activities with
  | None => Some []
  | Some _ =>
      if bool_decide (length wbsStructure = 0%nat) then Some []
      else
        match buildWBSNodes fuel activitiesByWBS None 0 with
        | None => None
        | Some (_, nodes) => Some nodes
        end
  end.
End GanttData.

(** [toggleWBS] (lines 297-305). *)
Definition toggleWBS (expandedWBS : gset string) (wbsId : string) : gset string :=
  toggleIn expandedWBS wbsId.

(** The expanded set after a load (lines 87-90). *)
Definition expandedAfterLoad (wbs_structure : list WBSItem.t) : gset string :=
  let rootWBS :=
    List.map WBSItem.wbs_id (List.filter (λ w, WBSItem.level w <=? 1) wbs_structure) in
  list_to_set ("project-root" :: take 3 rootWBS).

(** The test of the today line (lines 902-909), for the current time [today]
    in milliseconds: [todayPercent >= 0 && todayPercent <= 100]. *)
Definition todayPercent (timeline : Timeline) (today : Z) : num :=
  let todayOffset := num_div (num_of_Z (today - start timeline)) (num_of_Z msPerDay) in
  num_mul (num_div todayOffset (totalDays timeline)) (Fin 100).

(** [a <= b] on numbers: false when either is NaN, and -0 equals +0. *)
Definition num_leb (a b : num) : bool :=
  match a, b with
  | NaN, _ | _, NaN => false
  | NegInf, _ | _, PosInf => true
  | PosInf, _ | _, NegInf => false
  | _, _ => Qle_bool (num_val a) (num_val b)
  end.

Definition todayLineShown (projectTimeline : option Timeline) (today : Z) : bool :=
  match projectTimeline with
  | None => false
  | Some timeline =>
      num_leb (Fin 0) (todayPercent timeline today)
      && num_leb (todayPercent timeline today) (Fin 100)
  end.

End GanttChart.

(** ** The arrays as objects

    The builders of the activities page and of the Gantt chart sort arrays in
    place, and a sort in place is seen by whoever holds the same array.  Here
    an array is an object of a heap, named by its address: the state of a
    page holds the addresses of [activities] and [wbsStructure], the Map
    [activitiesByWBS] holds addresses of arrays of activities, and an
    expanded set is a [Set] instance, given by its elements in insertion
    order. *)

Module Heap.
Record t := mk {
  activityArrays : gmap nat (list Activity.t);
  wbsArrays : gmap nat (list WBSItem.t)
}.

Definition activitiesAt (h : t) (l : nat) : list Activity.t :=
  default [] (activityArrays h !! l).

Definition wbsAt (h : t) (l : nat) : list WBSItem.t :=
  default [] (wbsArrays h !! l).

(** A new array of activities: an array literal, or the result of [filter]. *)
Definition newActivities (xs : list Activity.t) (h : t) : nat * t :=
  let l := fresh (dom (activityArrays h)) in
  (l, {| activityArrays := <[l := xs]> (activityArrays h); wbsArrays := wbsArrays h |}).

(** A write to the array at [l]: [push] and [sort] read the array and write
    it back. *)
Definition setActivities (l : nat) (xs : list Activity.t) (h : t) : t :=
  {| activityArrays := <[l := xs]> (activityArrays h); wbsArrays := wbsArrays h |}.

Definition newWBS (xs : list WBSItem.t) (h : t) : nat * t :=
  let l := fresh (dom (wbsArrays h)) in
  (l, {| activityArrays := activityArrays h; wbsArrays := <[l := xs]> (wbsArrays h) |}).

Definition setWBS (l : nat) (xs : list WBSItem.t) (h : t) : t :=
  {| activityArrays := activityArrays h; wbsArrays := <[l := xs]> (wbsArrays h) |}.

(** What a Map of arrays holds: for each key the contents of its array. *)
Definition view (h : t) (byWBS : gmap string nat) : gmap string (list Activity.t) :=
  activitiesAt h <$> byWBS.

(** [if (!map.has(wbsId)) map.set(wbsId, []); map.get(wbsId).push(activity)]
    for [wbsId = key(activity)]: the body of the loop that groups the
    activities. *)
Definition pushByKey (key : Activity.t → string) (state : gmap string nat * t)
    (activity : Activity.t) : gmap string nat * t :=
  let '(byWBS, h) := state in
  let wbsId := key activity in
  let '(byWBS, h) :=
    match byWBS !! wbsId with
    | Some _ => (byWBS, h)
    | None => let '(l, h) := newActivities [] h in (<[wbsId := l]> byWBS, h)
    end in
  match byWBS !! wbsId with
  | Some l => (byWBS, setActivities l (activitiesAt h l ++ [activity]) h)
  | None => (byWBS, h)
  end.

(** [const map = new Map(); activities.forEach(activity => {...})] for the
    array at [activities]. *)
Definition groupByWBS (key : Activity.t → string) (activities : nat) (h : t)
  : gmap string nat * t :=
  fold_left (pushByKey key) (activitiesAt h activities) (∅, h).

(** [expandedNodes.has(x)] for a [Set] instance. *)
Definition has (instance : list string) (x : string) : bool :=
  bool_decide (x ∈ instance).

(** The members of a [Set] instance. *)
Definition members (instance : list string) : gset string := list_to_set instance.
End Heap.

(** *** ActivitiesPage.tsx on the heap *)

Module ActivitiesPageHeap.
Section Hierarchy.
Variable localeCompare : string → string → Z.
Variable activities : nat.
Variable wbsStructure : nat.
Variable projectInfo : ActivitiesPage.ProjectInfo.
Variable expandedNodes : list string.

(** Lines 172-180. *)
Definition activitiesByWBS (h : Heap.t) : gmap string nat * Heap.t :=
  Heap.groupByWBS (λ a, orString (Activity.wbs_id a) "unassigned") activities h.

(** [buildWBSTree] (lines 242-316).  [wbsStructure.filter(...)] is a new
    array, which [sort] sorts in place and [forEach] walks;
    [getAllDescendantActivities] and [calculateWBSStats] only read;
    [directActivities] is the array of the Map, and
    [directActivities.sort(...)] writes it. *)
Fixpoint buildWBSTree (fuel : nat) (byWBS : gmap string nat)
    (parentWbsId : option string) (lvl : nat) (h : Heap.t)
    : option (Heap.t * list ActivitiesPage.HierarchyNode) :=
  match fuel with
  | O => None
  | S fuel' =>
      let '(childrenWBS, h) :=
        Heap.newWBS (List.filter (ActivitiesPage.isChildOf projectInfo parentWbsId)
                       (Heap.wbsAt h wbsStructure)) h in
      let h :=
        Heap.setWBS childrenWBS
          (sortBy (λ a b, localeCompare (WBSItem.wbs_name a) (WBSItem.wbs_name b))
             (Heap.wbsAt h childrenWBS)) h in
      forEachM (λ h w,
        match ActivitiesPage.getAllDescendantActivities (Heap.wbsAt h wbsStructure) fuel'
                (Heap.view h byWBS) (WBSItem.wbs_id w) with
        | None => None
        | Some allDescendantActivities =>
            let directActivities := default [] (Heap.view h byWBS !! WBSItem.wbs_id w) in
            let stats :=
              ActivitiesPage.calculateWBSStats (WBSItem.wbs_id w) allDescendantActivities in
            let node :=
              ActivitiesPage.wbsNode (Heap.members expandedNodes) parentWbsId lvl w
                directActivities stats in
            let sorted := sortBy (ActivitiesPage.compareActivities localeCompare) directActivities in
            let shown :=
              Heap.has expandedNodes (WBSItem.wbs_id w)
              && (0 <? Z.of_nat (length directActivities))%Z in
            let h1 :=
              if shown
              then match byWBS !! WBSItem.wbs_id w with
                   | Some l => Heap.setActivities l sorted h
                   | None => h
                   end
              else h in
            let rows :=
              if shown
              then List.map (ActivitiesPage.activityNode (lvl + 1) (WBSItem.wbs_id w)) sorted
              else [] in
            match buildWBSTree fuel' byWBS (Some (WBSItem.wbs_id w)) (lvl + 1) h1 with
            | None => None
            | Some (h2, sub) => Some (h2, node :: rows ++ sub)
            end
        end) h (Heap.wbsAt h childrenWBS)
  end.

(** The body of [hierarchy] once [projectInfo] is known (lines 164-358). *)
Definition hierarchyWith (fuel : nat) (h : Heap.t)
  : option (Heap.t * list ActivitiesPage.HierarchyNode) :=
  let '(byWBS, h) := activitiesByWBS h in
  let projectNode :=
    ActivitiesPage.projectNode (Heap.wbsAt h wbsStructure) projectInfo
      (Heap.members expandedNodes) in
  if Heap.has expandedNodes "project-root"
  then
    match buildWBSTree fuel byWBS None 1 h with
    | None => None
    | Some (h, tree) =>
        Some (h, projectNode :: tree
                   ++ ActivitiesPage.unassignedRows (Heap.members expandedNodes)
                        (Heap.view h byWBS))
    end
  else Some (h, [projectNode]).
End Hierarchy.

(** [hierarchy] (lines 151-359) for the arrays at [activities] and
    [wbsStructure] and the [Set] instance [expandedNodes]. *)
Definition hierarchy (localeCompare : string → string → Z) (fuel : nat)
    (activities wbsStructure : nat) (projectInfo : option ActivitiesPage.ProjectInfo)
    (expandedNodes : list string) (h : Heap.t)
    : option (Heap.t * list ActivitiesPage.HierarchyNode) :=
  match projectInfo with
  | None => Some (h, [])
  | Some info => hierarchyWith localeCompare activities wbsStructure info expandedNodes fuel h
  end.
End ActivitiesPageHeap.

(** *** GanttChart.tsx on the heap *)

Module GanttChartHeap.
Section GanttData.
Variable localeCompare : string → string → Z.
Variable activities : nat.
Variable wbsStructure : nat.
Variable expandedWBS : list string.

(** Lines 170-177. *)
Definition activitiesByWBS (h : Heap.t) : gmap string nat * Heap.t :=
  Heap.groupByWBS Activity.wbs_id activities h.

(** [buildWBSNodes] (lines 179-267): [wbsActivities] is the array of the Map
    when the Map has the key, and [wbsActivities.sort(...)] then writes it. *)
Fixpoint buildWBSNodes (fuel : nat) (byWBS : gmap string nat)
    (parentId : option string) (lvl : nat) (h : Heap.t)
    : option (Heap.t * list GanttChart.GanttNode) :=
  match fuel with
  | O => None
  | S fuel' =>
      let '(childWBS, h) :=
        Heap.newWBS (List.filter (GanttChart.isChildOf parentId)
                       (Heap.wbsAt h wbsStructure)) h in
      let h :=
        Heap.setWBS childWBS
          (sortBy (λ a b, localeCompare (WBSItem.wbs_name a) (WBSItem.wbs_name b))
             (Heap.wbsAt h childWBS)) h in
      forEachM (λ h w,
        let wbsActivities := default [] (Heap.view h byWBS !! WBSItem.wbs_id w) in
        let node := GanttChart.wbsNode (Heap.members expandedWBS) lvl w wbsActivities in
        if Heap.has expandedWBS (WBSItem.wbs_id w)
        then
          let sorted := sortBy GanttChart.compareActivities wbsActivities in
          let h1 :=
            match byWBS !! WBSItem.wbs_id w with
            | Some l => Heap.setActivities l sorted h
            | None => h
            end in
          match buildWBSNodes fuel' byWBS (Some (WBSItem.wbs_id w)) (lvl + 1) h1 with
          | None => None
          | Some (h2, sub) =>
              Some (h2, node :: List.map (GanttChart.activityNode (lvl + 1)) sorted ++ sub)
          end
        else Some (h, [node])) h (Heap.wbsAt h childWBS)
  end.

(** [ganttData] (lines 166-271). *)
Definition ganttData (fuel : nat) (h : Heap.t) : option (Heap.t * list GanttChart.GanttNode) :=
  match GanttChart.projectTimeline (Heap.activitiesAt h activities) with
  | None => Some (h, [])
  | Some _ =>
      if bool_decide (length (Heap.wbsAt h wbsStructure) = 0%nat) then Some (h, [])
      else
        let '(byWBS, h) := activitiesByWBS h in
        buildWBSNodes fuel byWBS None 0 h
  end.
End GanttData.
End GanttChartHeap.

(** ** The weighted average in binary64

    A JavaScript number is an IEEE 754 binary64 value and every operation
    rounds to the nearest, ties to even; the primitive floats compute just
    that.  [avgProgress] below is the expression of [calculateWBSRollups]
    (EnhancedActivitiesPage.tsx, lines 421-423) on the two fields it reads. *)

Module Doubles.

Record Activity := {
  progress_pct : float;
  duration_days : float
}.

(** [x || 0] on a number: 0, -0 and NaN are falsy. *)
Definition orZero (x : float) : float :=
  if PrimFloat.eqb x 0%float || negb (PrimFloat.eqb x x) then 0%float else x.

(** [xs.reduce((sum, a) => sum + f(a), 0)]. *)
Definition reduce_sum {A} (f : A → float) (xs : list A) : float :=
  fold_left (λ sum a, PrimFloat.add sum (f a)) xs 0%float.

Definition totalDuration (descendantActivities : list Activity) : float :=
  reduce_sum (λ a, orZero (duration_days a)) descendantActivities.

Definition avgProgress (descendantActivities : list Activity) : float :=
  if PrimFloat.ltb 0%float (totalDuration descendantActivities)
  then PrimFloat.div
         (reduce_sum (λ a, PrimFloat.mul (orZero (progress_pct a)) (orZero (duration_days a)))
            descendantActivities)
         (totalDuration descendantActivities)
  else 0%float.

(** The progress lies within 0..100 and the duration is not negative. *)
Definition inRange (a : Activity) : bool :=
  PrimFloat.leb 0%float (progress_pct a) && PrimFloat.leb (progress_pct a) 100%float
  && PrimFloat.leb 0%float (duration_days a).

End Doubles.

(** * Properties *)

(** ** Vocabulary of the statements *)

(** The sum the specification writes as Σ f(a_i). *)
Definition sigma {A} (f : A → Q) (l : list A) : Q :=
  foldr (λ a s, (f a + s)%Q) 0%Q l.

(** The unweighted arithmetic mean of [f] over a list. *)
Definition mean {A} (f : A → Q) (l : list A) : Q :=
  (sigma f l / inject_Z (Z.of_nat (length l)))%Q.

(** Σ(progress_i * duration_i) / Σ(duration_i). *)
Definition weighted (l : list Activity.t) : Q :=
  (sigma (λ a, Activity.progress_pct a * Activity.duration_days a) l
   / sigma Activity.duration_days l)%Q.

(** The average progress as the specification describes it, for a calculator
    [avg] and a list [l] of activities. *)
Definition avgProgress_as_specified (avg : list Activity.t → Q) (l : list Activity.t) : Prop :=
  ((0 < sigma Activity.duration_days l)%Q → (avg l == weighted l)%Q)
  ∧ (l ≠ [] → (sigma Activity.duration_days l == 0)%Q → (avg l == mean Activity.progress_pct l)%Q)
  ∧ (l = [] → (avg l == 0)%Q).

(** The three calculators of the average. *)
Definition avg_ActivitiesPage (l : list Activity.t) : Q :=
  ActivitiesPage.avgProgress (ActivitiesPage.calculateWBSStats "W1" l).
Definition avg_Enhanced (l : list Activity.t) : Q :=
  EnhancedActivitiesPage.avgProgress l.
Definition avg_Gantt (l : list Activity.t) : Q :=
  GanttChart.weightedProgress (GanttChart.wbsSummary l).

(** Sample data: an activity with the given id, WBS id, duration, progress and
    early dates, zero float and no actual dates. *)
Definition act (task wbsId : string) (dur prog : Q) (s e : option Z) : Activity.t :=
  Activity.mk task ("Task " +:+ task) "" wbsId dur s e None None prog 0 "TT_Task" "TK_Active".

(** A WBS item with the given id, name and parent. *)
Definition item (wbsId wbsName : string) (parent : option string) (lvl : Z) : WBSItem.t :=
  WBSItem.mk wbsId wbsName "" parent "N" lvl 0.

(** A collation for the samples: the order of the code units. *)
Definition codeUnitCompare (a b : string) : Z :=
  match String.compare a b with
  | Lt => -1
  | Eq => 0
  | Gt => 1
  end.

(** 2024-01-01 and 2024-01-10, in milliseconds since the epoch. *)
Definition jan01 : Z := 1704067200000.
Definition jan10 : Z := 1704844800000.

(** Two activities of durations 1 and 3 with progress 100 and 0. *)
Definition twoActivities : list Activity.t :=
  [act "T1" "W1" 1 100 (Some jan01) (Some jan10);
   act "T2" "W1" 3 0 (Some jan01) (Some jan10)].

(** One activity of duration 0 and progress 50. *)
Definition zeroDuration : list Activity.t :=
  [act "T1" "W1" 0 50 (Some jan01) (Some jan10)].

(** One activity of duration 10 with a start date and no end date. *)
Definition noEndDate : list Activity.t :=
  [act "T1" "W1" 10 50 (Some jan01) None].

(** Progress within 0..100 and a duration that is not negative. *)
Definition inRange (a : Activity.t) : Prop :=
  (0 <= Activity.progress_pct a)%Q ∧ (Activity.progress_pct a <= 100)%Q
  ∧ (0 <= Activity.duration_days a)%Q.

(** 2024-01-31 and 2024-03-01: thirty and sixty days after 2024-01-01. *)
Definition jan31 : Z := 1706659200000.
Definition mar01 : Z := 1709251200000.

(** An activity whose early end lies sixty days before its early start, and
    that actually started and finished on 2024-01-31. *)
Definition invertedActivity : Activity.t :=
  Activity.mk "T1" "Milestone" "" "W1" 0 (Some mar01) (Some jan01) (Some jan31) (Some jan31)
              100 0 "TT_Mile" "TK_Complete".

(** The start and the end of the bar [barType] of a node. *)
Definition barStart (node : GanttChart.GanttNode) (barType : GanttChart.BarType) : option Z :=
  match barType with
  | GanttChart.planned => GanttChart.planned_start node
  | GanttChart.actual => GanttChart.actual_start node
  end.

Definition barEnd (node : GanttChart.GanttNode) (barType : GanttChart.BarType) : option Z :=
  match barType with
  | GanttChart.planned => GanttChart.planned_end node
  | GanttChart.actual => GanttChart.actual_end node
  end.

(** Sample project data. *)
Definition plant : ActivitiesPage.ProjectInfo :=
  {| ActivitiesPage.project_id := 1; ActivitiesPage.project_name := "Plant";
     ActivitiesPage.schedule_name := "Baseline"; ActivitiesPage.schedule_id := 7 |}.

Definition plantSchedule : EnhancedActivitiesPage.Schedule :=
  {| EnhancedActivitiesPage.schedule_name := "Baseline";
     EnhancedActivitiesPage.proj_id := "P-1";
     EnhancedActivitiesPage.proj_short_name := "Plant" |}.

Definition plantSummary : EnhancedActivitiesPage.ProjectSummary :=
  {| EnhancedActivitiesPage.project_start := Some jan01;
     EnhancedActivitiesPage.project_finish := Some jan10;
     EnhancedActivitiesPage.total_duration := 4;
     EnhancedActivitiesPage.overall_progress := 25 |}.

(** One root-level WBS item. *)
Definition onePhase : list WBSItem.t := [item "W1" "Phase A" None 0].

(** A phase with one sub-phase, and one activity in each. *)
Definition nestedPhases : list WBSItem.t :=
  [item "P" "Phase" None 0; item "C" "Civil works" (Some "P") 1].

Definition nestedActivities : list Activity.t :=
  [act "T1" "P" 2 0 (Some jan01) (Some jan10); act "T2" "C" 3 0 (Some jan01) (Some jan10)].

(** An activity that names a WBS id no item has, and one without WBS id. *)
Definition strayActivities : list Activity.t :=
  [act "T1" "ZZZ" 5 0 (Some jan01) (Some jan10); act "T2" "" 5 0 (Some jan01) (Some jan10)].

(** Two WBS items that name each other as parent; the parent of the second
    is also the id of the project [plant], which makes it root-level. *)
Definition mutualParents : list WBSItem.t :=
  [item "1" "Area A" (Some "2") 1; item "2" "Area B" (Some "1") 1].

(** Two WBS items that name each other as parent, neither root-level, next to
    a regular phase. *)
Definition isolatedCycle : list WBSItem.t :=
  [item "R" "Phase" None 0; item "A" "Area A" (Some "B") 1; item "B" "Area B" (Some "A") 1].

(** The WBS ids the traversal of [buildWBSTree] visits: the ids of the
    root-level items and of the children of a visited id. *)
Inductive reached (wbsStructure : list WBSItem.t) (info : ActivitiesPage.ProjectInfo)
  : string → Prop :=
| reached_root w :
    w ∈ wbsStructure →
    ActivitiesPage.isChildOf info None w = true →
    reached wbsStructure info (WBSItem.wbs_id w)
| reached_child w p :
    w ∈ wbsStructure →
    WBSItem.parent_wbs_id w = Some p →
    reached wbsStructure info p →
    reached wbsStructure info (WBSItem.wbs_id w).

(** [descends wbs c p]: following the parent links from the id [c] leads, in
    one step or more, to the id [p]. *)
Inductive descends (wbsStructure : list WBSItem.t) : string → string → Prop :=
| descends_child w p :
    w ∈ wbsStructure →
    WBSItem.parent_wbs_id w = Some p →
    descends wbsStructure (WBSItem.wbs_id w) p
| descends_trans c q p :
    descends wbsStructure c q →
    descends wbsStructure q p →
    descends wbsStructure c p.

(** An id on a cycle of the parent links. *)
Definition onCycle (wbsStructure : list WBSItem.t) (i : string) : Prop :=
  descends wbsStructure i i.

(** The parent links below the root-level items are well-founded: a rank
    decreases from every visited id to its children. *)
Definition wellFoundedBelowRoots (wbsStructure : list WBSItem.t)
    (info : ActivitiesPage.ProjectInfo) (rank : string → nat) : Prop :=
  ∀ w p,
    w ∈ wbsStructure →
    WBSItem.parent_wbs_id w = Some p →
    reached wbsStructure info p →
    (rank (WBSItem.wbs_id w) < rank p)%nat.

(** The hierarchy of the activities page returns. *)
Definition terminates (localeCompare : string → string → Z) (activities : list Activity.t)
    (wbsStructure : list WBSItem.t) (projectInfo : option ActivitiesPage.ProjectInfo)
    (expandedNodes : gset string) : Prop :=
  ∃ fuel out,
    ActivitiesPage.hierarchy localeCompare fuel activities wbsStructure projectInfo
      expandedNodes = Some out.

(** An id with a cycle of the parent links at or below it. *)
Definition hasCycleBelow (wbsStructure : list WBSItem.t) (j : string) : Prop :=
  ∃ i, onCycle wbsStructure i ∧ (i = j ∨ descends wbsStructure i j).

(** A WBS row of the output belongs to a visited id. *)
Definition rowOfReached (wbsStructure : list WBSItem.t) (info : ActivitiesPage.ProjectInfo)
    (row : ActivitiesPage.HierarchyNode) : Prop :=
  ActivitiesPage.type row = wbs →
  ∀ i, ActivitiesPage.wbs_id row = Some i → reached wbsStructure info i.

(** Every child of [parent] is visited and ranks below [bound]. *)
Definition childrenRankBelow (wbsStructure : list WBSItem.t)
    (info : ActivitiesPage.ProjectInfo) (rank : string → nat) (bound : nat)
    (parent : option string) : Prop :=
  ∀ w, w ∈ wbsStructure → ActivitiesPage.isChildOf info parent w = true →
       reached wbsStructure info (WBSItem.wbs_id w)
       ∧ (rank (WBSItem.wbs_id w) < bound)%nat.

(** A milestone on 2024-01-10. *)
Definition milestone : Activity.t :=
  act "M1" "W1" 0 0 (Some jan10) (Some jan10).

(** The timeline of [twoActivities]: thirty days around 2024-01-01..2024-01-10. *)
Definition timelineOfTwo : GanttChart.Timeline :=
  {| GanttChart.start := jan01 - 30 * GanttChart.msPerDay;
     GanttChart.end_ := jan10 + 30 * GanttChart.msPerDay;
     GanttChart.projectStart := jan01;
     GanttChart.projectEnd := jan10;
     GanttChart.totalDays := Fin 69 |}.

(** The date range of a list of activities: the earliest early start and the
    latest early end among the activities that have both dates. *)
Definition isDateRange (l : list Activity.t) (startDate endDate : option Z) : Prop :=
  (∀ a s e,
     a ∈ l → Activity.early_start_date a = Some s → Activity.early_end_date a = Some e →
     ∃ s0 e0, startDate = Some s0 ∧ endDate = Some e0 ∧ s0 ≤ s ∧ e ≤ e0)
  ∧ (∀ s0, startDate = Some s0 →
       ∃ a, a ∈ l ∧ Activity.early_start_date a = Some s0
            ∧ is_Some (Activity.early_end_date a))
  ∧ (∀ e0, endDate = Some e0 →
       ∃ a, a ∈ l ∧ Activity.early_end_date a = Some e0
            ∧ is_Some (Activity.early_start_date a)).

(** Two stores hold, under every key, the same activities up to their order. *)
Definition sameBuckets (m m' : gmap string (list Activity.t)) : Prop :=
  ∀ k, default [] (m' !! k) ≡ₚ default [] (m !! k).

(** The key under which the activities page files an activity. *)
Definition bucketKey (a : Activity.t) : string := orString (Activity.wbs_id a) "unassigned".

(** [visitedAt wbs info lvl i]: the traversal of [buildWBSTree] visits a WBS
    item of id [i] at the level [lvl]; root-level items are at level 1. *)
Inductive visitedAt (wbsStructure : list WBSItem.t) (info : ActivitiesPage.ProjectInfo)
  : nat → string → Prop :=
| visitedAt_root w :
    w ∈ wbsStructure →
    ActivitiesPage.isChildOf info None w = true →
    visitedAt wbsStructure info 1 (WBSItem.wbs_id w)
| visitedAt_child w p lvl :
    w ∈ wbsStructure →
    WBSItem.parent_wbs_id w = Some p →
    visitedAt wbsStructure info lvl p →
    visitedAt wbsStructure info (lvl + 1) (WBSItem.wbs_id w).

(** A call of [buildWBSTree] at the level [lvl] that has an item of id [i]
    among the items it loops over happened, from a store that holds the
    buckets of [m0], and what it pushed is part of [out]. *)
Definition loopedOver (localeCompare : string → string → Z) (wbsStructure : list WBSItem.t)
    (info : ActivitiesPage.ProjectInfo) (expandedNodes : gset string)
    (m0 : gmap string (list Activity.t)) (out : list ActivitiesPage.HierarchyNode)
    (lvl : nat) (i : string) : Prop :=
  ∃ fuel m1 parent m1' sub w,
    ActivitiesPage.buildWBSTree localeCompare wbsStructure info expandedNodes
      (S fuel) m1 parent lvl = Some (m1', sub)
    ∧ sameBuckets m0 m1
    ∧ (∀ r, r ∈ sub → r ∈ out)
    ∧ w ∈ wbsStructure
    ∧ ActivitiesPage.isChildOf info parent w = true
    ∧ WBSItem.wbs_id w = i.

(** Where a row of the Gantt chart comes from: an input activity whose WBS id
    is expanded, below level 0, or a WBS item that is root-level and at level
    0 or whose parent is expanded, with the activities that carry its id. *)
Definition ganttRowOrigin (activities : list Activity.t) (wbsStructure : list WBSItem.t)
    (expandedWBS : gset string) (r : GanttChart.GanttNode) : Prop :=
  (∃ a lvl,
      r = GanttChart.activityNode lvl a
      ∧ a ∈ activities ∧ Activity.wbs_id a ∈ expandedWBS ∧ (0 < lvl)%nat)
  ∨ (∃ w lvl acts,
        r = GanttChart.wbsNode expandedWBS lvl w acts
        ∧ w ∈ wbsStructure
        ∧ acts ≡ₚ List.filter (λ a, bool_decide (Activity.wbs_id a = WBSItem.wbs_id w))
                    activities
        ∧ ((lvl = 0%nat ∧ GanttChart.isChildOf None w = true)
           ∨ (∃ p, WBSItem.parent_wbs_id w = Some p ∧ p ∈ expandedWBS ∧ (0 < lvl)%nat))).

(** Where a row of the tree of the enhanced page comes from: the project
    row; or, with the project root expanded, an input activity whose WBS id is
    expanded, or a WBS item that is root-level and at level 1 or whose parent
    is expanded, with the activities that carry its id and those of the
    subtree below it. *)
Definition treeRowOrigin (activities : list Activity.t) (wbsStructure : list WBSItem.t)
    (expandedWBS : gset string) (schedule : EnhancedActivitiesPage.Schedule)
    (projectSummary : option EnhancedActivitiesPage.ProjectSummary)
    (r : EnhancedActivitiesPage.TreeNode) : Prop :=
  (∃ summary,
      projectSummary = Some summary
      ∧ r = EnhancedActivitiesPage.projectNode activities expandedWBS schedule summary)
  ∨ ("project-root" ∈ expandedWBS
     ∧ ((∃ a lvl,
           r = EnhancedActivitiesPage.activityNode lvl a
           ∧ a ∈ activities ∧ Activity.wbs_id a ∈ expandedWBS ∧ (1 < lvl)%nat)
        ∨ (∃ w lvl acts hasChildWBS all,
              r = EnhancedActivitiesPage.wbsNode expandedWBS lvl w acts hasChildWBS all
              ∧ w ∈ wbsStructure
              ∧ acts ≡ₚ List.filter
                          (λ a, bool_decide (Activity.wbs_id a = WBSItem.wbs_id w)) activities
              ∧ (∀ a, a ∈ all ↔
                      a ∈ activities
                      ∧ (Activity.wbs_id a = WBSItem.wbs_id w
                         ∨ descends wbsStructure (Activity.wbs_id a) (WBSItem.wbs_id w)))
              ∧ ((lvl = 1%nat ∧ EnhancedActivitiesPage.isChildOf None w = true)
                 ∨ (∃ p, WBSItem.parent_wbs_id w = Some p ∧ p ∈ expandedWBS
                         ∧ (1 < lvl)%nat))))).

(** [shownAt wbs expanded lvl w]: the Gantt chart shows the WBS item [w] at
    the level [lvl]: a root-level item at level 0, or a child of a shown and
    expanded item one level below it. *)
Inductive shownAt (wbsStructure : list WBSItem.t) (expandedWBS : gset string)
  : nat → WBSItem.t → Prop :=
| shownAt_root w :
    w ∈ wbsStructure →
    GanttChart.isChildOf None w = true →
    shownAt wbsStructure expandedWBS 0 w
| shownAt_child w p lvl :
    w ∈ wbsStructure →
    WBSItem.parent_wbs_id w = Some (WBSItem.wbs_id p) →
    shownAt wbsStructure expandedWBS lvl p →
    WBSItem.wbs_id p ∈ expandedWBS →
    shownAt wbsStructure expandedWBS (lvl + 1) w.

(** [treeShownAt wbs expanded lvl w]: the tree of the enhanced page shows the
    WBS item [w] at the level [lvl]: a root-level item at level 1, or a child
    of a shown and expanded item one level below it. *)
Inductive treeShownAt (wbsStructure : list WBSItem.t) (expandedWBS : gset string)
  : nat → WBSItem.t → Prop :=
| treeShownAt_root w :
    w ∈ wbsStructure →
    EnhancedActivitiesPage.isChildOf None w = true →
    treeShownAt wbsStructure expandedWBS 1 w
| treeShownAt_child w p lvl :
    w ∈ wbsStructure →
    WBSItem.parent_wbs_id w = Some (WBSItem.wbs_id p) →
    treeShownAt wbsStructure expandedWBS lvl p →
    WBSItem.wbs_id p ∈ expandedWBS →
    treeShownAt wbsStructure expandedWBS (lvl + 1) w.


(** The WBS ids on the path from the root to each row of an output, innermost
    first and the id of the row itself included when it is a WBS row.  The
    ancestors of a row are the nearest preceding WBS rows of each smaller
    level; [ancestors] holds them with their levels, innermost first. *)
Fixpoint wbsPathsFrom (ancestors : list (nat * string))
    (out : list ActivitiesPage.HierarchyNode) : list (list string) :=
  match out with
  | [] => []
  | row :: rest =>
      let above :=
        List.filter (λ a, (a.1 <? ActivitiesPage.level row)%nat) ancestors in
      match ActivitiesPage.type row, ActivitiesPage.wbs_id row with
      | wbs, Some i =>
          (i :: above.*2) :: wbsPathsFrom ((ActivitiesPage.level row, i) :: above) rest
      | _, _ => above.*2 :: wbsPathsFrom above rest
      end
  end.

Definition wbsPaths (out : list ActivitiesPage.HierarchyNode) : list (list string) :=
  wbsPathsFrom [] out.

(** Each WBS id appears at most once on every path from the root to a row. *)
Definition oncePerPath (out : list ActivitiesPage.HierarchyNode) : Prop :=
  Forall NoDup (wbsPaths out).

(** The rows after a block start at the level [lvl] or above it in the tree. *)
Definition headLevelLe (lvl : nat) (rest : list ActivitiesPage.HierarchyNode) : Prop :=
  match rest with
  | [] => True
  | row :: _ => (ActivitiesPage.level row ≤ lvl)%nat
  end.

(** [o] is a block of rows of the level [lvl] and below it: it starts at
    that level, its paths under the ancestors [st] have no WBS id twice, and
    the rows after it are under the same ancestors. *)
Definition pathBlock (st : list (nat * string)) (lvl : nat)
    (o : list ActivitiesPage.HierarchyNode) : Prop :=
  ∀ rest,
    headLevelLe lvl rest →
    headLevelLe lvl (o ++ rest)
    ∧ ∃ paths,
        wbsPathsFrom st (o ++ rest) = paths ++ wbsPathsFrom st rest
        ∧ Forall NoDup paths.

(** No two keys of a Map of arrays hold the same array. *)
Definition noSharing (byWBS : gmap string nat) : Prop :=
  ∀ k1 k2 l, byWBS !! k1 = Some l → byWBS !! k2 = Some l → k1 = k2.

(** Every array of [h] is an array of [h'], with the same contents. *)
Definition unchanged (h h' : Heap.t) : Prop :=
  (∀ l, l ∈ dom (Heap.activityArrays h) →
        Heap.activityArrays h' !! l = Heap.activityArrays h !! l)
  ∧ (∀ l, l ∈ dom (Heap.wbsArrays h) → Heap.wbsArrays h' !! l = Heap.wbsArrays h !! l).

(** From [h] to [h'] the only arrays of activities written are arrays of the
    Map, and no array of WBS items that [h] has was written. *)
Definition writesOnly (byWBS : gmap string nat) (h h' : Heap.t) : Prop :=
  (∀ l, (∀ k, byWBS !! k ≠ Some l) →
        Heap.activityArrays h' !! l = Heap.activityArrays h !! l)
  ∧ (∀ l, l ∈ dom (Heap.wbsArrays h) → Heap.wbsArrays h' !! l = Heap.wbsArrays h !! l).

(** A builder run on the heap from [h] and the same builder run on the
    contents of the arrays agree: both run out of fuel, or both return, with
    the same rows, and the arrays of the Map then hold what the store of the
    other run holds. *)
Definition agree {B} (byWBS : gmap string nat) (h : Heap.t)
    (onHeap : option (Heap.t * list B))
    (onContents : option (gmap string (list Activity.t) * list B)) : Prop :=
  match onHeap, onContents with
  | Some (h', out), Some (store, out') =>
      out = out' ∧ Heap.view h' byWBS = store ∧ writesOnly byWBS h h'
  | None, None => True
  | _, _ => False
  end.

(** A run on the heap from [h] returns what the run on the contents returns,
    and leaves every array of [h] as it was. *)
Definition returnsAs {B} (h : Heap.t) (onHeap : option (Heap.t * list B))
    (onContents : option (list B)) : Prop :=
  match onHeap, onContents with
  | Some (h', out), Some out' => out = out' ∧ unchanged h h'
  | None, None => True
  | _, _ => False
  end.

(** A heap with the two arrays of the state of a page, and nothing else. *)
Definition pageHeap (activities : list Activity.t) (wbsStructure : list WBSItem.t) : Heap.t :=
  {| Heap.activityArrays := {[ 0%nat := activities ]};
     Heap.wbsArrays := {[ 0%nat := wbsStructure ]} |}.

(** Two activities of one phase, the later one first: sorting them by start
    date swaps them. *)
Definition lateFirst : list Activity.t :=
  [act "T1" "P" 2 0 (Some jan10) (Some jan10); act "T2" "P" 3 0 (Some jan01) (Some jan10)].

(** ** Sums and rounding *)

Lemma orZero_eq (x : Q) : (orZero x == x)%Q.
Proof.
  unfold orZero. destruct (Qeq_bool x 0) eqn:E; [|reflexivity].
  apply Qeq_bool_iff in E. symmetry. exact E.
Qed.

Lemma fold_sum_acc {A} (f : A → Q) (l : list A) (acc : Q) :
  (fold_left (λ sum a, sum + f a) l acc == acc + sigma f l)%Q.
Proof.
  revert acc. induction l as [|a l IH]; intros acc; simpl.
  - ring.
  - rewrite IH. ring.
Qed.

Lemma reduce_sum_sigma {A} (f : A → Q) (l : list A) :
  (reduce_sum f l == sigma f l)%Q.
Proof. unfold reduce_sum. rewrite fold_sum_acc. ring. Qed.

Lemma sigma_ext {A} (f g : A → Q) (l : list A) :
  (∀ a, f a == g a)%Q → (sigma f l == sigma g l)%Q.
Proof.
  intros H. induction l as [|a l IH]; simpl; [reflexivity|].
  rewrite H, IH. reflexivity.
Qed.

Lemma reduce_sum_orZero {A} (f : A → Q) (l : list A) :
  (reduce_sum (λ a, orZero (f a)) l == sigma f l)%Q.
Proof.
  rewrite reduce_sum_sigma. apply sigma_ext. intros a. apply orZero_eq.
Qed.

Lemma reduce_sum_orZero_mul {A} (f g : A → Q) (l : list A) :
  (reduce_sum (λ a, orZero (f a) * orZero (g a)) l == sigma (λ a, f a * g a) l)%Q.
Proof.
  rewrite reduce_sum_sigma. apply sigma_ext. intros a.
  rewrite !orZero_eq. reflexivity.
Qed.

(** The weighted average of the enhanced page and of the Gantt chart, in the
    vocabulary of the specification. *)
Lemma weighted_or_zero (l : list Activity.t) :
  ((if Qlt_le_dec 0 (reduce_sum (λ a, orZero (Activity.duration_days a)) l)
    then reduce_sum (λ a, orZero (Activity.progress_pct a) * orZero (Activity.duration_days a)) l
         / reduce_sum (λ a, orZero (Activity.duration_days a)) l
    else 0)
   == if Qlt_le_dec 0 (sigma Activity.duration_days l) then weighted l else 0)%Q.
Proof.
  pose proof (reduce_sum_orZero Activity.duration_days l) as Hd.
  pose proof (reduce_sum_orZero_mul Activity.progress_pct Activity.duration_days l) as Hpd.
  unfold weighted.
  destruct (Qlt_le_dec 0 (reduce_sum _ l)) as [H1|H1];
    destruct (Qlt_le_dec 0 (sigma _ l)) as [H2|H2].
  - rewrite Hd, Hpd. reflexivity.
  - rewrite Hd in H1. exfalso. apply (Qlt_irrefl 0). eapply Qlt_le_trans; eauto.
  - rewrite Hd in H1. exfalso. apply (Qlt_irrefl 0). eapply Qlt_le_trans; eauto.
  - reflexivity.
Qed.

(** ** Rollup calculators *)

(** C8.  On the empty list every rollup calculator returns its result, with
    the numeric fields 0 and the dates null: [calculateWBSStats] of the
    activities page, [calculateWBSRollups] of the enhanced page and the WBS
    summary block of the Gantt chart. *)
Theorem rollup_empty (wbsId : string) :
  ActivitiesPage.calculateWBSStats wbsId []
    = {| ActivitiesPage.totalDuration := 0; ActivitiesPage.avgProgress := 0;
         ActivitiesPage.minFloat := 0; ActivitiesPage.startDate := None;
         ActivitiesPage.endDate := None |}
  ∧ EnhancedActivitiesPage.calculateWBSRollups []
    = {| EnhancedActivitiesPage.rollup_progress_pct := 0;
         EnhancedActivitiesPage.rollup_early_start_date := None;
         EnhancedActivitiesPage.rollup_early_end_date := None;
         EnhancedActivitiesPage.rollup_duration_days := 0;
         EnhancedActivitiesPage.rollup_total_float_days := 0 |}
  ∧ GanttChart.wbsSummary []
    = {| GanttChart.wbsStart := None; GanttChart.wbsEnd := None;
         GanttChart.totalDuration := 0; GanttChart.weightedProgress := 0 |}.
Proof. repeat split. Qed.

Lemma avg_ActivitiesPage_mean (l : list Activity.t) :
  l ≠ [] → (avg_ActivitiesPage l == mean Activity.progress_pct l)%Q.
Proof.
  intros Hne. destruct l as [|a l]; [congruence|].
  unfold avg_ActivitiesPage, mean. cbn [ActivitiesPage.calculateWBSStats ActivitiesPage.avgProgress].
  replace (0 <? Z.of_nat (length (a :: l))) with true
    by (symmetry; apply Z.ltb_lt; simpl length; lia).
  rewrite reduce_sum_orZero. reflexivity.
Qed.

Lemma avg_Enhanced_weighted (l : list Activity.t) :
  (avg_Enhanced l == if Qlt_le_dec 0 (sigma Activity.duration_days l) then weighted l else 0)%Q.
Proof.
  unfold avg_Enhanced, EnhancedActivitiesPage.avgProgress,
    EnhancedActivitiesPage.totalDuration.
  apply weighted_or_zero.
Qed.

(** C1, as the code has it.  The enhanced page weights the progress by the
    duration when the total duration is positive and returns 0 otherwise; the
    Gantt chart does the same over the activities of the node, provided one of
    them has both early dates; the activities page returns the unweighted mean
    of a non-empty list and 0 for the empty list. *)
Theorem avgProgress_by_call_site (l : list Activity.t) :
  (avg_ActivitiesPage l == if decide (l = []) then 0 else mean Activity.progress_pct l)%Q
  ∧ (avg_Enhanced l == if Qlt_le_dec 0 (sigma Activity.duration_days l) then weighted l else 0)%Q
  ∧ (validActivities l ≠ [] →
     (avg_Gantt l == if Qlt_le_dec 0 (sigma Activity.duration_days l) then weighted l else 0)%Q).
Proof.
  split; [|split].
  - destruct (decide (l = [])) as [->|Hne]; [reflexivity|].
    by apply avg_ActivitiesPage_mean.
  - apply avg_Enhanced_weighted.
  - intros Hvalid. unfold avg_Gantt, GanttChart.wbsSummary.
    destruct l as [|a l]; [done|].
    replace (0 <? Z.of_nat (length (a :: l))) with true
      by (symmetry; apply Z.ltb_lt; simpl length; lia).
    destruct (validActivities (a :: l)) as [|v vs] eqn:Ev; [done|].
    replace (0 <? Z.of_nat (length (v :: vs))) with true
      by (symmetry; apply Z.ltb_lt; simpl length; lia).
    cbn [GanttChart.weightedProgress].
    apply weighted_or_zero.
Qed.

(** The theorem at a list with two activities, both with early dates. *)
Lemma avgProgress_by_call_site_witness :
  (avg_ActivitiesPage twoActivities == 50)%Q
  ∧ (avg_Enhanced twoActivities == 25)%Q
  ∧ (avg_Gantt twoActivities == 25)%Q.
Proof.
  destruct (avgProgress_by_call_site twoActivities) as (H1 & H2 & H3).
  split; [|split].
  - rewrite H1. reflexivity.
  - rewrite H2. reflexivity.
  - rewrite H3; [reflexivity|]. vm_compute. discriminate.
Defined.

(** C1 fails as stated.  On the activities page two activities with durations
    1 and 3 and progress 100 and 0 average to 50, not to the weighted 25; on
    the enhanced page and in the Gantt chart a single activity of duration 0
    and progress 50 gives 0, not the mean 50. *)
Lemma avgProgress_not_as_specified :
  ¬ avgProgress_as_specified avg_ActivitiesPage twoActivities
  ∧ ¬ avgProgress_as_specified avg_Enhanced zeroDuration
  ∧ ¬ avgProgress_as_specified avg_Gantt zeroDuration.
Proof.
  split; [|split].
  - intros (H & _ & _). assert (Hpos : (0 < 4)%Q) by reflexivity.
    specialize (H Hpos). vm_compute in H. discriminate.
  - intros (_ & H & _). assert (H0 : (0 == 0)%Q) by reflexivity.
    specialize (H ltac:(discriminate) H0). vm_compute in H. discriminate.
  - intros (_ & H & _). assert (H0 : (0 == 0)%Q) by reflexivity.
    specialize (H ltac:(discriminate) H0). vm_compute in H. discriminate.
Qed.

(** ** Dates and durations of a rollup *)

(** On both list pages the total duration is the sum of the durations of all
    the activities, with or without dates, and the date range is taken over
    the activities that have both early dates. *)
Lemma totalDuration_counts_every_activity (wbsId : string) (l : list Activity.t) :
  (ActivitiesPage.totalDuration (ActivitiesPage.calculateWBSStats wbsId l)
     == sigma Activity.duration_days l)%Q
  ∧ ActivitiesPage.startDate (ActivitiesPage.calculateWBSStats wbsId l)
      = minStart (validActivities l)
  ∧ ActivitiesPage.endDate (ActivitiesPage.calculateWBSStats wbsId l)
      = maxEnd (validActivities l)
  ∧ (EnhancedActivitiesPage.rollup_duration_days (EnhancedActivitiesPage.calculateWBSRollups l)
       == sigma Activity.duration_days l)%Q.
Proof.
  destruct l as [|a l]; [repeat split; reflexivity|].
  repeat split; cbn -[reduce_sum sigma]; try apply reduce_sum_orZero.
Qed.

(** C2, the failing input.  One activity of duration 10 with a start date and
    no end date: the two list pages count its duration, the WBS summary of the
    Gantt chart, which assigns the duration inside the branch for activities
    with both dates, reports 0. *)
Theorem gantt_duration_lost_without_dates :
  GanttChart.totalDuration (GanttChart.wbsSummary noEndDate) = 0%Q
  ∧ ActivitiesPage.totalDuration (ActivitiesPage.calculateWBSStats "W1" noEndDate) = 10%Q
  ∧ EnhancedActivitiesPage.rollup_duration_days
      (EnhancedActivitiesPage.calculateWBSRollups noEndDate) = 10%Q
  ∧ ActivitiesPage.startDate (ActivitiesPage.calculateWBSStats "W1" noEndDate) = None
  ∧ ActivitiesPage.endDate (ActivitiesPage.calculateWBSStats "W1" noEndDate) = None.
Proof. vm_compute. repeat split. Qed.

(** ** Range of the average progress *)












(** ** Bar layout of the Gantt chart *)

Lemma num_max_half (x : num) :
  x ≠ NaN → x ≠ PosInf →
  ∃ w, num_max x (Fin (1 # 2)) = Fin w ∧ (1 # 2 <= w)%Q
       ∧ (num_isZero x = true → w = (1 # 2)%Q).
Proof.
  intros Hnan Hinf. destruct x as [q| | | |]; try done.
  - unfold num_max, num_val, Qltb.
    destruct (Qle_bool (1 # 2) q) eqn:E1; simpl.
    + apply Qle_bool_iff in E1.
      destruct (Qle_bool q (1 # 2)) eqn:E2; simpl.
      * unfold num_neg, Qltb. destruct (Qle_bool 0 q) eqn:E3; simpl.
        -- exists q. split; [done|]. split; [done|]. intros Hz.
           simpl in Hz. apply Qeq_bool_iff in Hz. lra.
        -- exfalso. assert (0 <= q)%Q by lra.
           apply Qle_bool_iff in H. congruence.
      * exists q. split; [done|]. split; [done|]. intros Hz.
        simpl in Hz. apply Qeq_bool_iff in Hz. lra.
    + exists (1 # 2)%Q. split; [done|]. split; [apply Qle_refl|done].
  - exists (1 # 2)%Q. repeat split; [apply Qle_refl].
  - exists (1 # 2)%Q. repeat split; [apply Qle_refl].
Qed.

Lemma num_div_finite (a : Q) (d : num) :
  d ≠ NaN → num_isZero d = false →
  num_div (Fin a) d ≠ NaN ∧ num_div (Fin a) d ≠ PosInf ∧ num_div (Fin a) d ≠ NegInf
  ∧ (Qeq_bool a 0 = true → num_isZero (num_div (Fin a) d) = true).
Proof.
  intros Hnan Hz. destruct d as [q| | | |]; try done; simpl in *.
  - unfold num_div. simpl. rewrite Hz.
    destruct (Qeq_bool a 0); simpl; [|done].
    repeat split; try done; destruct (xorb _ _); simpl; done.
  - unfold num_div. repeat split; try done; destruct (xorb _ _); simpl; try done.
  - unfold num_div. repeat split; try done; destruct (xorb _ _); simpl; try done.
Qed.

Lemma num_mul_100 (x : num) :
  x ≠ NaN → x ≠ PosInf → x ≠ NegInf →
  num_mul x (Fin 100) ≠ NaN ∧ num_mul x (Fin 100) ≠ PosInf
  ∧ (num_isZero x = true → num_isZero (num_mul x (Fin 100)) = true).
Proof.
  intros H1 H2 H3. destruct x as [q| | | |]; try done.
  unfold num_mul. simpl. rewrite orb_false_r.
  destruct (Qeq_bool q 0); simpl; repeat split; try done.
  all: destruct (xorb _ _); simpl; done.
Qed.

(** The clamp of [calculateBarStyle]: when the timeline spans a number of days
    that is not zero, a node with both dates gets a bar whose width is a finite
    percentage of at least 0.5, and exactly 0.5 when the two dates coincide; a
    node without one of the dates, or a page without timeline, gets no bar. *)
Lemma calculateBarStyle_clamp (timeline : GanttChart.Timeline) (showCriticalPath : bool)
    (node : GanttChart.GanttNode) (barType : GanttChart.BarType) (s e : Z) :
  GanttChart.totalDays timeline ≠ NaN →
  num_isZero (GanttChart.totalDays timeline) = false →
  barStart node barType = Some s →
  barEnd node barType = Some e →
  ∃ left w color opacity,
    GanttChart.calculateBarStyle (Some timeline) showCriticalPath node barType
      = GanttChart.Bar left (Fin w) color opacity
    ∧ (1 # 2 <= w)%Q ∧ (s = e → w = (1 # 2)%Q).
Proof.
  intros Hnan Hz Hs He. unfold GanttChart.calculateBarStyle.
  fold (barStart node barType). fold (barEnd node barType). rewrite Hs, He.
  set (duration := num_div (num_of_Z (e - s)) (num_of_Z GanttChart.msPerDay)).
  assert (Hd : duration = Fin (inject_Z (e - s) / inject_Z GanttChart.msPerDay)
               ∨ (e = s ∧ duration = Fin 0)).
  { unfold duration, num_div, num_of_Z. simpl.
    destruct (Qeq_bool (inject_Z (e - s)) 0) eqn:E; [|by left].
    right. apply Qeq_bool_iff in E. unfold Qeq in E. simpl in E. split; [lia|].
    unfold Qltb. replace (Qle_bool 0 (inject_Z (e - s))) with true; [reflexivity|].
    symmetry. apply Qle_bool_iff. unfold Qle. simpl. lia. }
  assert (Hfin : ∃ q, duration = Fin q ∧ (s = e → Qeq_bool q 0 = true)).
  { destruct Hd as [->|[-> ->]]; eexists; (split; [reflexivity|]).
    - intros ->. rewrite Z.sub_diag. reflexivity.
    - reflexivity. }
  destruct Hfin as (q & -> & Hq).
  destruct (num_div_finite q _ Hnan Hz) as (D1 & D2 & D3 & D4).
  destruct (num_mul_100 _ D1 D2 D3) as (M1 & M2 & M3).
  destruct (num_max_half _ M1 M2) as (w & -> & Hw & Hw0).
  eexists _, w, _, _. split; [reflexivity|]. split; [exact Hw|].
  intros Heq. apply Hw0, M3, D4, Hq, Heq.
Qed.

Lemma calculateBarStyle_without_dates (timeline : option GanttChart.Timeline)
    (showCriticalPath : bool) (node : GanttChart.GanttNode) (barType : GanttChart.BarType) :
  barStart node barType = None ∨ barEnd node barType = None →
  GanttChart.calculateBarStyle timeline showCriticalPath node barType = GanttChart.DisplayNone.
Proof.
  intros H. unfold GanttChart.calculateBarStyle.
  fold (barStart node barType). fold (barEnd node barType).
  destruct timeline; [|done]. destruct H as [-> | ->]; [done|].
  destruct (barStart node barType); done.
Qed.

Lemma projectTimeline_totalDays (activities : list Activity.t)
    (timeline : GanttChart.Timeline) :
  GanttChart.projectTimeline activities = Some timeline →
  GanttChart.totalDays timeline ≠ NaN.
Proof.
  unfold GanttChart.projectTimeline. case_bool_decide; [done|].
  destruct (minStart _) as [s|]; [|done]. destruct (maxEnd _) as [e|]; [|done].
  intros [= <-]. cbn [GanttChart.totalDays].
  unfold num_div, num_of_Z. cbn [num_isZero num_val].
  match goal with |- context [Qeq_bool ?x 0] => destruct (Qeq_bool x 0) end.
  - match goal with |- context [signedZero ?b] => destruct b end; by vm_compute.
  - unfold num_ceil.
    match goal with |- context [if ?b then _ else _] => destruct b end; done.
Qed.

(** C9, as the code has it.  For a timeline whose number of days is not zero,
    a node with both dates gets a bar whose width is a finite percentage of at
    least 0.5, and exactly 0.5 when the two dates coincide; a node that lacks
    the start or the end date gets no bar. *)
Theorem bar_width_clamped (activities : list Activity.t) (timeline : GanttChart.Timeline)
    (showCriticalPath : bool) (node : GanttChart.GanttNode) (barType : GanttChart.BarType) :
  GanttChart.projectTimeline activities = Some timeline →
  num_isZero (GanttChart.totalDays timeline) = false →
  (∀ s e,
     barStart node barType = Some s →
     barEnd node barType = Some e →
     ∃ left w color opacity,
       GanttChart.calculateBarStyle (Some timeline) showCriticalPath node barType
         = GanttChart.Bar left (Fin w) color opacity
       ∧ (1 # 2 <= w)%Q ∧ (s = e → w = (1 # 2)%Q))
  ∧ (barStart node barType = None ∨ barEnd node barType = None →
     GanttChart.calculateBarStyle (Some timeline) showCriticalPath node barType
       = GanttChart.DisplayNone).
Proof.
  intros Htimeline Hdays. split.
  - intros s e Hs He. apply calculateBarStyle_clamp; [|done..].
    by eapply projectTimeline_totalDays.
  - apply calculateBarStyle_without_dates.
Qed.

(** The theorem at a milestone on 2024-01-10, in the timeline of two
    activities that run from 2024-01-01 to 2024-01-10. *)
Lemma bar_width_clamped_witness :
  ∃ timeline left color opacity,
    GanttChart.projectTimeline twoActivities = Some timeline
    ∧ GanttChart.totalDays timeline = Fin 69
    ∧ GanttChart.calculateBarStyle (Some timeline) true
        (GanttChart.activityNode 1 milestone) GanttChart.planned
      = GanttChart.Bar left (Fin (1 # 2)) color opacity.
Proof.
  assert (Htimeline : GanttChart.projectTimeline twoActivities = Some timelineOfTwo)
    by (vm_compute; reflexivity).
  destruct (bar_width_clamped twoActivities timelineOfTwo true
              (GanttChart.activityNode 1 milestone) GanttChart.planned Htimeline
              ltac:(reflexivity)) as [Hbar _].
  destruct (Hbar jan10 jan10 ltac:(reflexivity) ltac:(reflexivity))
    as (left & w & color & opacity & Hstyle & _ & Hw).
  rewrite (Hw eq_refl) in Hstyle.
  exists timelineOfTwo, left, color, opacity.
  split; [exact Htimeline|]. split; [reflexivity|exact Hstyle].
Defined.

(** C9 fails as stated.  One activity whose early end lies sixty days before
    its early start: the padded timeline starts and ends on 2024-01-31 and
    counts 0 days.  The bar of the actual dates of that activity, both on
    2024-01-31 and so inside the window, gets the width [Math.max(0 / 0 * 100,
    0.5)], which is NaN and not the minimum 0.5. *)
Lemma bar_width_NaN_on_empty_timeline :
  ∃ timeline,
    GanttChart.projectTimeline [invertedActivity] = Some timeline
    ∧ GanttChart.start timeline = jan31
    ∧ GanttChart.end_ timeline = jan31
    ∧ GanttChart.totalDays timeline = Fin 0
    ∧ GanttChart.calculateBarStyle (Some timeline) true
        (GanttChart.activityNode 1 invertedActivity) GanttChart.actual
      = GanttChart.Bar NaN NaN "#FF5722" 1.
Proof.
  exists {| GanttChart.start := jan31; GanttChart.end_ := jan31;
            GanttChart.projectStart := mar01; GanttChart.projectEnd := jan01;
            GanttChart.totalDays := Fin 0 |}.
  repeat split; vm_compute; reflexivity.
Qed.

(** ** Hierarchy builders: determinism *)

Lemma has_members (instance : list string) (x : string) :
  Heap.has instance x = bool_decide (x ∈ Heap.members instance).
Proof.
  unfold Heap.has, Heap.members. apply bool_decide_ext. by rewrite elem_of_list_to_set.
Qed.

Lemma members_same (s1 s2 : list string) :
  (∀ x, x ∈ s1 ↔ x ∈ s2) → Heap.members s1 = Heap.members s2.
Proof.
  intros Hsame. apply set_eq. intros x. unfold Heap.members.
  rewrite !elem_of_list_to_set. apply Hsame.
Qed.

Lemma view_same (byWBS : gmap string nat) (h h' : Heap.t) :
  (∀ k l, byWBS !! k = Some l → Heap.activitiesAt h' l = Heap.activitiesAt h l) →
  Heap.view h' byWBS = Heap.view h byWBS.
Proof.
  intros Hsame. apply map_eq. intros k. unfold Heap.view. rewrite !lookup_fmap.
  destruct (byWBS !! k) as [l|] eqn:Hk; [|done]. cbn. f_equal. by eapply Hsame.
Qed.

Lemma view_write (byWBS : gmap string nat) (k : string) (l : nat)
    (xs : list Activity.t) (h : Heap.t) :
  (∀ k', k' ≠ k → byWBS !! k' ≠ Some l) →
  Heap.view (Heap.setActivities l xs h) (<[k := l]> byWBS) = <[k := xs]> (Heap.view h byWBS).
Proof.
  intros Hother. apply map_eq. intros k'. unfold Heap.view.
  destruct (decide (k' = k)) as [->|Hne].
  - rewrite lookup_fmap, !lookup_insert_eq. cbn. unfold Heap.activitiesAt. cbn.
    by rewrite lookup_insert_eq.
  - rewrite lookup_fmap, !lookup_insert_ne, lookup_fmap by done.
    destruct (byWBS !! k') as [l'|] eqn:Hk'; [|done]. cbn. f_equal.
    unfold Heap.activitiesAt. cbn. rewrite lookup_insert_ne; [done|].
    intros ->. by eapply Hother.
Qed.

Lemma view_sorted (byWBS : gmap string nat) (k : string) (l : nat)
    (xs : list Activity.t) (h : Heap.t) :
  noSharing byWBS → byWBS !! k = Some l →
  Heap.view (Heap.setActivities l xs h) byWBS = <[k := xs]> (Heap.view h byWBS).
Proof.
  intros Hshare Hk. rewrite <- (insert_id byWBS k l Hk) at 1. apply view_write.
  intros k' Hne Hk'. apply Hne. by eapply Hshare.
Qed.

Lemma writesOnly_refl (byWBS : gmap string nat) (h : Heap.t) : writesOnly byWBS h h.
Proof. by split. Qed.

Lemma writesOnly_trans (byWBS : gmap string nat) (h1 h2 h3 : Heap.t) :
  writesOnly byWBS h1 h2 → writesOnly byWBS h2 h3 → writesOnly byWBS h1 h3.
Proof.
  intros [Ha Hw] [Ha' Hw']. split.
  - intros l Hl. by rewrite Ha', Ha.
  - intros l Hl. rewrite Hw', Hw; [done..|].
    apply elem_of_dom. rewrite Hw by done. by apply elem_of_dom.
Qed.

Lemma writesOnly_sorted (byWBS : gmap string nat) (k : string) (l : nat)
    (xs : list Activity.t) (h : Heap.t) :
  byWBS !! k = Some l → writesOnly byWBS h (Heap.setActivities l xs h).
Proof.
  intros Hk. split; [|done]. intros l' Hl'. cbn. apply lookup_insert_ne.
  intros ->. by eapply Hl'.
Qed.

(** [wbsStructure.filter(...).sort(...)] leaves [wbsStructure] as it is. *)
Lemma children_sorted (cmp : WBSItem.t → WBSItem.t → Z) (keep : WBSItem.t → bool)
    (lw : nat) (wbs : list WBSItem.t) (byWBS : gmap string nat) (h : Heap.t) :
  Heap.wbsArrays h !! lw = Some wbs →
  let lh := Heap.newWBS (List.filter keep (Heap.wbsAt h lw)) h in
  let h' := Heap.setWBS lh.1 (sortBy cmp (Heap.wbsAt lh.2 lh.1)) lh.2 in
  Heap.wbsAt h' lh.1 = sortBy cmp (List.filter keep wbs)
  ∧ Heap.view h' byWBS = Heap.view h byWBS
  ∧ writesOnly byWBS h h'.
Proof.
  intros Hlw. cbn. unfold Heap.wbsAt. cbn. rewrite !lookup_insert_eq, Hlw. cbn.
  split; [done|]. split; [done|]. split; [done|].
  intros l Hl. cbn. rewrite !lookup_insert_ne; [done|..];
    intros <-; by apply (is_fresh (dom (Heap.wbsArrays h))).
Qed.

Lemma forEachM_agree {St St' A B} (R : St → St' → Prop)
    (body : St → A → option (St * list B)) (body' : St' → A → option (St' * list B))
    (l : list A) :
  (∀ s s' x, x ∈ l → R s s' →
     match body s x, body' s' x with
     | Some (t, out), Some (t', out') => out = out' ∧ R t t'
     | None, None => True
     | _, _ => False
     end) →
  ∀ s s', R s s' →
    match forEachM body s l, forEachM body' s' l with
    | Some (t, out), Some (t', out') => out = out' ∧ R t t'
    | None, None => True
    | _, _ => False
    end.
Proof.
  induction l as [|x l IH]; intros Hbody s s' HR; cbn; [done|].
  pose proof (Hbody s s' x (list_elem_of_here _ _) HR) as Hx.
  destruct (body s x) as [[t out]|], (body' s' x) as [[t' out']|]; try done.
  destruct Hx as [-> Ht].
  assert (Hl : ∀ s s' y, y ∈ l → R s s' →
     match body s y, body' s' y with
     | Some (t, out), Some (t', out') => out = out' ∧ R t t'
     | None, None => True
     | _, _ => False
     end) by (intros ? ? y Hy; apply Hbody; by apply list_elem_of_further).
  pose proof (IH Hl t t' Ht) as Hrest.
  destruct (forEachM body t l) as [[u out]|], (forEachM body' t' l) as [[u' out2]|];
    try done.
  destruct Hrest as [-> Hu]. done.
Qed.

Section OnTheHeap.
Variable localeCompare : string → string → Z.
Variable wbsStructure : nat.
Variable items : list WBSItem.t.
Variable byWBS : gmap string nat.
Variable expanded : list string.
Hypothesis Hshare : noSharing byWBS.

Lemma wbsAt_kept (h h' : Heap.t) :
  Heap.wbsArrays h !! wbsStructure = Some items → writesOnly byWBS h h' →
  Heap.wbsArrays h' !! wbsStructure = Some items.
Proof.
  intros Hw [_ Hkept]. rewrite Hkept; [done|]. by apply elem_of_dom.
Qed.

Lemma buildWBSTree_agree (info : ActivitiesPage.ProjectInfo) (fuel : nat) :
  ∀ parentWbsId lvl h,
    Heap.wbsArrays h !! wbsStructure = Some items →
    agree byWBS h
      (ActivitiesPageHeap.buildWBSTree localeCompare wbsStructure info expanded fuel byWBS
         parentWbsId lvl h)
      (ActivitiesPage.buildWBSTree localeCompare items info (Heap.members expanded) fuel
         (Heap.view h byWBS) parentWbsId lvl).
Proof.
  induction fuel as [|fuel IH]; intros parentWbsId lvl h Hw; [done|].
  cbn [ActivitiesPageHeap.buildWBSTree ActivitiesPage.buildWBSTree].
  destruct (children_sorted
              (λ a b, localeCompare (WBSItem.wbs_name a) (WBSItem.wbs_name b))
              (ActivitiesPage.isChildOf info parentWbsId) wbsStructure items byWBS h Hw)
    as (Hchildren & Hview & Hwrites).
  cbn [Heap.newWBS fst snd] in *.
  rewrite Hchildren, <- Hview.
  match goal with
  | |- context [forEachM _ ?h0 _] => set (h0' := h0) in *
  end.
  unfold agree.
  apply (forEachM_agree (λ h' store, Heap.view h' byWBS = store ∧ writesOnly byWBS h h'));
    [|by split].
  intros h1 store w _ [<- Hh1].
    pose proof (wbsAt_kept _ _ Hw Hh1) as Hw1.
    unfold Heap.wbsAt at 1. rewrite Hw1. cbn [default from_option id].
    destruct (ActivitiesPage.getAllDescendantActivities items fuel (Heap.view h1 byWBS)
                (WBSItem.wbs_id w)) as [allDescendantActivities|]; [|done].
    rewrite has_members.
    set (directActivities := default [] (Heap.view h1 byWBS !! WBSItem.wbs_id w)).
    set (shown := bool_decide (WBSItem.wbs_id w ∈ Heap.members expanded)
                  && (0 <? Z.of_nat (length directActivities))%Z).
    set (sorted := sortBy (ActivitiesPage.compareActivities localeCompare) directActivities).
    match goal with
    | |- context [ActivitiesPageHeap.buildWBSTree _ _ _ _ _ _ _ _ ?h2] => set (h2' := h2)
    end.
    assert (Hh2 : Heap.view h2' byWBS
                  = (if shown then <[WBSItem.wbs_id w := sorted]> (Heap.view h1 byWBS)
                     else Heap.view h1 byWBS)
                  ∧ writesOnly byWBS h1 h2').
    { subst h2'. destruct shown eqn:Hshown; [|split; [done|apply writesOnly_refl]].
      destruct (byWBS !! WBSItem.wbs_id w) as [l|] eqn:Hl.
      - split; [by apply view_sorted|by eapply writesOnly_sorted].
      - exfalso. subst shown directActivities. unfold Heap.view in Hshown.
        rewrite lookup_fmap, Hl in Hshown. cbn in Hshown.
        by rewrite andb_false_r in Hshown. }
    destruct Hh2 as [Hview2 Hwrites2]. rewrite <- Hview2.
    pose proof (IH (Some (WBSItem.wbs_id w)) (lvl + 1)%nat h2'
                  (wbsAt_kept _ _ Hw1 Hwrites2)) as Hsub.
    unfold agree in Hsub.
    destruct (ActivitiesPageHeap.buildWBSTree _ _ _ _ _ _ _ _ h2') as [[h3 sub]|],
             (ActivitiesPage.buildWBSTree _ _ _ _ _ (Heap.view h2' byWBS) _ _)
               as [[store3 sub']|]; try done.
    destruct Hsub as (-> & Hview3 & Hwrites3).
    split; [done|]. split; [done|].
    eapply writesOnly_trans; [exact Hh1|]. by eapply writesOnly_trans.
Qed.

Lemma buildWBSNodes_agree (fuel : nat) :
  ∀ parentId lvl h,
    Heap.wbsArrays h !! wbsStructure = Some items →
    agree byWBS h
      (GanttChartHeap.buildWBSNodes localeCompare wbsStructure expanded fuel byWBS
         parentId lvl h)
      (GanttChart.buildWBSNodes localeCompare items (Heap.members expanded) fuel
         (Heap.view h byWBS) parentId lvl).
Proof.
  induction fuel as [|fuel IH]; intros parentId lvl h Hw; [done|].
  cbn [GanttChartHeap.buildWBSNodes GanttChart.buildWBSNodes].
  destruct (children_sorted
              (λ a b, localeCompare (WBSItem.wbs_name a) (WBSItem.wbs_name b))
              (GanttChart.isChildOf parentId) wbsStructure items byWBS h Hw)
    as (Hchildren & Hview & Hwrites).
  cbn [Heap.newWBS fst snd] in *.
  rewrite Hchildren, <- Hview.
  match goal with
  | |- context [forEachM _ ?h0 _] => set (h0' := h0) in *
  end.
  unfold agree.
  apply (forEachM_agree (λ h' store, Heap.view h' byWBS = store ∧ writesOnly byWBS h h'));
    [|by split].
  intros h1 store w _ [<- Hh1].
    pose proof (wbsAt_kept _ _ Hw Hh1) as Hw1.
    rewrite has_members.
    destruct (bool_decide (WBSItem.wbs_id w ∈ Heap.members expanded));
      [|split; [done|]; split; [done|exact Hh1]].
    set (wbsActivities := default [] (Heap.view h1 byWBS !! WBSItem.wbs_id w)).
    set (sorted := sortBy GanttChart.compareActivities wbsActivities).
    match goal with
    | |- context [GanttChartHeap.buildWBSNodes _ _ _ _ _ _ _ ?h2] => set (h2' := h2)
    end.
    match goal with
    | |- context [GanttChart.buildWBSNodes _ _ _ _ ?store2 _ _] => set (store2' := store2)
    end.
    assert (Hh2 : Heap.view h2' byWBS = store2' ∧ writesOnly byWBS h1 h2').
    { subst h2' store2'. unfold Heap.view at 2 3. rewrite lookup_fmap.
      destruct (byWBS !! WBSItem.wbs_id w) as [l|] eqn:Hl; cbn.
      - split; [by apply view_sorted|by eapply writesOnly_sorted].
      - split; [done|apply writesOnly_refl]. }
    destruct Hh2 as [Hview2 Hwrites2]. rewrite <- Hview2.
    pose proof (IH (Some (WBSItem.wbs_id w)) (lvl + 1)%nat h2'
                  (wbsAt_kept _ _ Hw1 Hwrites2)) as Hsub.
    unfold agree in Hsub.
    destruct (GanttChartHeap.buildWBSNodes _ _ _ _ _ _ _ h2') as [[h3 sub]|],
             (GanttChart.buildWBSNodes _ _ _ _ (Heap.view h2' byWBS) _ _)
               as [[store3 sub']|]; try done.
    destruct Hsub as (-> & Hview3 & Hwrites3).
    split; [done|]. split; [done|].
    eapply writesOnly_trans; [exact Hh1|]. by eapply writesOnly_trans.
Qed.
End OnTheHeap.

(** The grouping loop allocates the arrays of the Map and writes no other. *)
Lemma pushByKey_agree (key : Activity.t → string) (h h0 : Heap.t)
    (byWBS : gmap string nat) (a : Activity.t) :
  noSharing byWBS →
  (∀ k l, byWBS !! k = Some l →
          l ∈ dom (Heap.activityArrays h0) ∧ l ∉ dom (Heap.activityArrays h)) →
  unchanged h h0 →
  let r := Heap.pushByKey key (byWBS, h0) a in
  Heap.view r.2 r.1
    = <[key a := default [] (Heap.view h0 byWBS !! key a) ++ [a]]> (Heap.view h0 byWBS)
  ∧ noSharing r.1
  ∧ (∀ k l, r.1 !! k = Some l →
            l ∈ dom (Heap.activityArrays r.2) ∧ l ∉ dom (Heap.activityArrays h))
  ∧ unchanged h r.2.
Proof.
  intros Hshare Hnew [Hacts Hwbs]. unfold Heap.pushByKey.
  destruct (byWBS !! key a) as [l|] eqn:Hk.
  - rewrite Hk. cbn [fst snd].
    pose proof (Hnew _ _ Hk) as [Hl Hfresh].
    split.
    { rewrite (view_sorted _ _ _ _ _ Hshare Hk). unfold Heap.view at 2.
      by rewrite lookup_fmap, Hk. }
    split; [exact Hshare|]. split.
    { intros k l' Hk'. pose proof (Hnew _ _ Hk') as [Hl' Hfresh']. split; [|done].
      cbn. rewrite dom_insert. apply elem_of_union. by right. }
    split; [|exact Hwbs].
    intros l' Hl'. cbn. rewrite lookup_insert_ne; [by apply Hacts|].
    intros <-. done.
  - cbn [Heap.newActivities]. rewrite lookup_insert_eq. cbn [fst snd].
    set (l := fresh (dom (Heap.activityArrays h0))).
    assert (Hl : l ∉ dom (Heap.activityArrays h0)) by apply is_fresh.
    assert (Hother : ∀ k', byWBS !! k' ≠ Some l).
    { intros k' Hk'. pose proof (Hnew _ _ Hk') as [Hin _]. done. }
    split.
    { rewrite view_write by (intros k' _; apply Hother).
      unfold Heap.view at 2. rewrite lookup_fmap, Hk. cbn.
      unfold Heap.activitiesAt at 1. cbn. rewrite lookup_insert_eq. cbn.
      f_equal. apply view_same. intros k' l' Hk'.
      unfold Heap.activitiesAt. cbn. rewrite lookup_insert_ne; [done|].
      intros <-. by eapply Hother. }
    split.
    { intros k1 k2 l'. rewrite !lookup_insert.
      destruct (decide (key a = k1)) as [<-|], (decide (key a = k2)) as [<-|];
        intros H1 H2; simplify_eq; try done.
      - exfalso. by eapply Hother.
      - exfalso. by eapply Hother.
      - by eapply Hshare. }
    split.
    { intros k l'. rewrite lookup_insert.
      destruct (decide (key a = k)) as [<-|]; intros Hk'; simplify_eq.
      - split; [cbn; rewrite !dom_insert; apply elem_of_union; left; by apply elem_of_singleton|].
        intros Hin. apply Hl. apply elem_of_dom. rewrite Hacts by done.
        by apply elem_of_dom.
      - pose proof (Hnew _ _ Hk') as [Hl' Hfresh']. split; [|done].
        cbn. rewrite !dom_insert. do 2 (apply elem_of_union; right). done. }
    split; [|exact Hwbs].
    intros l' Hl'. cbn.
    assert (l' ≠ l).
    { intros ->. apply Hl. apply elem_of_dom. rewrite Hacts by done.
      by apply elem_of_dom. }
    rewrite !lookup_insert_ne by done. by apply Hacts.
Qed.

Lemma unchanged_wbs_dom (h h' : Heap.t) (l : nat) (items : list WBSItem.t) :
  unchanged h h' → Heap.wbsArrays h !! l = Some items → Heap.wbsArrays h' !! l = Some items.
Proof. intros [_ Hw] Hl. rewrite Hw; [done|]. by apply elem_of_dom. Qed.

Lemma unchanged_activities_dom (h h' : Heap.t) (l : nat) (acts : list Activity.t) :
  unchanged h h' → Heap.activityArrays h !! l = Some acts →
  Heap.activityArrays h' !! l = Some acts.
Proof. intros [Ha _] Hl. rewrite Ha; [done|]. by apply elem_of_dom. Qed.

Lemma fold_pushByKey_agree (key : Activity.t → string) (h : Heap.t)
    (acts : list Activity.t) :
  ∀ byWBS h0,
    noSharing byWBS →
    (∀ k l, byWBS !! k = Some l →
            l ∈ dom (Heap.activityArrays h0) ∧ l ∉ dom (Heap.activityArrays h)) →
    unchanged h h0 →
    let r := fold_left (Heap.pushByKey key) acts (byWBS, h0) in
    Heap.view r.2 r.1
      = fold_left (λ m a, <[key a := default [] (m !! key a) ++ [a]]> m) acts
          (Heap.view h0 byWBS)
    ∧ noSharing r.1
    ∧ (∀ k l, r.1 !! k = Some l → l ∉ dom (Heap.activityArrays h))
    ∧ unchanged h r.2.
Proof.
  induction acts as [|a acts IH]; intros byWBS h0 Hshare Hnew Hun; cbn [fold_left].
  - cbn. split; [done|]. split; [done|]. split; [|done].
    intros k l Hk. pose proof (Hnew _ _ Hk) as [_ Hout]. done.
  - destruct (pushByKey_agree key h h0 byWBS a Hshare Hnew Hun)
      as (Hview & Hshare1 & Hnew1 & Hun1).
    destruct (Heap.pushByKey key (byWBS, h0) a) as [byWBS1 h1]. cbn [fst snd] in *.
    rewrite <- Hview. by apply IH.
Qed.

Lemma groupByWBS_agree (key : Activity.t → string) (activities : nat) (h : Heap.t) :
  let r := Heap.groupByWBS key activities h in
  Heap.view r.2 r.1 = groupByWBS key (Heap.activitiesAt h activities)
  ∧ noSharing r.1
  ∧ (∀ k l, r.1 !! k = Some l → l ∉ dom (Heap.activityArrays h))
  ∧ unchanged h r.2.
Proof.
  unfold Heap.groupByWBS, groupByWBS.
  replace (∅ : gmap string (list Activity.t)) with (Heap.view h ∅)
    by (unfold Heap.view; apply fmap_empty).
  apply fold_pushByKey_agree.
  - intros k1 k2 l Hk. by rewrite lookup_empty in Hk.
  - intros k l Hk. by rewrite lookup_empty in Hk.
  - by split.
Qed.

(** After the grouping loop, a builder that writes only arrays of the Map
    leaves every array of the heap it started from as it was. *)
Lemma unchanged_after (byWBS : gmap string nat) (h h0 h' : Heap.t) :
  (∀ k l, byWBS !! k = Some l → l ∉ dom (Heap.activityArrays h)) →
  unchanged h h0 → writesOnly byWBS h0 h' → unchanged h h'.
Proof.
  intros Hnew [Ha Hw] [Ha' Hw']. split.
  - intros l Hl. rewrite Ha', Ha; [done..|]. intros k Hk. by eapply Hnew.
  - intros l Hl. rewrite Hw', Hw; [done..|].
    apply elem_of_dom. rewrite Hw by done. by apply elem_of_dom.
Qed.

Lemma hierarchy_returnsAs (localeCompare : string → string → Z) (fuel : nat)
    (activities wbsStructure : nat) (items : list WBSItem.t)
    (projectInfo : option ActivitiesPage.ProjectInfo) (expandedNodes : list string)
    (h : Heap.t) :
  Heap.wbsArrays h !! wbsStructure = Some items →
  returnsAs h
    (ActivitiesPageHeap.hierarchy localeCompare fuel activities wbsStructure projectInfo
       expandedNodes h)
    (ActivitiesPage.hierarchy localeCompare fuel (Heap.activitiesAt h activities) items
       projectInfo (Heap.members expandedNodes)).
Proof.
  intros Hw. destruct projectInfo as [info|]; cbn; [|by split].
  unfold ActivitiesPageHeap.hierarchyWith, ActivitiesPage.hierarchyWith,
    ActivitiesPageHeap.activitiesByWBS, ActivitiesPage.activitiesByWBS.
  destruct (groupByWBS_agree (λ a, orString (Activity.wbs_id a) "unassigned") activities h)
    as (Hview & Hshare & Hnew & Hun).
  destruct (Heap.groupByWBS _ activities h) as [byWBS h0]. cbn [fst snd] in *.
  pose proof (unchanged_wbs_dom _ _ _ _ Hun Hw) as Hw0.
  rewrite has_members. unfold Heap.wbsAt. rewrite Hw0. cbn [default from_option id].
  destruct (bool_decide ("project-root" ∈ Heap.members expandedNodes)); [|by split].
  pose proof (buildWBSTree_agree localeCompare wbsStructure items byWBS expandedNodes Hshare
                info fuel None 1%nat h0 Hw0) as Hbuild.
  rewrite Hview in Hbuild. unfold agree in Hbuild.
  destruct (ActivitiesPageHeap.buildWBSTree _ _ _ _ _ _ _ _ h0) as [[h' tree]|],
           (ActivitiesPage.buildWBSTree _ _ _ _ _ _ _ _) as [[store tree']|]; try done.
  destruct Hbuild as (-> & -> & Hwrites). split; [done|].
  by eapply unchanged_after.
Qed.

Lemma ganttData_returnsAs (localeCompare : string → string → Z) (fuel : nat)
    (activities wbsStructure : nat) (items : list WBSItem.t) (expandedWBS : list string)
    (h : Heap.t) :
  Heap.wbsArrays h !! wbsStructure = Some items →
  returnsAs h
    (GanttChartHeap.ganttData localeCompare activities wbsStructure expandedWBS fuel h)
    (GanttChart.ganttData localeCompare (Heap.activitiesAt h activities) items
       (Heap.members expandedWBS) fuel).
Proof.
  intros Hw. unfold GanttChartHeap.ganttData, GanttChart.ganttData.
  destruct (GanttChart.projectTimeline (Heap.activitiesAt h activities)); [|by split].
  unfold Heap.wbsAt. rewrite Hw. cbn [default from_option id].
  destruct (bool_decide (length items = 0%nat)); [by split|].
  unfold GanttChartHeap.activitiesByWBS, GanttChart.activitiesByWBS.
  destruct (groupByWBS_agree Activity.wbs_id activities h) as (Hview & Hshare & Hnew & Hun).
  destruct (Heap.groupByWBS _ activities h) as [byWBS h0]. cbn [fst snd] in *.
  pose proof (unchanged_wbs_dom _ _ _ _ Hun Hw) as Hw0.
  pose proof (buildWBSNodes_agree localeCompare wbsStructure items byWBS expandedWBS Hshare
                fuel None 0%nat h0 Hw0) as Hbuild.
  rewrite Hview in Hbuild. unfold agree in Hbuild.
  destruct (GanttChartHeap.buildWBSNodes _ _ _ _ _ _ _ h0) as [[h' nodes]|],
           (GanttChart.buildWBSNodes _ _ _ _ _ _ _) as [[store nodes']|]; try done.
  destruct Hbuild as (-> & _ & Hwrites). split; [done|].
  by eapply unchanged_after.
Qed.

(** C7.  Two invocations of a builder, for equal activities, equal WBS items
    and [Set] instances with the same members, return the same rows, hence
    the same ids in the same order; with a given fuel, if one does not return
    neither does the other.  The invocations run on a heap: the first from a
    heap [h] that holds the activities at [la] and the WBS items at [lw], the
    second from any heap that holds equal arrays at [la'] and [lw'].  The
    heap the first invocation leaves is such a heap, at [la] and [lw]: the
    invocation sorts arrays in place, but writes to no array that [h] has.
    The rows are those of the builder run on the contents of the arrays.
    This holds for the hierarchy of the activities page and for the Gantt
    data. *)
Theorem hierarchy_deterministic (localeCompare : string → string → Z) (fuel : nat)
    (activities : list Activity.t) (wbsStructure : list WBSItem.t)
    (projectInfo : option ActivitiesPage.ProjectInfo)
    (expanded1 expanded2 : list string) (la lw : nat) (h : Heap.t) :
  Heap.activityArrays h !! la = Some activities →
  Heap.wbsArrays h !! lw = Some wbsStructure →
  (∀ nodeId, nodeId ∈ expanded1 ↔ nodeId ∈ expanded2) →
  (∀ h1 out,
     ActivitiesPageHeap.hierarchy localeCompare fuel la lw projectInfo expanded1 h
       = Some (h1, out) →
     unchanged h h1
     ∧ ActivitiesPage.hierarchy localeCompare fuel activities wbsStructure projectInfo
         (Heap.members expanded1) = Some out
     ∧ ∀ la' lw' h',
         Heap.activityArrays h' !! la' = Some activities →
         Heap.wbsArrays h' !! lw' = Some wbsStructure →
         ∃ h2, ActivitiesPageHeap.hierarchy localeCompare fuel la' lw' projectInfo
                 expanded2 h' = Some (h2, out))
  ∧ (ActivitiesPageHeap.hierarchy localeCompare fuel la lw projectInfo expanded1 h = None →
     ∀ la' lw' h',
       Heap.activityArrays h' !! la' = Some activities →
       Heap.wbsArrays h' !! lw' = Some wbsStructure →
       ActivitiesPageHeap.hierarchy localeCompare fuel la' lw' projectInfo expanded2 h'
       = None)
  ∧ (∀ h1 out,
       GanttChartHeap.ganttData localeCompare la lw expanded1 fuel h = Some (h1, out) →
       unchanged h h1
       ∧ GanttChart.ganttData localeCompare activities wbsStructure
           (Heap.members expanded1) fuel = Some out
       ∧ ∀ la' lw' h',
           Heap.activityArrays h' !! la' = Some activities →
           Heap.wbsArrays h' !! lw' = Some wbsStructure →
           ∃ h2, GanttChartHeap.ganttData localeCompare la' lw' expanded2 fuel h'
                 = Some (h2, out))
  ∧ (GanttChartHeap.ganttData localeCompare la lw expanded1 fuel h = None →
     ∀ la' lw' h',
       Heap.activityArrays h' !! la' = Some activities →
       Heap.wbsArrays h' !! lw' = Some wbsStructure →
       GanttChartHeap.ganttData localeCompare la' lw' expanded2 fuel h' = None).
Proof.
  intros Hla Hlw Hsame.
  pose proof (members_same _ _ Hsame) as Hmembers.
  assert (Hacts : ∀ l h', Heap.activityArrays h' !! l = Some activities →
                          Heap.activitiesAt h' l = activities).
  { intros l h' Hl. unfold Heap.activitiesAt. by rewrite Hl. }
  pose proof (hierarchy_returnsAs localeCompare fuel la lw wbsStructure projectInfo
                expanded1 h Hlw) as Hfirst.
  pose proof (ganttData_returnsAs localeCompare fuel la lw wbsStructure expanded1 h Hlw)
    as Hgantt.
  rewrite (Hacts _ _ Hla) in Hfirst, Hgantt.
  assert (Hsecond : ∀ la' lw' h',
            Heap.activityArrays h' !! la' = Some activities →
            Heap.wbsArrays h' !! lw' = Some wbsStructure →
            returnsAs h'
              (ActivitiesPageHeap.hierarchy localeCompare fuel la' lw' projectInfo
                 expanded2 h')
              (ActivitiesPage.hierarchy localeCompare fuel activities wbsStructure
                 projectInfo (Heap.members expanded1))).
  { intros la' lw' h' Hla' Hlw'. rewrite Hmembers, <- (Hacts _ _ Hla').
    by apply hierarchy_returnsAs. }
  assert (Hgantt2 : ∀ la' lw' h',
            Heap.activityArrays h' !! la' = Some activities →
            Heap.wbsArrays h' !! lw' = Some wbsStructure →
            returnsAs h'
              (GanttChartHeap.ganttData localeCompare la' lw' expanded2 fuel h')
              (GanttChart.ganttData localeCompare activities wbsStructure
                 (Heap.members expanded1) fuel)).
  { intros la' lw' h' Hla' Hlw'. rewrite Hmembers, <- (Hacts _ _ Hla').
    by apply ganttData_returnsAs. }
  unfold returnsAs in *.
  split; [|split; [|split]].
  - intros h1 out Hrun. rewrite Hrun in Hfirst.
    destruct (ActivitiesPage.hierarchy _ _ _ _ _ _) as [out'|]; [|done].
    destruct Hfirst as [<- Hun]. split; [done|]. split; [done|].
    intros la' lw' h' Hla' Hlw'. specialize (Hsecond la' lw' h' Hla' Hlw').
    destruct (ActivitiesPageHeap.hierarchy _ _ la' _ _ _ _) as [[h2 out2]|]; [|done].
    destruct Hsecond as [-> _]. by exists h2.
  - intros Hrun la' lw' h' Hla' Hlw'. rewrite Hrun in Hfirst.
    destruct (ActivitiesPage.hierarchy _ _ _ _ _ _) as [out'|]; [done|].
    specialize (Hsecond la' lw' h' Hla' Hlw').
    by destruct (ActivitiesPageHeap.hierarchy _ _ la' _ _ _ _) as [[h2 out2]|].
  - intros h1 out Hrun. rewrite Hrun in Hgantt.
    destruct (GanttChart.ganttData _ _ _ _ _) as [out'|]; [|done].
    destruct Hgantt as [<- Hun]. split; [done|]. split; [done|].
    intros la' lw' h' Hla' Hlw'. specialize (Hgantt2 la' lw' h' Hla' Hlw').
    destruct (GanttChartHeap.ganttData _ la' _ _ _ _) as [[h2 out2]|]; [|done].
    destruct Hgantt2 as [-> _]. by exists h2.
  - intros Hrun la' lw' h' Hla' Hlw'. rewrite Hrun in Hgantt.
    destruct (GanttChart.ganttData _ _ _ _ _) as [out'|]; [done|].
    specialize (Hgantt2 la' lw' h' Hla' Hlw').
    by destruct (GanttChartHeap.ganttData _ la' _ _ _ _) as [[h2 out2]|].
Qed.

(** The theorem at two activities that the first invocation sorts, for two
    [Set] instances filled in different orders: the second invocation, from
    the heap the first has left, returns the same rows. *)
Lemma hierarchy_deterministic_witness :
  match ActivitiesPageHeap.hierarchy codeUnitCompare 5 0 0 (Some plant)
          ["project-root"; "P"] (pageHeap lateFirst nestedPhases) with
  | Some (h1, out) =>
      unchanged (pageHeap lateFirst nestedPhases) h1
      ∧ ∃ h2, ActivitiesPageHeap.hierarchy codeUnitCompare 5 0 0 (Some plant)
                ["P"; "project-root"] h1 = Some (h2, out)
  | None => False
  end.
Proof.
  destruct (ActivitiesPageHeap.hierarchy codeUnitCompare 5 0 0 (Some plant)
              ["project-root"; "P"] (pageHeap lateFirst nestedPhases))
    as [[h1 out]|] eqn:Hrun; [|vm_compute in Hrun; discriminate].
  assert (Hsame : ∀ nodeId : string,
            nodeId ∈ ["project-root"; "P"] ↔ nodeId ∈ ["P"; "project-root"]).
  { intros nodeId. rewrite !elem_of_cons. tauto. }
  destruct (hierarchy_deterministic codeUnitCompare 5 lateFirst nestedPhases (Some plant)
              ["project-root"; "P"] ["P"; "project-root"] 0 0
              (pageHeap lateFirst nestedPhases) eq_refl eq_refl Hsame) as (Hpage & _).
  destruct (Hpage h1 out Hrun) as (Hun & _ & Hagain).
  split; [exact Hun|]. apply Hagain.
  - by apply (unchanged_activities_dom (pageHeap lateFirst nestedPhases)).
  - by apply (unchanged_wbs_dom (pageHeap lateFirst nestedPhases)).
Defined.

(** The sort in place of the first invocation is a write: the array of the
    Map for the phase ends up sorted by start date, the array of the
    activities stays as it was, and the rows list the activities as sorted. *)
Example sort_in_place_written :
  (λ r, (Heap.activitiesAt r.1 0, Heap.activitiesAt r.1 1,
         List.filter (λ i, bool_decide (i = "T1" ∨ i = "T2")) (ActivitiesPage.id <$> r.2)))
    <$> ActivitiesPageHeap.hierarchy codeUnitCompare 5 0 0 (Some plant)
          ["project-root"; "P"] (pageHeap lateFirst nestedPhases)
  = Some (lateFirst, reverse lateFirst, ["T2"; "T1"]).
Proof. vm_compute. reflexivity. Qed.

(** ** Hierarchy builders: the project root *)

(** Without expansion of the project root the activities page returns the
    root row alone, whatever the fuel. *)
Lemma hierarchy_collapsed_root (localeCompare : string → string → Z) (fuel : nat)
    (activities : list Activity.t) (wbsStructure : list WBSItem.t)
    (info : ActivitiesPage.ProjectInfo) (expandedNodes : gset string) :
  "project-root" ∉ expandedNodes →
  ActivitiesPage.hierarchy localeCompare fuel activities wbsStructure (Some info) expandedNodes
    = Some [ActivitiesPage.projectNode wbsStructure info expandedNodes].
Proof.
  intros Hroot. unfold ActivitiesPage.hierarchy, ActivitiesPage.hierarchyWith.
  by rewrite bool_decide_eq_false_2.
Qed.

(** C6, as the code has it.  A non-empty output of the activities page starts
    with the project root, whose [children] is the number of WBS items, and
    holds nothing else unless the root is expanded.  A non-empty output of the
    enhanced page starts with the project root as well and holds nothing else
    unless the root is expanded; that root has an empty [children] array and
    carries the number of activities in [activityCount]. *)
Theorem project_root_first (localeCompare : string → string → Z) (fuel : nat)
    (activities : list Activity.t) (wbsStructure : list WBSItem.t)
    (projectInfo : option ActivitiesPage.ProjectInfo)
    (schedule : EnhancedActivitiesPage.Schedule)
    (projectSummary : option EnhancedActivitiesPage.ProjectSummary)
    (expanded : gset string) :
  (∀ out,
     ActivitiesPage.hierarchy localeCompare fuel activities wbsStructure projectInfo expanded
       = Some out →
     out ≠ [] →
     ∃ root rest,
       out = root :: rest
       ∧ ActivitiesPage.id root = "project-root"
       ∧ ActivitiesPage.type root = project
       ∧ ActivitiesPage.children root = Some (length wbsStructure)
       ∧ ("project-root" ∉ expanded → rest = []))
  ∧ (∀ out,
       EnhancedActivitiesPage.treeData localeCompare activities wbsStructure expanded schedule
         fuel projectSummary = Some out →
       out ≠ [] →
       ∃ root rest,
         out = root :: rest
         ∧ EnhancedActivitiesPage.id root = "project-root"
         ∧ EnhancedActivitiesPage.type root = project
         ∧ EnhancedActivitiesPage.children root = []
         ∧ EnhancedActivitiesPage.activityCount root = Some (length activities)
         ∧ ("project-root" ∉ expanded → rest = [])).
Proof.
  split.
  - intros out Hout Hne. unfold ActivitiesPage.hierarchy in Hout.
    destruct projectInfo as [info|]; [|by simplify_eq].
    unfold ActivitiesPage.hierarchyWith in Hout.
    case_bool_decide as Hroot.
    + destruct (ActivitiesPage.buildWBSTree _ _ _ _ _ _ _ _) as [[byWBS tree]|];
        [|done]. simplify_eq.
      eexists _, _. repeat split; done.
    + simplify_eq. eexists _, _. repeat split; done.
  - intros out Hout Hne. unfold EnhancedActivitiesPage.treeData in Hout.
    case_bool_decide as Hempty; [by simplify_eq|].
    destruct projectSummary as [summary|]; [|by simplify_eq].
    case_bool_decide as Hroot.
    + destruct (EnhancedActivitiesPage.buildWBSNodes _ _ _ _ _ _ _) as [[byWBS tree]|];
        [|done]. simplify_eq.
      eexists _, _. repeat split; done.
    + simplify_eq. eexists _, _. repeat split; done.
Qed.

(** The theorem at a collapsed project with two WBS items. *)
Lemma project_root_first_witness :
  ∃ root rest,
    ActivitiesPage.hierarchy codeUnitCompare 5 nestedActivities nestedPhases (Some plant) ∅
      = Some (root :: rest)
    ∧ ActivitiesPage.children root = Some 2%nat
    ∧ rest = [].
Proof.
  assert (∃ out,
             ActivitiesPage.hierarchy codeUnitCompare 5 nestedActivities nestedPhases
               (Some plant) ∅ = Some out ∧ out ≠ []) as (out & Hout & Hne).
  { vm_compute. eexists. split; [reflexivity|discriminate]. }
  destruct (project_root_first codeUnitCompare 5 nestedActivities nestedPhases (Some plant)
              plantSchedule (Some plantSummary) ∅) as [HA _].
  destruct (HA out Hout Hne) as (root & rest & -> & _ & _ & Hchildren & Hrest).
  exists root, rest. split; [exact Hout|]. split; [exact Hchildren|].
  apply Hrest. apply not_elem_of_empty.
Defined.

(** C6 fails as stated.  With one WBS item and two activities the root of the
    enhanced page has no children and an activity count of 2, neither of which
    is the number of WBS items; the Gantt data has no project root at all, its
    first row is the first WBS item. *)
Lemma project_root_count_differs :
  length onePhase = 1%nat
  ∧ (length ∘ EnhancedActivitiesPage.children
       <$> (EnhancedActivitiesPage.treeData codeUnitCompare twoActivities onePhase
              {["project-root"]} plantSchedule 5 (Some plantSummary) ≫= head))
    = Some 0%nat
  ∧ (EnhancedActivitiesPage.activityCount
       <$> (EnhancedActivitiesPage.treeData codeUnitCompare twoActivities onePhase
              {["project-root"]} plantSchedule 5 (Some plantSummary) ≫= head))
    = Some (Some 2%nat)
  ∧ (GanttChart.id
       <$> (GanttChart.ganttData codeUnitCompare twoActivities onePhase ∅ 5 ≫= head))
    = Some "wbs-W1".
Proof. vm_compute. repeat split. Qed.

(** ** Hierarchy builders: unassigned activities and expansion *)

(** C4, the failing input.  With every node expanded, the activity T1, whose
    WBS id ZZZ is the id of no WBS item, is in no row of the output; only T2,
    whose WBS id is empty, is listed under the unassigned node. *)
Theorem stray_activity_dropped :
  List.map ActivitiesPage.id
    <$> ActivitiesPage.hierarchy codeUnitCompare 5 strayActivities onePhase (Some plant)
          {["project-root"; "unassigned"; "W1"]}
  = Some ["project-root"; "wbs-W1"; "wbs-unassigned"; "T2"].
Proof. vm_compute. reflexivity. Qed.

(** C5, the failing input.  The phase P is collapsed: the activities page
    still lists its sub-phase C below it, because [buildWBSTree] recurses into
    the child WBS items outside the test of the expansion flag; the Gantt data
    for the same input stops at P. *)
Theorem collapsed_phase_shows_subphase :
  List.map ActivitiesPage.id
    <$> ActivitiesPage.hierarchy codeUnitCompare 5 nestedActivities nestedPhases (Some plant)
          {["project-root"]}
  = Some ["project-root"; "wbs-P"; "wbs-C"]
  ∧ List.map GanttChart.id
      <$> GanttChart.ganttData codeUnitCompare nestedActivities nestedPhases
            {["project-root"]} 5
    = Some ["wbs-P"].
Proof. vm_compute. split; reflexivity. Qed.

(** ** Loops that may run out of fuel *)

Lemma flatMapM_None {A B} (f : A → option (list B)) (l : list A) (x : A) :
  x ∈ l → f x = None → flatMapM f l = None.
Proof.
  intros Hx Hf. induction Hx as [x l|x y l _ IH]; simpl.
  - by rewrite Hf.
  - destruct (f y); [|done]. by rewrite IH.
Qed.

Lemma flatMapM_is_Some {A B} (f : A → option (list B)) (l : list A) :
  (∀ x, x ∈ l → is_Some (f x)) → is_Some (flatMapM f l).
Proof.
  induction l as [|x l IH]; intros Hf; simpl; [by eexists|].
  destruct (Hf x) as [ys ->]; [by left|].
  destruct IH as [zs ->]; [|by eexists].
  intros y Hy. apply Hf. by right.
Qed.

Lemma forEachM_None {St A B} (body : St → A → option (St * list B)) (l : list A) (x : A) :
  x ∈ l → (∀ s, body s x = None) → ∀ s, forEachM body s l = None.
Proof.
  intros Hx Hbody. induction Hx as [x l|x y l _ IH]; intros s; simpl.
  - by rewrite Hbody.
  - destruct (body s y) as [[s1 out1]|]; [|done]. by rewrite IH.
Qed.

Lemma forEachM_total {St A B} (Q : B → Prop) (body : St → A → option (St * list B))
    (l : list A) :
  (∀ s x, x ∈ l → ∃ s' out, body s x = Some (s', out) ∧ Forall Q out) →
  ∀ s, ∃ s' out, forEachM body s l = Some (s', out) ∧ Forall Q out.
Proof.
  induction l as [|x l IH]; intros Hbody s; simpl.
  - by eexists _, _.
  - destruct (Hbody s x) as (s1 & out1 & -> & Hout1); [by left|].
    destruct (IH (λ s y Hy, Hbody s y (list_elem_of_further _ _ _ Hy)) s1)
      as (s2 & out2 & -> & Hout2).
    eexists _, _. split; [reflexivity|]. by apply Forall_app_2.
Qed.

Lemma sort_insert_perm {A} (cmp : A → A → Z) (x : A) (l : list A) :
  sort_insert cmp x l ≡ₚ x :: l.
Proof.
  induction l as [|y l IH]; simpl; [done|].
  destruct (cmp x y <=? 0); [done|]. rewrite IH. apply Permutation_swap.
Qed.

Lemma sortBy_perm {A} (cmp : A → A → Z) (l : list A) : sortBy cmp l ≡ₚ l.
Proof.
  induction l as [|x l IH]; simpl; [done|].
  rewrite sort_insert_perm. by rewrite IH.
Qed.

Lemma elem_of_sorted_filter {A} (cmp : A → A → Z) (keep : A → bool) (l : list A) (x : A) :
  x ∈ sortBy cmp (List.filter keep l) ↔ x ∈ l ∧ keep x = true.
Proof.
  rewrite sortBy_perm, !list_elem_of_In. apply filter_In.
Qed.

(** ** Hierarchy builders: cycles of the parent links *)

Section Cycles.
Variable localeCompare : string → string → Z.
Variable activities : list Activity.t.
Variable wbsStructure : list WBSItem.t.
Variable info : ActivitiesPage.ProjectInfo.
Variable expandedNodes : gset string.

Local Abbreviation getAll := (ActivitiesPage.getAllDescendantActivities wbsStructure).
Local Abbreviation build :=
  (ActivitiesPage.buildWBSTree localeCompare wbsStructure info expandedNodes).
Local Abbreviation reachedId := (reached wbsStructure info).
Local Abbreviation below := (descends wbsStructure).
Local Abbreviation cyclicBelow := (hasCycleBelow wbsStructure).

Lemma elem_of_childrenOf (w : WBSItem.t) (p : string) :
  w ∈ ActivitiesPage.childrenOf wbsStructure p
  ↔ w ∈ wbsStructure ∧ WBSItem.parent_wbs_id w = Some p.
Proof.
  unfold ActivitiesPage.childrenOf. rewrite !list_elem_of_In, filter_In.
  by rewrite bool_decide_eq_true.
Qed.

(** The last link of a chain of parent links. *)
Lemma descends_last (c p : string) :
  below c p →
  ∃ w, w ∈ wbsStructure ∧ WBSItem.parent_wbs_id w = Some p
       ∧ (WBSItem.wbs_id w = c ∨ below c (WBSItem.wbs_id w)).
Proof.
  induction 1 as [w p Hw Hp|c q p Hcq _ _ IH].
  - exists w. auto.
  - destruct IH as (w & Hw & Hp & [Hq|Hq]); exists w; repeat split; auto; right.
    + by rewrite Hq.
    + by eapply descends_trans.
Qed.

Lemma cyclicBelow_child (j : string) :
  cyclicBelow j →
  ∃ w, w ∈ wbsStructure ∧ WBSItem.parent_wbs_id w = Some j
       ∧ cyclicBelow (WBSItem.wbs_id w).
Proof.
  intros (i & Hcycle & Hij).
  assert (Hbelow : below i j) by (destruct Hij as [<-|]; done).
  destruct (descends_last i j Hbelow) as (w & Hw & Hp & Hi).
  exists w. split; [done|]. split; [done|].
  exists i. split; [done|]. destruct Hi as [<-|Hi]; auto.
Qed.

Lemma cyclicBelow_parent (w : WBSItem.t) (p : string) :
  w ∈ wbsStructure → WBSItem.parent_wbs_id w = Some p →
  cyclicBelow (WBSItem.wbs_id w) → cyclicBelow p.
Proof.
  intros Hw Hp (i & Hcycle & Hi). exists i. split; [done|]. right.
  destruct Hi as [->|Hi].
  - by apply descends_child.
  - eapply descends_trans; [exact Hi|]. by apply descends_child.
Qed.

(** [getAllDescendantActivities] does not return on an id that has a cycle at
    or below it. *)
Lemma getAll_diverges (fuel : nat) (byWBS : gmap string (list Activity.t)) (j : string) :
  cyclicBelow j → getAll fuel byWBS j = None.
Proof.
  revert j. induction fuel as [|fuel IH]; intros j Hj; [done|].
  destruct (cyclicBelow_child j Hj) as (w & Hw & Hp & Hcw).
  cbn [ActivitiesPage.getAllDescendantActivities].
  rewrite (flatMapM_None _ _ w); [done| |by apply IH].
  by apply elem_of_childrenOf.
Qed.

Lemma reached_cyclic_root (j : string) :
  reachedId j → cyclicBelow j →
  ∃ r, r ∈ wbsStructure ∧ ActivitiesPage.isChildOf info None r = true
       ∧ cyclicBelow (WBSItem.wbs_id r).
Proof.
  induction 1 as [w Hw Hroot|w p Hw Hp _ IH]; intros Hc.
  - by exists w.
  - apply IH. by eapply cyclicBelow_parent.
Qed.

(** The builder does not return when the traversal reaches a cycle. *)
Lemma build_diverges (fuel : nat) (byWBS : gmap string (list Activity.t)) (lvl : nat)
    (i : string) :
  reachedId i → onCycle wbsStructure i → build fuel byWBS None lvl = None.
Proof.
  intros Hreached Hcycle.
  destruct (reached_cyclic_root i Hreached) as (r & Hr & Hroot & Hc).
  { exists i. auto. }
  destruct fuel as [|fuel]; [done|].
  cbn [ActivitiesPage.buildWBSTree].
  apply (forEachM_None _ _ r).
  - by apply elem_of_sorted_filter.
  - intros s. by rewrite getAll_diverges.
Qed.

(** A rank that decreases along the visited parent links. *)
Section Ranked.
Variable rank : string → nat.
Hypothesis Hrank : wellFoundedBelowRoots wbsStructure info rank.

Local Abbreviation fromReached := (rowOfReached wbsStructure info).
Local Abbreviation childrenBelow := (childrenRankBelow wbsStructure info rank).

Lemma below_reached (c p : string) :
  below c p → reachedId p → reachedId c ∧ (rank c < rank p)%nat.
Proof.
  induction 1 as [w p Hw Hp|c q p _ IH1 _ IH2]; intros Hreached.
  - split; [by eapply reached_child|by apply Hrank].
  - destruct (IH2 Hreached) as [Hq Hlt]. destruct (IH1 Hq) as [Hc Hlt']. split; [done|lia].
Qed.

Lemma onCycle_not_reached (i : string) : onCycle wbsStructure i → ¬ reachedId i.
Proof.
  intros Hcycle Hreached. destruct (below_reached i i Hcycle Hreached) as [_ Hlt]. lia.
Qed.

Lemma getAll_returns (fuel : nat) (byWBS : gmap string (list Activity.t)) (j : string) :
  reachedId j → (rank j < fuel)%nat → is_Some (getAll fuel byWBS j).
Proof.
  revert j. induction fuel as [|fuel IH]; intros j Hj Hlt; [lia|].
  cbn [ActivitiesPage.getAllDescendantActivities].
  destruct (flatMapM_is_Some
              (λ c, getAll fuel byWBS (WBSItem.wbs_id c))
              (ActivitiesPage.childrenOf wbsStructure j)) as [l ->]; [|by eexists].
  intros c [Hc Hp]%elem_of_childrenOf. apply IH.
  - by eapply reached_child.
  - specialize (Hrank c j Hc Hp Hj). lia.
Qed.

Lemma childrenBelow_child (bound : nat) (p : string) :
  reachedId p → (rank p ≤ bound)%nat → childrenBelow bound (Some p).
Proof.
  intros Hp Hle w Hw Hchild. simpl in Hchild. apply bool_decide_eq_true in Hchild.
  split; [by eapply reached_child|]. specialize (Hrank w p Hw Hchild Hp). lia.
Qed.

Lemma build_returns (bound : nat) (byWBS : gmap string (list Activity.t))
    (parent : option string) (lvl : nat) :
  childrenBelow bound parent →
  ∃ byWBS' out, build (S bound) byWBS parent lvl = Some (byWBS', out)
                ∧ Forall fromReached out.
Proof.
  revert byWBS parent lvl. induction bound as [|bound IH]; intros byWBS parent lvl Hchildren.
  { cbn [ActivitiesPage.buildWBSTree]. apply forEachM_total.
    intros s w [Hw Hchild]%elem_of_sorted_filter.
    destruct (Hchildren w Hw Hchild) as [_ Hlt]. lia. }
  remember (S bound) as fuel eqn:Hfuel.
  cbn [ActivitiesPage.buildWBSTree]. apply forEachM_total.
  intros s w [Hw Hchild]%elem_of_sorted_filter.
  destruct (Hchildren w Hw Hchild) as [Hreached Hlt].
  destruct (getAll_returns fuel s (WBSItem.wbs_id w) Hreached Hlt) as [l ->].
  match goal with
  | |- context [ActivitiesPage.buildWBSTree _ _ _ _ _ ?m ?p ?k] =>
      destruct (IH m p k) as (byWBS' & sub & -> & Hsub)
  end.
  { apply childrenBelow_child; [done|lia]. }
  eexists _, _. split; [reflexivity|].
  constructor.
  - intros _ i [= <-]. exact Hreached.
  - apply Forall_app_2; [|exact Hsub].
    destruct (_ && _); [|constructor].
    apply Forall_forall. intros row Hrow%list_elem_of_In.
    apply in_map_iff in Hrow as (a & <- & _). intros [=].
Qed.

End Ranked.
End Cycles.

Lemma hierarchy_diverges (localeCompare : string → string → Z) (activities : list Activity.t)
    (wbsStructure : list WBSItem.t) (info : ActivitiesPage.ProjectInfo)
    (expandedNodes : gset string) (i : string) :
  reached wbsStructure info i → onCycle wbsStructure i →
  "project-root" ∈ expandedNodes →
  ¬ terminates localeCompare activities wbsStructure (Some info) expandedNodes.
Proof.
  intros Hreached Hcycle Hroot (fuel & out & Hout).
  unfold ActivitiesPage.hierarchy, ActivitiesPage.hierarchyWith in Hout.
  rewrite bool_decide_eq_true_2 in Hout by done.
  by rewrite (build_diverges _ _ _ _ _ _ _ i) in Hout.
Qed.

Lemma unassignedRows_wbs (expandedNodes : gset string) (byWBS : gmap string (list Activity.t))
    (row : ActivitiesPage.HierarchyNode) :
  row ∈ ActivitiesPage.unassignedRows expandedNodes byWBS →
  ActivitiesPage.type row = wbs →
  ActivitiesPage.wbs_id row = Some "unassigned".
Proof.
  unfold ActivitiesPage.unassignedRows. destruct (0 <? _); [|by intros ?%elem_of_nil].
  intros [->|Hrow]%elem_of_cons; [done|].
  destruct (bool_decide _); [|by apply elem_of_nil in Hrow].
  apply list_elem_of_In, in_map_iff in Hrow as (a & <- & _). done.
Qed.

(** *** Paths of the output *)

Lemma forEachM_all {St A B} (Q : list B → Prop) (body : St → A → option (St * list B))
    (l : list A) :
  Q [] →
  (∀ o1 o2, Q o1 → Q o2 → Q (o1 ++ o2)) →
  (∀ s x s' o, x ∈ l → body s x = Some (s', o) → Q o) →
  ∀ s s' out, forEachM body s l = Some (s', out) → Q out.
Proof.
  intros Hnil Happ. induction l as [|x l IH]; intros Hbody s s' out; simpl.
  - by intros [= _ <-].
  - destruct (body s x) as [[s1 o1]|] eqn:E; [|done].
    destruct (forEachM body s1 l) as [[s2 o2]|] eqn:E'; [|done].
    intros [= _ <-]. apply Happ.
    + eapply Hbody; [by left|exact E].
    + eapply IH; [|exact E']. intros ? ? ? ? Hin. apply Hbody. by right.
Qed.

Lemma filter_below (lvl : nat) (st : list (nat * string)) :
  Forall (λ a, (a.1 < lvl)%nat) st →
  List.filter (λ a, (a.1 <? lvl)%nat) st = st.
Proof.
  induction 1 as [|a st Ha _ IH]; simpl; [done|].
  apply Nat.ltb_lt in Ha. by rewrite Ha, IH.
Qed.

Lemma headLevelLe_weaken (lvl lvl' : nat) (rest : list ActivitiesPage.HierarchyNode) :
  (lvl ≤ lvl')%nat → headLevelLe lvl rest → headLevelLe lvl' rest.
Proof. destruct rest; simpl; [done|lia]. Qed.

(** The rows after a block are not under the WBS row that heads it. *)
Lemma wbsPathsFrom_leave (lvl : nat) (i : string) (st : list (nat * string))
    (rest : list ActivitiesPage.HierarchyNode) :
  headLevelLe lvl rest →
  wbsPathsFrom ((lvl, i) :: st) rest = wbsPathsFrom st rest.
Proof.
  destruct rest as [|row rest]; [done|]. intros Hle. simpl in Hle.
  cbn [wbsPathsFrom List.filter fst].
  replace (lvl <? ActivitiesPage.level row)%nat with false; [done|].
  symmetry. apply Nat.ltb_ge. exact Hle.
Qed.

(** Activity rows are leaves: they are under the ancestors and add none. *)
Lemma wbsPathsFrom_activities (lvl : nat) (k : string) (acts : list Activity.t)
    (st : list (nat * string)) (rest : list ActivitiesPage.HierarchyNode) :
  Forall (λ a, (a.1 < lvl)%nat) st →
  wbsPathsFrom st (List.map (ActivitiesPage.activityNode lvl k) acts ++ rest)
  = replicate (length acts) st.*2 ++ wbsPathsFrom st rest.
Proof.
  intros Hst. induction acts as [|a acts IH]; [done|].
  cbn [List.map app wbsPathsFrom ActivitiesPage.activityNode ActivitiesPage.type
       ActivitiesPage.level length replicate].
  by rewrite (filter_below _ _ Hst), IH.
Qed.

Lemma pathBlock_nil (st : list (nat * string)) (lvl : nat) : pathBlock st lvl [].
Proof. intros rest Hrest. split; [done|]. by exists []. Qed.

Lemma pathBlock_app (st : list (nat * string)) (lvl : nat)
    (o1 o2 : list ActivitiesPage.HierarchyNode) :
  pathBlock st lvl o1 → pathBlock st lvl o2 → pathBlock st lvl (o1 ++ o2).
Proof.
  intros H1 H2 rest Hrest.
  destruct (H2 rest Hrest) as [Hhead2 (p2 & Heq2 & Hp2)].
  destruct (H1 (o2 ++ rest) Hhead2) as [Hhead1 (p1 & Heq1 & Hp1)].
  rewrite <- app_assoc. split; [done|].
  exists (p1 ++ p2). split; [|by apply Forall_app].
  by rewrite Heq1, Heq2, app_assoc.
Qed.

Section Paths.
Variable localeCompare : string → string → Z.
Variable wbsStructure : list WBSItem.t.
Variable info : ActivitiesPage.ProjectInfo.
Variable expandedNodes : gset string.
Hypothesis Hacyclic : ∀ i, reached wbsStructure info i → ¬ onCycle wbsStructure i.

(** The rows a call of [buildWBSTree] pushes form a block under the ancestors
    of the call, when the items it loops over are visited and descend from
    every ancestor. *)
Lemma build_pathBlock (fuel : nat) (m : gmap string (list Activity.t))
    (parent : option string) (lvl : nat) (m' : gmap string (list Activity.t))
    (out : list ActivitiesPage.HierarchyNode) (st : list (nat * string)) :
  ActivitiesPage.buildWBSTree localeCompare wbsStructure info expandedNodes fuel m parent lvl
    = Some (m', out) →
  Forall (λ a, (a.1 < lvl)%nat) st →
  NoDup st.*2 →
  (∀ w, w ∈ wbsStructure → ActivitiesPage.isChildOf info parent w = true →
        reached wbsStructure info (WBSItem.wbs_id w)
        ∧ ∀ i, i ∈ st.*2 → descends wbsStructure (WBSItem.wbs_id w) i) →
  pathBlock st lvl out.
Proof.
  revert m parent lvl m' out st.
  induction fuel as [|fuel IH]; intros m parent lvl m' out st; [done|].
  cbn [ActivitiesPage.buildWBSTree]. intros Hloop Hst Hnodup Hitems.
  eapply (forEachM_all (pathBlock st lvl)); [apply pathBlock_nil|apply pathBlock_app| |exact Hloop].
  intros s w s' o [Hw Hchild]%elem_of_sorted_filter Hbody.
  destruct (ActivitiesPage.getAllDescendantActivities _ _ _ _) as [all|]; [|done].
  cbv zeta in Hbody.
  match type of Hbody with
  | context [ActivitiesPage.buildWBSTree ?a ?b ?c ?d ?e ?f ?g ?h] =>
      destruct (ActivitiesPage.buildWBSTree a b c d e f g h) as [[m2 sub]|] eqn:E; [|done]
  end.
  injection Hbody as <- <-.
  destruct (Hitems w Hw Hchild) as [Hreached Hbelow].
  assert (Hfresh : WBSItem.wbs_id w ∉ st.*2).
  { intros Hin. apply (Hacyclic _ Hreached). by apply Hbelow. }
  assert (Hsub : pathBlock ((lvl, WBSItem.wbs_id w) :: st) (lvl + 1) sub).
  { eapply IH; [exact E| | |].
    - constructor; [simpl; lia|]. eapply Forall_impl; [exact Hst|]. simpl. intros; lia.
    - simpl. by constructor.
    - intros c Hc Hparent. simpl in Hparent. apply bool_decide_eq_true in Hparent.
      assert (Hcw : descends wbsStructure (WBSItem.wbs_id c) (WBSItem.wbs_id w))
        by (by apply descends_child).
      split; [by eapply reached_child|].
      intros i [->|Hi]%elem_of_cons; [done|].
      eapply descends_trans; [exact Hcw|by apply Hbelow]. }
  intros rest Hrest. split; [simpl; lia|].
  destruct (Hsub rest (headLevelLe_weaken lvl (lvl + 1) rest ltac:(lia) Hrest))
    as [_ (paths & Hpaths & Hnodups)].
  set (shown := bool_decide (WBSItem.wbs_id w ∈ expandedNodes) && _).
  set (sorted := sortBy _ _).
  assert (Hrows : (if shown
                   then List.map (ActivitiesPage.activityNode (lvl + 1) (WBSItem.wbs_id w)) sorted
                   else [])
                  = List.map (ActivitiesPage.activityNode (lvl + 1) (WBSItem.wbs_id w))
                      (if shown then sorted else [])) by (by destruct shown).
  rewrite Hrows.
  assert (Hst' : Forall (λ a, (a.1 < lvl + 1)%nat) ((lvl, WBSItem.wbs_id w) :: st)).
  { constructor; [simpl; lia|]. eapply Forall_impl; [exact Hst|]. simpl. intros; lia. }
  exists ((WBSItem.wbs_id w :: st.*2)
          :: replicate (length (if shown then sorted else [])) (WBSItem.wbs_id w :: st.*2)
          ++ paths).
  split.
  - cbn [app wbsPathsFrom ActivitiesPage.wbsNode ActivitiesPage.type ActivitiesPage.wbs_id
         ActivitiesPage.level].
    rewrite (filter_below _ _ Hst), <- !app_assoc.
    rewrite (wbsPathsFrom_activities _ _ _ _ _ Hst'), Hpaths.
    by rewrite (wbsPathsFrom_leave lvl _ st rest Hrest).
  - assert (Hpath : NoDup (WBSItem.wbs_id w :: st.*2)) by (by constructor).
    constructor; [exact Hpath|]. apply Forall_app. split; [|exact Hnodups].
    apply Forall_forall. by intros p ->%elem_of_replicate_inv.
Qed.

End Paths.

(** When the builder of the activities page returns, no WBS id appears twice
    on a path from the root to a row of its output. *)
Lemma hierarchy_oncePerPath (localeCompare : string → string → Z) (fuel : nat)
    (activities : list Activity.t) (wbsStructure : list WBSItem.t)
    (info : ActivitiesPage.ProjectInfo) (expandedNodes : gset string)
    (out : list ActivitiesPage.HierarchyNode) :
  ActivitiesPage.hierarchy localeCompare fuel activities wbsStructure (Some info) expandedNodes
    = Some out →
  oncePerPath out.
Proof.
  unfold ActivitiesPage.hierarchy, ActivitiesPage.hierarchyWith, oncePerPath, wbsPaths.
  case_bool_decide as Hroot; [|intros [= <-]; by repeat constructor].
  destruct (ActivitiesPage.buildWBSTree _ _ _ _ _ _ _ _) as [[byWBS tree]|] eqn:E; [|done].
  intros [= <-].
  assert (Hacyclic : ∀ i, reached wbsStructure info i → ¬ onCycle wbsStructure i).
  { intros i Hreached Hcycle.
    by rewrite (build_diverges localeCompare wbsStructure info expandedNodes _ _ _ i) in E. }
  assert (Hrest : headLevelLe 1 (ActivitiesPage.unassignedRows expandedNodes byWBS)).
  { unfold ActivitiesPage.unassignedRows. destruct (0 <? _); simpl; [lia|done]. }
  assert (Hblock : pathBlock [] 1 tree).
  { eapply (build_pathBlock localeCompare wbsStructure info expandedNodes Hacyclic);
      [exact E|constructor|constructor|].
    intros w Hw Hchild. split; [by apply reached_root|]. by intros i ?%elem_of_nil. }
  destruct (Hblock _ Hrest) as [_ (paths & Hpaths & Hnodups)].
  cbn [wbsPathsFrom ActivitiesPage.projectNode ActivitiesPage.type List.filter fmap list_fmap].
  constructor; [constructor|]. rewrite Hpaths. apply Forall_app. split; [exact Hnodups|].
  unfold ActivitiesPage.unassignedRows. destruct (0 <? _); [|constructor].
  set (shown := bool_decide ("unassigned" ∈ expandedNodes)).
  set (acts := default [] (byWBS !! "unassigned")).
  replace (if shown then List.map (ActivitiesPage.activityNode 2 "unassigned") acts else [])
    with (List.map (ActivitiesPage.activityNode 2 "unassigned") (if shown then acts else [])
          ++ []) by (destruct shown; simpl; by rewrite ?app_nil_r).
  cbn [wbsPathsFrom ActivitiesPage.unassignedNode ActivitiesPage.type ActivitiesPage.wbs_id
       ActivitiesPage.level List.filter fmap list_fmap].
  rewrite wbsPathsFrom_activities by (constructor; [simpl; lia|constructor]).
  assert (Hpath : NoDup ["unassigned"]) by (apply NoDup_singleton).
  constructor; [exact Hpath|]. apply Forall_app. split; [|constructor].
  apply Forall_forall. by intros p ->%elem_of_replicate_inv.
Qed.

(** C3, as the code has it.  The builder of the activities page has no cycle
    detection.  It returns whenever the parent links below the root-level
    items are well-founded, and then no WBS row of the output belongs to an id
    on a cycle: a cycle that no root-level item leads to, such as A and B
    naming each other as parent, is never entered.  Whenever it returns, each
    WBS id appears at most once on every path from the root to a row of the
    output.  When the traversal reaches an id on a cycle and the project root
    is expanded, the builder does not return, whatever the fuel. *)
Theorem termination_and_cycles (localeCompare : string → string → Z)
    (activities : list Activity.t) (wbsStructure : list WBSItem.t)
    (info : ActivitiesPage.ProjectInfo) (expandedNodes : gset string) :
  (∀ rank,
     wellFoundedBelowRoots wbsStructure info rank →
     ∃ fuel out,
       ActivitiesPage.hierarchy localeCompare fuel activities wbsStructure (Some info)
         expandedNodes = Some out
       ∧ oncePerPath out
       ∧ ∀ row i,
           row ∈ out →
           ActivitiesPage.type row = wbs →
           ActivitiesPage.wbs_id row = Some i →
           onCycle wbsStructure i →
           i = "unassigned")
  ∧ (∀ fuel out,
       ActivitiesPage.hierarchy localeCompare fuel activities wbsStructure (Some info)
         expandedNodes = Some out →
       oncePerPath out)
  ∧ (∀ i,
       reached wbsStructure info i →
       onCycle wbsStructure i →
       "project-root" ∈ expandedNodes →
       ¬ terminates localeCompare activities wbsStructure (Some info) expandedNodes).
Proof.
  split; [|split; [intros fuel out; apply hierarchy_oncePerPath|apply hierarchy_diverges]].
  intros rank Hrank.
  set (bound := S (max_list (rank ∘ WBSItem.wbs_id <$> wbsStructure))).
  exists (S bound).
  assert (Hreturns : ∃ out,
            ActivitiesPage.hierarchy localeCompare (S bound) activities wbsStructure
              (Some info) expandedNodes = Some out
            ∧ ∀ row i,
                row ∈ out →
                ActivitiesPage.type row = wbs →
                ActivitiesPage.wbs_id row = Some i →
                onCycle wbsStructure i →
                i = "unassigned").
  { unfold ActivitiesPage.hierarchy, ActivitiesPage.hierarchyWith.
    case_bool_decide as Hroot.
    - destruct (build_returns localeCompare wbsStructure info expandedNodes rank Hrank bound
                  (ActivitiesPage.activitiesByWBS activities) None 1)
        as (byWBS & tree & -> & Htree).
      { intros w Hw Hchild. split; [by apply reached_root|].
        unfold bound. apply Nat.lt_succ_r, max_list_elem_of_le.
        apply list_elem_of_fmap. by exists w. }
      eexists. split; [reflexivity|].
      intros row i Hrow Htype Hid Hcycle.
      apply elem_of_cons in Hrow as [->|Hrow]; [done|].
      apply elem_of_app in Hrow as [Hrow|Hrow].
      + exfalso. eapply (onCycle_not_reached wbsStructure info rank Hrank i Hcycle).
        rewrite Forall_forall in Htree. by apply (Htree row).
      + pose proof (unassignedRows_wbs _ _ _ Hrow Htype) as Hu. congruence.
    - eexists. split; [reflexivity|].
      intros row i ->%list_elem_of_singleton Htype. done. }
  destruct Hreturns as (out & Hout & Hrows).
  exists out. split; [exact Hout|]. split; [|exact Hrows].
  by eapply hierarchy_oncePerPath.
Qed.

Lemma isolatedCycle_reached (p : string) : reached isolatedCycle plant p → p = "R".
Proof.
  induction 1 as [w Hw Hroot|w p Hw Hp _ ->].
  - set_unfold. destruct Hw as [->|[->|[->|[]]]]; [done|done..].
  - set_unfold. destruct Hw as [->|[->|[->|[]]]]; done.
Qed.

(** The theorem at a phase next to two areas that name each other as parent. *)
Lemma termination_and_cycles_witness :
  ∃ fuel out,
    ActivitiesPage.hierarchy codeUnitCompare fuel [] isolatedCycle (Some plant)
      {["project-root"]} = Some out
    ∧ oncePerPath out
    ∧ ∀ row i,
        row ∈ out →
        ActivitiesPage.type row = wbs →
        ActivitiesPage.wbs_id row = Some i →
        onCycle isolatedCycle i →
        i = "unassigned".
Proof.
  apply (proj1 (termination_and_cycles codeUnitCompare [] isolatedCycle plant
                  {["project-root"]}) (λ _, 0%nat)).
  intros w p Hw Hp Hreached. apply isolatedCycle_reached in Hreached as ->.
  exfalso. set_unfold. destruct Hw as [->|[->|[->|[]]]]; done.
Defined.

(** C3 fails as stated.  Two WBS items name each other as parent and the
    second names the id of the project, so it is root-level: the builder does
    not return on them. *)
Lemma mutual_parents_diverge :
  ¬ terminates codeUnitCompare [] mutualParents (Some plant) {["project-root"]}.
Proof.
  assert (H2 : item "2" "Area B" (Some "1") 1 ∈ mutualParents) by (right; left).
  assert (H1 : item "1" "Area A" (Some "2") 1 ∈ mutualParents) by left.
  apply (hierarchy_diverges _ _ _ _ _ "2").
  - by apply (reached_root _ _ _ H2).
  - eapply descends_trans.
    + by apply (descends_child _ _ "1" H2).
    + by apply (descends_child _ _ "2" H1).
  - by apply elem_of_singleton.
Qed.

(** * Further properties of the three pages *)

(** ** Expand and collapse *)

Lemma elem_of_toggleIn (expanded : gset string) (nodeId other : string) :
  other ∈ toggleIn expanded nodeId
  ↔ (other = nodeId ∧ nodeId ∉ expanded) ∨ (other ≠ nodeId ∧ other ∈ expanded).
Proof.
  unfold toggleIn. destruct (decide (other = nodeId)) as [->|Hne];
    case_bool_decide as Hin;
    rewrite ?elem_of_difference, ?elem_of_union, !elem_of_singleton; tauto.
Qed.

(** X1.  A toggle changes the membership of the toggled id and of no other
    id, and a second toggle of the same id restores the set; this is
    [toggleNode] of the activities page and [toggleWBS] of the other two. *)
Theorem toggle_flips_one_id (expanded : gset string) (nodeId : string) :
  (nodeId ∈ ActivitiesPage.toggleNode expanded nodeId ↔ nodeId ∉ expanded)
  ∧ (∀ other, other ≠ nodeId →
       (other ∈ ActivitiesPage.toggleNode expanded nodeId ↔ other ∈ expanded))
  ∧ ActivitiesPage.toggleNode (ActivitiesPage.toggleNode expanded nodeId) nodeId = expanded
  ∧ EnhancedActivitiesPage.toggleWBS (EnhancedActivitiesPage.toggleWBS expanded nodeId) nodeId
    = expanded
  ∧ GanttChart.toggleWBS (GanttChart.toggleWBS expanded nodeId) nodeId = expanded.
Proof.
  assert (Htwice : toggleIn (toggleIn expanded nodeId) nodeId = expanded).
  { apply set_eq. intros other. rewrite !elem_of_toggleIn.
    destruct (decide (other = nodeId)) as [->|Hne];
      destruct (decide (nodeId ∈ expanded)); tauto. }
  unfold ActivitiesPage.toggleNode, EnhancedActivitiesPage.toggleWBS, GanttChart.toggleWBS.
  split; [rewrite elem_of_toggleIn; tauto|].
  split; [intros other Hne; rewrite elem_of_toggleIn; tauto|].
  repeat split; exact Htwice.
Qed.

Lemma replaceFirst_prefix (pattern s : string) :
  replaceFirst pattern "" (pattern +:+ s) = s.
Proof.
  assert (Hprefix : ∀ p t, String.prefix p (p +:+ t) = true).
  { induction p as [|c p IH]; intros t; simpl; [by destruct t|].
    destruct (Ascii.ascii_dec c c); [apply IH|done]. }
  assert (Hdrop : ∀ p t, dropString (String.length p) (p +:+ t) = t).
  { induction p as [|c p IH]; intros t; simpl; [done|apply IH]. }
  assert (Hunfold : ∀ t,
            replaceFirst pattern "" t
            = if String.prefix pattern t
              then "" +:+ dropString (String.length pattern) t
              else match t with
                   | EmptyString => EmptyString
                   | String c t' => String c (replaceFirst pattern "" t')
                   end) by (by destruct t).
  by rewrite Hunfold, Hprefix, Hdrop.
Qed.

Lemma toggled_flag (expanded : gset string) (nodeId : string) :
  bool_decide (nodeId ∈ toggleIn expanded nodeId) = negb (bool_decide (nodeId ∈ expanded)).
Proof.
  destruct (decide (nodeId ∈ expanded)) as [Hin|Hin].
  - rewrite (bool_decide_eq_true_2 _ Hin). apply bool_decide_eq_false_2.
    rewrite elem_of_toggleIn. tauto.
  - rewrite (bool_decide_eq_false_2 _ Hin). apply bool_decide_eq_true_2.
    rewrite elem_of_toggleIn. tauto.
Qed.

(** X2.  On the enhanced page a click on a WBS row toggles the id under which
    the builder looks the row up: the row is rebuilt with the opposite
    [isExpanded] when it has children, whatever its WBS id, and unchanged when
    it has none; a click on the project row flips the flag of the project
    row. *)
Theorem click_flips_the_row (activities : list Activity.t)
    (schedule : EnhancedActivitiesPage.Schedule)
    (projectSummary : EnhancedActivitiesPage.ProjectSummary)
    (expandedWBS : gset string) (lvl : nat) (w : WBSItem.t)
    (wbsActivities allDescendantActivities : list Activity.t) (hasChildWBS : bool) :
  let row :=
    EnhancedActivitiesPage.wbsNode expandedWBS lvl w wbsActivities hasChildWBS
      allDescendantActivities in
  let root := EnhancedActivitiesPage.projectNode activities expandedWBS schedule projectSummary in
  EnhancedActivitiesPage.isExpanded
    (EnhancedActivitiesPage.wbsNode (EnhancedActivitiesPage.clickRow expandedWBS row) lvl w
       wbsActivities hasChildWBS allDescendantActivities)
  = (if EnhancedActivitiesPage.hasChildren row
     then negb (EnhancedActivitiesPage.isExpanded row)
     else EnhancedActivitiesPage.isExpanded row)
  ∧ EnhancedActivitiesPage.isExpanded
      (EnhancedActivitiesPage.projectNode activities
         (EnhancedActivitiesPage.clickRow expandedWBS root) schedule projectSummary)
    = negb (EnhancedActivitiesPage.isExpanded root).
Proof.
  intros row root. split.
  - unfold EnhancedActivitiesPage.clickRow.
    change (EnhancedActivitiesPage.type row) with wbs. cbv iota.
    destruct (EnhancedActivitiesPage.hasChildren row); [|reflexivity].
    change (EnhancedActivitiesPage.id row) with ("wbs-" +:+ WBSItem.wbs_id w).
    rewrite replaceFirst_prefix. apply toggled_flag.
  - apply toggled_flag.
Qed.

(** X3.  On the activities page the button of a row calls [toggleNode] with
    the id under which the builder looks the row up: after the toggle the
    project row, a WBS row and the row of the unassigned bucket are each
    rebuilt with the opposite [expanded]. *)
Theorem toggle_button_flips_the_row (wbsStructure : list WBSItem.t)
    (info : ActivitiesPage.ProjectInfo) (expandedNodes : gset string)
    (parentWbsId : option string) (lvl : nat) (w : WBSItem.t)
    (directActivities unassignedActivities : list Activity.t)
    (stats : ActivitiesPage.Stats) :
  let root := ActivitiesPage.projectNode wbsStructure info expandedNodes in
  let row := ActivitiesPage.wbsNode expandedNodes parentWbsId lvl w directActivities stats in
  let bucket := ActivitiesPage.unassignedNode expandedNodes unassignedActivities in
  let flipped (r : ActivitiesPage.HierarchyNode) :=
    negb <$> ActivitiesPage.expanded r in
  ActivitiesPage.expanded
    (ActivitiesPage.projectNode wbsStructure info
       (ActivitiesPage.toggleNode expandedNodes (ActivitiesPage.toggleTarget root)))
  = flipped root
  ∧ ActivitiesPage.expanded
      (ActivitiesPage.wbsNode
         (ActivitiesPage.toggleNode expandedNodes (ActivitiesPage.toggleTarget row))
         parentWbsId lvl w directActivities stats)
    = flipped row
  ∧ ActivitiesPage.expanded
      (ActivitiesPage.unassignedNode
         (ActivitiesPage.toggleNode expandedNodes (ActivitiesPage.toggleTarget bucket))
         unassignedActivities)
    = flipped bucket.
Proof.
  intros root row bucket flipped. unfold flipped.
  repeat split; simpl; f_equal; apply toggled_flag.
Qed.

(** ** Rollups: minimum float and range of the dates *)

Lemma fold_min_spec (xs : list Z) (x : Z) :
  (fold_left Z.min xs x ≤ x ∧ ∀ y, y ∈ xs → fold_left Z.min xs x ≤ y)
  ∧ fold_left Z.min xs x ∈ x :: xs.
Proof.
  revert x. induction xs as [|y xs IH]; intros x; simpl.
  - split; [split; [lia|by intros y ?%elem_of_nil]|by left].
  - destruct (IH (Z.min x y)) as [[H1 H2] H3]. split; [split|].
    + lia.
    + intros z [->|Hz]%elem_of_cons; [lia|by apply H2].
    + apply elem_of_cons in H3 as [H3|H3]; [|by do 2 right].
      rewrite H3. destruct (Z.min_spec x y) as [[_ ->]|[_ ->]]; [by left|by right; left].
Qed.

Lemma fold_max_spec (xs : list Z) (x : Z) :
  (x ≤ fold_left Z.max xs x ∧ ∀ y, y ∈ xs → y ≤ fold_left Z.max xs x)
  ∧ fold_left Z.max xs x ∈ x :: xs.
Proof.
  revert x. induction xs as [|y xs IH]; intros x; simpl.
  - split; [split; [lia|by intros y ?%elem_of_nil]|by left].
  - destruct (IH (Z.max x y)) as [[H1 H2] H3]. split; [split|].
    + lia.
    + intros z [->|Hz]%elem_of_cons; [lia|by apply H2].
    + apply elem_of_cons in H3 as [H3|H3]; [|by do 2 right].
      rewrite H3. destruct (Z.max_spec x y) as [[_ ->]|[_ ->]]; [by right; left|by left].
Qed.

Lemma fold_Qmin_spec (xs : list Q) (x : Q) :
  ((fold_left Qmin xs x <= x)%Q ∧ ∀ y, y ∈ xs → (fold_left Qmin xs x <= y)%Q)
  ∧ fold_left Qmin xs x ∈ x :: xs.
Proof.
  revert x. induction xs as [|y xs IH]; intros x; simpl.
  - split; [split; [apply Qle_refl|by intros y ?%elem_of_nil]|by left].
  - destruct (IH (Qmin x y)) as [[H1 H2] H3]. split; [split|].
    + eapply Qle_trans; [exact H1|apply Q.le_min_l].
    + intros z [->|Hz]%elem_of_cons; [|by apply H2].
      eapply Qle_trans; [exact H1|apply Q.le_min_r].
    + apply elem_of_cons in H3 as [H3|H3]; [|by do 2 right].
      rewrite H3. unfold Qmin, GenericMinMax.gmin.
      destruct (x ?= y)%Q; [by left|by left|by right; left].
Qed.

Lemma minStart_spec (valid : list Activity.t) :
  match minStart valid with
  | None => valid = []
  | Some s =>
      (∀ a, a ∈ valid → s ≤ getTime (Activity.early_start_date a))
      ∧ ∃ a, a ∈ valid ∧ getTime (Activity.early_start_date a) = s
  end.
Proof.
  unfold minStart. destruct valid as [|a valid]; [done|]. cbn [List.map].
  destruct (fold_min_spec (List.map (λ a, getTime (Activity.early_start_date a)) valid)
              (getTime (Activity.early_start_date a))) as [[H1 H2] H3].
  unfold Math_min. split.
  - intros b [->|Hb]%elem_of_cons; [done|]. apply H2.
    apply list_elem_of_In.
    apply (in_map (λ a, getTime (Activity.early_start_date a))).
    by apply list_elem_of_In.
  - apply elem_of_cons in H3 as [H3|H3].
    + exists a. split; [by left|done].
    + apply list_elem_of_In, in_map_iff in H3 as (b & Hb & Hin).
      exists b. split; [right; by apply list_elem_of_In|done].
Qed.

Lemma maxEnd_spec (valid : list Activity.t) :
  match maxEnd valid with
  | None => valid = []
  | Some e =>
      (∀ a, a ∈ valid → getTime (Activity.early_end_date a) ≤ e)
      ∧ ∃ a, a ∈ valid ∧ getTime (Activity.early_end_date a) = e
  end.
Proof.
  unfold maxEnd. destruct valid as [|a valid]; [done|]. cbn [List.map].
  destruct (fold_max_spec (List.map (λ a, getTime (Activity.early_end_date a)) valid)
              (getTime (Activity.early_end_date a))) as [[H1 H2] H3].
  unfold Math_max. split.
  - intros b [->|Hb]%elem_of_cons; [done|]. apply H2.
    apply list_elem_of_In.
    apply (in_map (λ a, getTime (Activity.early_end_date a))).
    by apply list_elem_of_In.
  - apply elem_of_cons in H3 as [H3|H3].
    + exists a. split; [by left|done].
    + apply list_elem_of_In, in_map_iff in H3 as (b & Hb & Hin).
      exists b. split; [right; by apply list_elem_of_In|done].
Qed.

Lemma elem_of_validActivities (l : list Activity.t) (a : Activity.t) :
  a ∈ validActivities l
  ↔ a ∈ l ∧ ∃ s e, Activity.early_start_date a = Some s ∧ Activity.early_end_date a = Some e.
Proof.
  unfold validActivities. rewrite !list_elem_of_In, filter_In, andb_true_iff.
  unfold truthy. rewrite !bool_decide_eq_true. unfold is_Some.
  split; intros (Hin & H); (split; [exact Hin|]).
  - destruct H as [[s Hs] [e He]]. eauto.
  - destruct H as (s & e & Hs & He). eauto.
Qed.

Lemma validActivities_range (l : list Activity.t) :
  isDateRange l (minStart (validActivities l)) (maxEnd (validActivities l)).
Proof.
  pose proof (minStart_spec (validActivities l)) as Hmin.
  pose proof (maxEnd_spec (validActivities l)) as Hmax.
  split; [|split].
  - intros a s e Ha Hs He.
    assert (Hvalid : a ∈ validActivities l) by (apply elem_of_validActivities; eauto).
    destruct (minStart _) as [s0|]; [|by rewrite Hmin in Hvalid; apply elem_of_nil in Hvalid].
    destruct (maxEnd _) as [e0|]; [|by rewrite Hmax in Hvalid; apply elem_of_nil in Hvalid].
    exists s0, e0. repeat split.
    + destruct Hmin as [Hmin _]. specialize (Hmin a Hvalid). by rewrite Hs in Hmin.
    + destruct Hmax as [Hmax _]. specialize (Hmax a Hvalid). by rewrite He in Hmax.
  - intros s0 Hs0. rewrite Hs0 in Hmin. destruct Hmin as [_ (a & Ha & Heq)].
    apply elem_of_validActivities in Ha as (Ha & s & e & Hs & He).
    exists a. rewrite Hs in Heq. simpl in Heq. subst s. rewrite He. eauto.
  - intros e0 He0. rewrite He0 in Hmax. destruct Hmax as [_ (a & Ha & Heq)].
    apply elem_of_validActivities in Ha as (Ha & s & e & Hs & He).
    exists a. rewrite He in Heq. simpl in Heq. subst e. rewrite Hs. eauto.
Qed.

Lemma rollup_minFloat_is_minimum_aux (wbsId : string) (l : list Activity.t) :
  l ≠ [] →
  (∀ a, a ∈ l →
     (ActivitiesPage.minFloat (ActivitiesPage.calculateWBSStats wbsId l)
      <= Activity.total_float_days a)%Q)
  ∧ (∃ a, a ∈ l
          ∧ (ActivitiesPage.minFloat (ActivitiesPage.calculateWBSStats wbsId l)
             == Activity.total_float_days a)%Q).
Proof.
  intros Hne. destruct l as [|a l]; [done|].
  cbn [ActivitiesPage.calculateWBSStats ActivitiesPage.minFloat].
  destruct (fold_Qmin_spec (List.map (λ a, orZero (Activity.total_float_days a)) l)
              (orZero (Activity.total_float_days a))) as [[H1 H2] H3].
  unfold Math_minQ. split.
  - intros b [->|Hb]%elem_of_cons.
    + eapply Qle_trans; [exact H1|]. apply Qle_lteq. right. apply orZero_eq.
    + eapply Qle_trans; [|apply Qle_lteq; right; apply (orZero_eq (Activity.total_float_days b))].
      apply H2. apply list_elem_of_In.
      apply (in_map (λ a, orZero (Activity.total_float_days a))).
      by apply list_elem_of_In.
  - apply elem_of_cons in H3 as [H3|H3].
    + exists a. split; [by left|]. rewrite H3. apply orZero_eq.
    + apply list_elem_of_In, in_map_iff in H3 as (b & Hb & Hin).
      exists b. split; [right; by apply list_elem_of_In|].
      rewrite <- Hb. apply orZero_eq.
Qed.

(** X4.  The minimum float of a rollup over a list that is not empty is the
    total float of one of the activities and is not above the total float of
    any of them, on the activities page and on the enhanced page. *)
Theorem rollup_minFloat_is_minimum (wbsId : string) (l : list Activity.t) :
  l ≠ [] →
  let minFloat := ActivitiesPage.minFloat (ActivitiesPage.calculateWBSStats wbsId l) in
  (∀ a, a ∈ l → (minFloat <= Activity.total_float_days a)%Q)
  ∧ (∃ a, a ∈ l ∧ (minFloat == Activity.total_float_days a)%Q)
  ∧ EnhancedActivitiesPage.rollup_total_float_days
      (EnhancedActivitiesPage.calculateWBSRollups l) = minFloat.
Proof.
  intros Hne minFloat.
  destruct (rollup_minFloat_is_minimum_aux wbsId l Hne) as [Hle Hex].
  split; [exact Hle|]. split; [exact Hex|]. by destruct l.
Qed.

(** The theorem at two activities with floats 0. *)
Lemma rollup_minFloat_is_minimum_witness :
  ∃ a, a ∈ twoActivities
       ∧ (ActivitiesPage.minFloat (ActivitiesPage.calculateWBSStats "W1" twoActivities)
          == Activity.total_float_days a)%Q.
Proof.
  destruct (rollup_minFloat_is_minimum "W1" twoActivities ltac:(discriminate))
    as (_ & H & _).
  exact H.
Defined.

(** X5.  The start and end dates of a rollup are the earliest early start and
    the latest early end among the activities that have both dates: every
    such activity lies within the range, each end of the range is the date of
    one of them, and the range is null when there is none.  This holds for
    [calculateWBSStats], for [calculateWBSRollups] and for the dates of
    [calculateEnhancedProjectSummary]. *)
Theorem rollup_dates_are_the_range (wbsId : string) (l : list Activity.t) :
  isDateRange l
    (ActivitiesPage.startDate (ActivitiesPage.calculateWBSStats wbsId l))
    (ActivitiesPage.endDate (ActivitiesPage.calculateWBSStats wbsId l))
  ∧ isDateRange l
      (EnhancedActivitiesPage.rollup_early_start_date
         (EnhancedActivitiesPage.calculateWBSRollups l))
      (EnhancedActivitiesPage.rollup_early_end_date
         (EnhancedActivitiesPage.calculateWBSRollups l))
  ∧ isDateRange l
      (EnhancedActivitiesPage.project_start
         (EnhancedActivitiesPage.summary
            (EnhancedActivitiesPage.calculateEnhancedProjectSummary l)))
      (EnhancedActivitiesPage.project_finish
         (EnhancedActivitiesPage.summary
            (EnhancedActivitiesPage.calculateEnhancedProjectSummary l))).
Proof.
  pose proof (validActivities_range l) as H.
  destruct l as [|a l]; repeat split; try apply H; try done.
  all: try (intros ? ? ? ?%elem_of_nil; done).
Qed.

(** ** Project summary of the enhanced page *)

Lemma progress_class (a : Activity.t) :
  (0 <= Activity.progress_pct a)%Q →
  (Nat.b2n (EnhancedActivitiesPage.isCompleted a)
   + Nat.b2n (EnhancedActivitiesPage.isInProgress a)
   + Nat.b2n (EnhancedActivitiesPage.isNotStarted a) = 1)%nat.
Proof.
  intros Hp.
  unfold EnhancedActivitiesPage.isCompleted, EnhancedActivitiesPage.isInProgress,
    EnhancedActivitiesPage.isNotStarted, Qltb.
  pose proof (orZero_eq (Activity.progress_pct a)) as Hx.
  set (x := orZero (Activity.progress_pct a)) in *. clearbody x.
  assert (H100 : if Qle_bool 100 x then (100 <= x)%Q else (x < 100)%Q).
  { destruct (Qle_bool 100 x) eqn:E; [by apply Qle_bool_iff|].
    apply Qnot_le_lt. intros ?%Qle_bool_iff. congruence. }
  assert (H0 : if Qle_bool x 0 then (x <= 0)%Q else (0 < x)%Q).
  { destruct (Qle_bool x 0) eqn:E; [by apply Qle_bool_iff|].
    apply Qnot_le_lt. intros ?%Qle_bool_iff. congruence. }
  assert (Heq : if Qeq_bool x 0 then (x == 0)%Q else ¬ (x == 0)%Q).
  { destruct (Qeq_bool x 0) eqn:E; [by apply Qeq_bool_iff|by apply Qeq_bool_neq]. }
  destruct (Qle_bool 100 x), (Qle_bool x 0), (Qeq_bool x 0); simpl; try reflexivity;
    exfalso; lra.
Qed.

Lemma countIf_cons (keep : Activity.t → bool) (a : Activity.t) (l : list Activity.t) :
  EnhancedActivitiesPage.countIf keep (a :: l)
  = (Nat.b2n (keep a) + EnhancedActivitiesPage.countIf keep l)%nat.
Proof. unfold EnhancedActivitiesPage.countIf. simpl. by destruct (keep a). Qed.

(** X6.  When no activity has a negative progress, the project summary counts
    every activity in exactly one of the classes completed, in progress and
    not started: the three counters add up to the number of activities. *)
Theorem summary_classes_partition (activities : list Activity.t) :
  Forall (λ a, 0 <= Activity.progress_pct a)%Q activities →
  let counts := EnhancedActivitiesPage.calculateEnhancedProjectSummary activities in
  (EnhancedActivitiesPage.completed_activities counts
   + EnhancedActivitiesPage.in_progress_activities counts
   + EnhancedActivitiesPage.not_started_activities counts
   = EnhancedActivitiesPage.total_activities counts)%nat
  ∧ EnhancedActivitiesPage.total_activities counts = length activities.
Proof.
  intros Hall.
  assert (Hsum : (EnhancedActivitiesPage.countIf EnhancedActivitiesPage.isCompleted activities
                  + EnhancedActivitiesPage.countIf EnhancedActivitiesPage.isInProgress activities
                  + EnhancedActivitiesPage.countIf EnhancedActivitiesPage.isNotStarted activities
                  = length activities)%nat).
  { induction Hall as [|a l Ha _ IH]; [reflexivity|].
    rewrite !countIf_cons. pose proof (progress_class a Ha). simpl length. lia. }
  intros counts. unfold counts. destruct activities as [|a l]; [done|].
  cbn [EnhancedActivitiesPage.calculateEnhancedProjectSummary
         EnhancedActivitiesPage.completed_activities
         EnhancedActivitiesPage.in_progress_activities
         EnhancedActivitiesPage.not_started_activities
         EnhancedActivitiesPage.total_activities].
  split; [exact Hsum|reflexivity].
Qed.

(** The theorem at two activities with progress 100 and 0. *)
Lemma summary_classes_partition_witness :
  (EnhancedActivitiesPage.completed_activities
     (EnhancedActivitiesPage.calculateEnhancedProjectSummary twoActivities)
   + EnhancedActivitiesPage.in_progress_activities
       (EnhancedActivitiesPage.calculateEnhancedProjectSummary twoActivities)
   + EnhancedActivitiesPage.not_started_activities
       (EnhancedActivitiesPage.calculateEnhancedProjectSummary twoActivities)
   = 2)%nat.
Proof.
  apply (summary_classes_partition twoActivities).
  repeat constructor; simpl; discriminate.
Defined.


(** ** The store of activities by WBS id *)

Lemma groupByWBS_fold (key : Activity.t → string) (l : list Activity.t)
    (m : gmap string (list Activity.t)) (k : string) :
  default []
    (fold_left (λ m a, <[key a := default [] (m !! key a) ++ [a]]> m) l m !! k)
  = default [] (m !! k) ++ List.filter (λ a, bool_decide (key a = k)) l.
Proof.
  revert m. induction l as [|a l IH]; intros m; simpl; [by rewrite app_nil_r|].
  rewrite IH. case_bool_decide as Hk.
  - subst k. rewrite lookup_insert_eq. simpl. by rewrite <- app_assoc.
  - by rewrite lookup_insert_ne.
Qed.

(** X9.  The grouping loop files every activity under its key and nowhere
    else, in the order of the input: the array under a key holds exactly the
    activities with that key.  On the activities page the key is the WBS id,
    or ['unassigned'] when the WBS id is empty, so no array is filed under the
    empty key; on the other two pages the key is the WBS id as it is. *)
Theorem activitiesByWBS_lookup (activities : list Activity.t) (k : string) :
  default [] (ActivitiesPage.activitiesByWBS activities !! k)
    = List.filter (λ a, bool_decide (bucketKey a = k)) activities
  ∧ ActivitiesPage.activitiesByWBS activities !! "" = None
  ∧ default [] (EnhancedActivitiesPage.activitiesByWBS activities !! k)
    = List.filter (λ a, bool_decide (Activity.wbs_id a = k)) activities
  ∧ default [] (GanttChart.activitiesByWBS activities !! k)
    = List.filter (λ a, bool_decide (Activity.wbs_id a = k)) activities.
Proof.
  unfold ActivitiesPage.activitiesByWBS, EnhancedActivitiesPage.activitiesByWBS,
    GanttChart.activitiesByWBS, groupByWBS.
  repeat split; try (by rewrite groupByWBS_fold, lookup_empty).
  assert (Hnone : ∀ (l : list Activity.t) (m : gmap string (list Activity.t)),
            m !! "" = None →
            fold_left (λ m a, <[bucketKey a := default [] (m !! bucketKey a) ++ [a]]> m) l m
              !! "" = None).
  { induction l as [|a l IH]; intros m Hm; simpl; [done|].
    apply IH. rewrite lookup_insert_ne; [done|].
    unfold bucketKey, orString. by case_decide. }
  by apply Hnone.
Qed.

Lemma forEachM_preserves {St A B} (R : St → St → Prop) `{!Reflexive R, !Transitive R}
    (body : St → A → option (St * list B)) (l : list A) :
  (∀ s x s' out, x ∈ l → body s x = Some (s', out) → R s s') →
  ∀ s s' out, forEachM body s l = Some (s', out) → R s s'.
Proof.
  induction l as [|x l IH]; intros Hbody s s' out; simpl.
  - by intros [= <- _].
  - destruct (body s x) as [[s1 out1]|] eqn:E; [|done].
    destruct (forEachM body s1 l) as [[s2 out2]|] eqn:E'; [|done].
    intros [= <- _]. etrans.
    + eapply Hbody; [by left|exact E].
    + eapply IH; [|exact E']. intros ? ? ? ? Hin. apply Hbody. by right.
Qed.

(** Every element of a loop that returned was run, from a store related to
    the first, and what it pushed is part of the output. *)
Lemma forEachM_ran {St A B} (R : St → St → Prop) `{!Reflexive R, !Transitive R}
    (body : St → A → option (St * list B)) (l : list A) :
  (∀ s x s' out, x ∈ l → body s x = Some (s', out) → R s s') →
  ∀ s s' out x,
    forEachM body s l = Some (s', out) → x ∈ l →
    ∃ s0 s1 out1, R s s0 ∧ body s0 x = Some (s1, out1) ∧ ∀ r, r ∈ out1 → r ∈ out.
Proof.
  induction l as [|y l IH]; intros Hbody s s' out x; simpl; [by intros _ ?%elem_of_nil|].
  destruct (body s y) as [[s1 out1]|] eqn:E; [|done].
  destruct (forEachM body s1 l) as [[s2 out2]|] eqn:E'; [|done].
  intros [= <- <-] [->|Hx]%elem_of_cons.
  - exists s, s1, out1. split; [done|]. split; [done|].
    intros r Hr. apply elem_of_app. by left.
  - destruct (IH (λ s x s' out Hin, Hbody s x s' out (list_elem_of_further _ _ _ Hin))
                s1 s2 out2 x E' Hx) as (s0 & s1' & o & HR & Hrun & Hsub).
    exists s0, s1', o. split; [|split; [done|]].
    + etrans; [|exact HR]. eapply Hbody; [by left|exact E].
    + intros r Hr. apply elem_of_app. right. by apply Hsub.
Qed.

(** Every element of the output of a loop was pushed by one of its runs. *)
Lemma forEachM_pushed {St A B} (R : St → St → Prop) `{!Reflexive R, !Transitive R}
    (body : St → A → option (St * list B)) (l : list A) :
  (∀ s x s' out, x ∈ l → body s x = Some (s', out) → R s s') →
  ∀ s s' out r,
    forEachM body s l = Some (s', out) → r ∈ out →
    ∃ x s0 s1 out1, x ∈ l ∧ R s s0 ∧ body s0 x = Some (s1, out1) ∧ r ∈ out1.
Proof.
  induction l as [|y l IH]; intros Hbody s s' out r; simpl.
  { by intros [= _ <-] ?%elem_of_nil. }
  destruct (body s y) as [[s1 out1]|] eqn:E; [|done].
  destruct (forEachM body s1 l) as [[s2 out2]|] eqn:E'; [|done].
  intros [= <- <-] [Hr|Hr]%elem_of_app.
  - exists y, s, s1, out1. split; [by left|]. done.
  - destruct (IH (λ s x s' out Hin, Hbody s x s' out (list_elem_of_further _ _ _ Hin))
                s1 s2 out2 r E' Hr) as (x & s0 & s1' & o & Hx & HR & Hrun & Hin).
    exists x, s0, s1', o. split; [by right|]. split; [|done].
    etrans; [|exact HR]. eapply Hbody; [by left|exact E].
Qed.

#[local] Instance sameBuckets_refl : Reflexive sameBuckets.
Proof. by intros m k. Qed.

#[local] Instance sameBuckets_trans : Transitive sameBuckets.
Proof. intros m1 m2 m3 H12 H23 k. by rewrite (H23 k). Qed.

Lemma sameBuckets_sorted (cmp : Activity.t → Activity.t → Z)
    (m : gmap string (list Activity.t)) (k : string) :
  sameBuckets m (<[k := sortBy cmp (default [] (m !! k))]> m).
Proof.
  intros j. destruct (decide (k = j)) as [->|Hne].
  - rewrite lookup_insert_eq. simpl. apply sortBy_perm.
  - by rewrite lookup_insert_ne.
Qed.

(** ** Activities page: which activities are listed *)

Section Rows.
Variable localeCompare : string → string → Z.
Variable activities : list Activity.t.
Variable wbsStructure : list WBSItem.t.
Variable info : ActivitiesPage.ProjectInfo.
Variable expandedNodes : gset string.

Local Abbreviation build :=
  (ActivitiesPage.buildWBSTree localeCompare wbsStructure info expandedNodes).
Local Abbreviation row := (ActivitiesPage.activityNode).
Local Abbreviation called :=
  (loopedOver localeCompare wbsStructure info expandedNodes).

Lemma build_sameBuckets (fuel : nat) (m : gmap string (list Activity.t))
    (parent : option string) (lvl : nat) (m' : gmap string (list Activity.t))
    (out : list ActivitiesPage.HierarchyNode) :
  build fuel m parent lvl = Some (m', out) → sameBuckets m m'.
Proof.
  revert m parent lvl m' out. induction fuel as [|fuel IH]; intros m parent lvl m' out; [done|].
  cbn [ActivitiesPage.buildWBSTree]. apply forEachM_preserves; [apply _..|].
  intros s w s' o _ Hbody.
  destruct (ActivitiesPage.getAllDescendantActivities _ _ _ _) as [all|]; [|done].
  destruct (ActivitiesPage.buildWBSTree _ _ _ _ _ _ _ _) as [[m2 sub]|] eqn:E; [|done].
  injection Hbody as <- _. apply IH in E. etrans; [|exact E].
  destruct (_ && _); [apply sameBuckets_sorted|reflexivity].
Qed.

(** What one iteration of the loop of [buildWBSTree] does, for an item [w]
    and the store [s] it starts from. *)
Lemma build_iteration (fuel : nat) (parent : option string) (lvl : nat)
    (s s' : gmap string (list Activity.t)) (w : WBSItem.t)
    (out : list ActivitiesPage.HierarchyNode) :
  match ActivitiesPage.getAllDescendantActivities wbsStructure fuel s (WBSItem.wbs_id w) with
  | None => None
  | Some allDescendantActivities =>
      let directActivities := default [] (s !! WBSItem.wbs_id w) in
      let stats :=
        ActivitiesPage.calculateWBSStats (WBSItem.wbs_id w) allDescendantActivities in
      let node :=
        ActivitiesPage.wbsNode expandedNodes parent lvl w directActivities stats in
      let sorted := sortBy (ActivitiesPage.compareActivities localeCompare) directActivities in
      let shown :=
        bool_decide (WBSItem.wbs_id w ∈ expandedNodes)
        && (0 <? Z.of_nat (length directActivities)) in
      let byWBS1 := if shown then <[WBSItem.wbs_id w := sorted]> s else s in
      let rows :=
        if shown then List.map (row (lvl + 1)%nat (WBSItem.wbs_id w)) sorted else [] in
      match build fuel byWBS1 (Some (WBSItem.wbs_id w)) (lvl + 1)%nat with
      | None => None
      | Some (byWBS2, sub) => Some (byWBS2, node :: rows ++ sub)
      end
  end = Some (s', out) →
  ∃ s1 sub node,
    ActivitiesPage.type node = wbs
    ∧ sameBuckets s s1
    ∧ build fuel s1 (Some (WBSItem.wbs_id w)) (lvl + 1)%nat = Some (s', sub)
    ∧ out = node
            :: (if bool_decide (WBSItem.wbs_id w ∈ expandedNodes)
                then List.map (row (lvl + 1)%nat (WBSItem.wbs_id w))
                       (sortBy (ActivitiesPage.compareActivities localeCompare)
                          (default [] (s !! WBSItem.wbs_id w)))
                else [])
            ++ sub.
Proof.
  destruct (ActivitiesPage.getAllDescendantActivities _ _ _ _) as [all|]; [|done].
  cbv zeta.
  destruct (ActivitiesPage.buildWBSTree _ _ _ _ _ _ _ _) as [[m2 sub]|] eqn:E; [|done].
  intros [= <- <-].
  eexists _, sub,
    (ActivitiesPage.wbsNode expandedNodes parent lvl w (default [] (s !! WBSItem.wbs_id w))
       (ActivitiesPage.calculateWBSStats (WBSItem.wbs_id w) all)).
  split; [reflexivity|]. split; [|split; [exact E|]].
  - destruct (_ && _); [apply sameBuckets_sorted|reflexivity].
  - f_equal. f_equal.
    destruct (bool_decide (WBSItem.wbs_id w ∈ expandedNodes)); [|done].
    destruct (default [] (s !! WBSItem.wbs_id w)) as [|a l]; done.
Qed.

Lemma build_loop_preserves (fuel : nat) (parent : option string) (lvl : nat)
    (s s' : gmap string (list Activity.t)) (w : WBSItem.t)
    (out : list ActivitiesPage.HierarchyNode) :
  match ActivitiesPage.getAllDescendantActivities wbsStructure fuel s (WBSItem.wbs_id w) with
  | None => None
  | Some allDescendantActivities =>
      let directActivities := default [] (s !! WBSItem.wbs_id w) in
      let stats :=
        ActivitiesPage.calculateWBSStats (WBSItem.wbs_id w) allDescendantActivities in
      let node :=
        ActivitiesPage.wbsNode expandedNodes parent lvl w directActivities stats in
      let sorted := sortBy (ActivitiesPage.compareActivities localeCompare) directActivities in
      let shown :=
        bool_decide (WBSItem.wbs_id w ∈ expandedNodes)
        && (0 <? Z.of_nat (length directActivities)) in
      let byWBS1 := if shown then <[WBSItem.wbs_id w := sorted]> s else s in
      let rows :=
        if shown then List.map (row (lvl + 1)%nat (WBSItem.wbs_id w)) sorted else [] in
      match build fuel byWBS1 (Some (WBSItem.wbs_id w)) (lvl + 1)%nat with
      | None => None
      | Some (byWBS2, sub) => Some (byWBS2, node :: rows ++ sub)
      end
  end = Some (s', out) →
  sameBuckets s s'.
Proof.
  intros (s1 & sub & node & _ & H1 & H2%build_sameBuckets & _)%build_iteration.
  by etrans.
Qed.

(** An activity row of the output shows an activity of the store, one level
    below a visited item under whose id it is stored, and that id is
    expanded. *)
Lemma build_rows_from_store (fuel : nat) (m : gmap string (list Activity.t))
    (parent : option string) (lvl : nat) (m' : gmap string (list Activity.t))
    (out : list ActivitiesPage.HierarchyNode) (r : ActivitiesPage.HierarchyNode) :
  (∀ w, w ∈ wbsStructure → ActivitiesPage.isChildOf info parent w = true →
        visitedAt wbsStructure info lvl (WBSItem.wbs_id w)) →
  build fuel m parent lvl = Some (m', out) →
  r ∈ out → ActivitiesPage.type r = activity →
  ∃ a k lvl',
    r = row (lvl' + 1)%nat k a ∧ a ∈ default [] (m !! k) ∧ k ∈ expandedNodes
    ∧ visitedAt wbsStructure info lvl' k.
Proof.
  revert m parent lvl m' out. induction fuel as [|fuel IH]; intros m parent lvl m' out; [done|].
  cbn [ActivitiesPage.buildWBSTree]. intros Hvisited Hloop Hr Htype.
  eapply (forEachM_pushed sameBuckets) in Hloop
    as (w & s0 & s1 & o & [Hw Hchild]%elem_of_sorted_filter & Hs0 & Hrun & Hin);
    [|intros ? ? ? ? _; apply build_loop_preserves|exact Hr].
  apply build_iteration in Hrun as (s2 & sub & node & Hnode & Hs2 & Hsub & ->).
  apply elem_of_cons in Hin as [->|Hin]; [congruence|].
  apply elem_of_app in Hin as [Hin|Hin].
  - case_bool_decide as Hexp; [|by apply elem_of_nil in Hin].
    apply list_elem_of_In, in_map_iff in Hin as (a & <- & Ha%list_elem_of_In).
    exists a, (WBSItem.wbs_id w), lvl. split; [done|].
    split; [|split; [done|by apply Hvisited]].
    rewrite sortBy_perm in Ha. by rewrite <- (Hs0 (WBSItem.wbs_id w)).
  - assert (Hbelow : ∀ c, c ∈ wbsStructure →
              ActivitiesPage.isChildOf info (Some (WBSItem.wbs_id w)) c = true →
              visitedAt wbsStructure info (lvl + 1) (WBSItem.wbs_id c)).
    { intros c Hc Hparent. simpl in Hparent. apply bool_decide_eq_true in Hparent.
      eapply visitedAt_child; [exact Hc|exact Hparent|by apply Hvisited]. }
    destruct (IH _ _ _ _ _ Hbelow Hsub Hin Htype) as (a & k & lvl' & -> & Ha & Hk & Hv).
    exists a, k, lvl'. split; [done|]. split; [|done].
    rewrite <- (Hs0 k), <- (Hs2 k). exact Ha.
Qed.

Lemma visited_called (fuel : nat) (m0 m' : gmap string (list Activity.t))
    (out : list ActivitiesPage.HierarchyNode) (lvl : nat) (i : string) :
  build fuel m0 None 1 = Some (m', out) →
  visitedAt wbsStructure info lvl i → called m0 out lvl i.
Proof.
  intros Htop. induction 1 as [w Hw Hroot|w p lvl Hw Hp _ IH].
  - destruct fuel as [|fuel]; [done|].
    exists fuel, m0, None, m', out, w. by repeat split.
  - destruct IH as (fuel1 & m1 & parent & m1' & sub & wp & Hcall & Hm1 & Hsub & Hwp & Hchild & <-).
    cbn [ActivitiesPage.buildWBSTree] in Hcall.
    eapply (forEachM_ran sameBuckets) in Hcall as (s0 & s1 & o & Hs0 & Hrun & Ho);
      [|intros ? ? ? ? _; apply build_loop_preserves|by apply elem_of_sorted_filter].
    apply build_iteration in Hrun as (s2 & sub2 & node & _ & Hs2 & Hsub2 & ->).
    destruct fuel1 as [|fuel1]; [done|].
    exists fuel1, s2, (Some (WBSItem.wbs_id wp)), s1, sub2, w.
    split; [exact Hsub2|]. split; [by etrans; [|etrans]|]. split.
    { intros r Hr. apply Hsub, Ho. right. apply elem_of_app. by right. }
    split; [done|]. split; [|done]. simpl. by apply bool_decide_eq_true.
Qed.

Lemma called_rows (m0 : gmap string (list Activity.t))
    (out : list ActivitiesPage.HierarchyNode) (lvl : nat) (i : string) (a : Activity.t) :
  called m0 out lvl i → i ∈ expandedNodes → a ∈ default [] (m0 !! i) →
  row (lvl + 1)%nat i a ∈ out.
Proof.
  intros (fuel & m1 & parent & m1' & sub & w & Hcall & Hm1 & Hsub & Hw & Hchild & <-) Hexp Ha.
  cbn [ActivitiesPage.buildWBSTree] in Hcall.
  eapply (forEachM_ran sameBuckets) in Hcall as (s0 & s1 & o & Hs0 & Hrun & Ho);
    [|intros ? ? ? ? _; apply build_loop_preserves|by apply elem_of_sorted_filter].
  apply build_iteration in Hrun as (s2 & sub2 & node & _ & Hs2 & Hsub2 & ->).
  apply Hsub, Ho. right. apply elem_of_app. left.
  rewrite bool_decide_eq_true_2 by done.
  apply list_elem_of_In, in_map, list_elem_of_In.
  rewrite sortBy_perm, (Hs0 _), (Hm1 _). exact Ha.
Qed.

End Rows.

Lemma activitiesByWBS_elem (activities : list Activity.t) (k : string) (a : Activity.t) :
  a ∈ default [] (ActivitiesPage.activitiesByWBS activities !! k)
  ↔ a ∈ activities ∧ bucketKey a = k.
Proof.
  unfold ActivitiesPage.activitiesByWBS, groupByWBS.
  rewrite groupByWBS_fold, lookup_empty. simpl.
  rewrite !list_elem_of_In, filter_In. by rewrite bool_decide_eq_true.
Qed.

(** X10.  The activities page lists no activity it was not given and none in
    the wrong place.  Every activity row of the output shows an activity of
    the input under the key of that activity (its WBS id, or ['unassigned']
    when that is empty); the key and the project root are expanded; and the
    row stands one level below a WBS item that has the key as id and that the
    builder visits, or at level 2 in the unassigned bucket. *)
Theorem activity_rows_are_input_activities (localeCompare : string → string → Z) (fuel : nat)
    (activities : list Activity.t) (wbsStructure : list WBSItem.t)
    (info : ActivitiesPage.ProjectInfo) (expandedNodes : gset string)
    (out : list ActivitiesPage.HierarchyNode) (r : ActivitiesPage.HierarchyNode) :
  ActivitiesPage.hierarchy localeCompare fuel activities wbsStructure (Some info) expandedNodes
    = Some out →
  r ∈ out →
  ActivitiesPage.type r = activity →
  ∃ a lvl,
    a ∈ activities
    ∧ r = ActivitiesPage.activityNode (lvl + 1) (bucketKey a) a
    ∧ bucketKey a ∈ expandedNodes
    ∧ "project-root" ∈ expandedNodes
    ∧ (visitedAt wbsStructure info lvl (bucketKey a)
       ∨ (bucketKey a = "unassigned" ∧ lvl = 1%nat)).
Proof.
  unfold ActivitiesPage.hierarchy, ActivitiesPage.hierarchyWith.
  case_bool_decide as Hroot.
  - destruct (ActivitiesPage.buildWBSTree _ _ _ _ _ _ _ _) as [[byWBS tree]|] eqn:E; [|done].
    intros [= <-] Hr Htype.
    apply elem_of_cons in Hr as [->|Hr]; [done|].
    apply elem_of_app in Hr as [Hr|Hr].
    + destruct (build_rows_from_store _ _ _ _ _ _ _ _ _ _ _
                  (visitedAt_root wbsStructure info) E Hr Htype)
        as (a & k & lvl & -> & [Ha <-]%activitiesByWBS_elem & Hk & Hv).
      exists a, lvl. split; [done|]. split; [done|]. split; [done|]. split; [done|by left].
    + unfold ActivitiesPage.unassignedRows in Hr.
      destruct (0 <? _); [|by apply elem_of_nil in Hr].
      apply elem_of_cons in Hr as [->|Hr]; [done|].
      case_bool_decide as Hexp; [|by apply elem_of_nil in Hr].
      apply list_elem_of_In, in_map_iff in Hr as (a & <- & Ha%list_elem_of_In).
      rewrite (build_sameBuckets _ _ _ _ _ _ _ _ _ _ E "unassigned") in Ha.
      apply activitiesByWBS_elem in Ha as [Ha Hkey].
      exists a, 1%nat. rewrite Hkey.
      split; [done|]. split; [done|]. split; [done|]. split; [done|by right].
  - intros [= <-] ->%list_elem_of_singleton. done.
Qed.

(** The theorem at the activity without WBS id of [strayActivities]. *)
Lemma activity_rows_are_input_activities_witness :
  ∃ a lvl,
    a ∈ strayActivities
    ∧ ActivitiesPage.activityNode 2 "unassigned" (act "T2" "" 5 0 (Some jan01) (Some jan10))
      = ActivitiesPage.activityNode (lvl + 1) (bucketKey a) a
    ∧ bucketKey a ∈ ({["project-root"; "unassigned"; "W1"]} : gset string)
    ∧ "project-root" ∈ ({["project-root"; "unassigned"; "W1"]} : gset string)
    ∧ (visitedAt onePhase plant lvl (bucketKey a)
       ∨ (bucketKey a = "unassigned" ∧ lvl = 1%nat)).
Proof.
  eapply (activity_rows_are_input_activities codeUnitCompare 5 strayActivities onePhase plant).
  - vm_compute. reflexivity.
  - do 3 right. left.
  - reflexivity.
Defined.

(** X11.  With the project root expanded, the activities page drops no
    activity whose key is the id of a WBS item that the builder visits and
    that is expanded: the activity is listed one level below that item.  An
    activity whose key is ['unassigned'] is listed at level 2 under the
    unassigned bucket when ['unassigned'] is expanded. *)
Theorem expanded_activities_are_listed (localeCompare : string → string → Z) (fuel : nat)
    (activities : list Activity.t) (wbsStructure : list WBSItem.t)
    (info : ActivitiesPage.ProjectInfo) (expandedNodes : gset string)
    (out : list ActivitiesPage.HierarchyNode) (a : Activity.t) :
  ActivitiesPage.hierarchy localeCompare fuel activities wbsStructure (Some info) expandedNodes
    = Some out →
  "project-root" ∈ expandedNodes →
  a ∈ activities →
  bucketKey a ∈ expandedNodes →
  (∀ lvl, visitedAt wbsStructure info lvl (bucketKey a) →
          ActivitiesPage.activityNode (lvl + 1) (bucketKey a) a ∈ out)
  ∧ (bucketKey a = "unassigned" → ActivitiesPage.activityNode 2 "unassigned" a ∈ out).
Proof.
  unfold ActivitiesPage.hierarchy, ActivitiesPage.hierarchyWith.
  intros Hout Hroot Ha Hexp. rewrite bool_decide_eq_true_2 in Hout by done.
  destruct (ActivitiesPage.buildWBSTree _ _ _ _ _ _ _ _) as [[byWBS tree]|] eqn:E; [|done].
  injection Hout as <-.
  assert (Hstored : a ∈ default [] (ActivitiesPage.activitiesByWBS activities !! bucketKey a))
    by (by apply activitiesByWBS_elem).
  split.
  - intros lvl Hvisited. right. apply elem_of_app. left.
    eapply called_rows; [|exact Hexp|exact Hstored].
    eapply visited_called; [exact E|exact Hvisited].
  - intros Hkey. right. apply elem_of_app. right.
    rewrite Hkey in Hstored, Hexp.
    rewrite <- (build_sameBuckets _ _ _ _ _ _ _ _ _ _ E "unassigned") in Hstored.
    unfold ActivitiesPage.unassignedRows.
    destruct (default [] (byWBS !! "unassigned")) as [|b l] eqn:Hl;
      [by apply elem_of_nil in Hstored|].
    replace (0 <? Z.of_nat (length (b :: l))) with true
      by (symmetry; apply Z.ltb_lt; simpl length; lia).
    right. rewrite bool_decide_eq_true_2 by done.
    apply list_elem_of_In, in_map, list_elem_of_In. exact Hstored.
Qed.

(** The theorem at the activity of the phase W1, with W1 expanded. *)
Lemma expanded_activities_are_listed_witness :
  ∃ out,
    ActivitiesPage.hierarchy codeUnitCompare 5 [act "T1" "W1" 10 50 (Some jan01) (Some jan10)]
      onePhase (Some plant) {["project-root"; "W1"]} = Some out
    ∧ ActivitiesPage.activityNode 2 "W1" (act "T1" "W1" 10 50 (Some jan01) (Some jan10)) ∈ out.
Proof.
  assert (∃ out,
             ActivitiesPage.hierarchy codeUnitCompare 5
               [act "T1" "W1" 10 50 (Some jan01) (Some jan10)]
               onePhase (Some plant) {["project-root"; "W1"]} = Some out)
    as [out Hout] by (vm_compute; eauto).
  exists out. split; [exact Hout|].
  refine (proj1 (expanded_activities_are_listed codeUnitCompare 5 _ onePhase plant _ out
                   (act "T1" "W1" 10 50 (Some jan01) (Some jan10)) Hout _ _ _) 1%nat _).
  - apply elem_of_union. left. by apply elem_of_singleton.
  - by left.
  - apply elem_of_union. right. by apply elem_of_singleton.
  - apply (visitedAt_root onePhase plant (item "W1" "Phase A" None 0)); [by left|reflexivity].
Defined.

(** ** The timeline of the Gantt chart *)

Lemma num_div_pos (a b : Q) :
  (0 < b)%Q → ∃ q, num_div (Fin a) (Fin b) = Fin q ∧ (q * b == a)%Q.
Proof.
  intros Hb. unfold num_div. cbn [num_isZero num_val num_neg].
  assert (Hbz : Qeq_bool b 0 = false).
  { destruct (Qeq_bool b 0) eqn:E; [|done]. apply Qeq_bool_iff in E. lra. }
  assert (Hbn : Qltb b 0 = false).
  { unfold Qltb. replace (Qle_bool 0 b) with true; [done|].
    symmetry. apply Qle_bool_iff. lra. }
  rewrite Hbz, Hbn. destruct (Qeq_bool a 0) eqn:Ea.
  - apply Qeq_bool_iff in Ea. exists 0%Q. split; [|lra].
    unfold Qltb. replace (Qle_bool 0 a) with true; [done|].
    symmetry. apply Qle_bool_iff. lra.
  - exists (a / b)%Q. split; [done|]. field. lra.
Qed.

Lemma num_mul_pos (a c : Q) :
  (0 < c)%Q → ∃ q, num_mul (Fin a) (Fin c) = Fin q ∧ (q == a * c)%Q.
Proof.
  intros Hc. unfold num_mul. cbn [num_isZero num_val num_neg].
  assert (Hcz : Qeq_bool c 0 = false).
  { destruct (Qeq_bool c 0) eqn:E; [|done]. apply Qeq_bool_iff in E. lra. }
  assert (Hcn : Qltb c 0 = false).
  { unfold Qltb. replace (Qle_bool 0 c) with true; [done|].
    symmetry. apply Qle_bool_iff. lra. }
  rewrite Hcz, Hcn, orb_false_r. destruct (Qeq_bool a 0) eqn:Ea.
  - apply Qeq_bool_iff in Ea. exists 0%Q. split; [|rewrite Ea; lra].
    unfold Qltb. replace (Qle_bool 0 a) with true; [done|].
    symmetry. apply Qle_bool_iff. lra.
  - exists (a * c)%Q. split; [done|reflexivity].
Qed.

Lemma Qceiling_days (x : Z) :
  Qceiling (inject_Z x / inject_Z GanttChart.msPerDay) = - ((- x) / GanttChart.msPerDay).
Proof.
  unfold Qceiling, Qfloor, Qdiv, Qmult, Qinv, Qopp, inject_Z, GanttChart.msPerDay.
  simpl. f_equal. f_equal. lia.
Qed.

Lemma inject_Z_days_pos : (0 < inject_Z GanttChart.msPerDay)%Q.
Proof. reflexivity. Qed.

(** The number of days of a timeline whose project start is not after its
    project end: a whole number of at least 60, the span rounded up. *)
Lemma projectTimeline_days (activities : list Activity.t) (timeline : GanttChart.Timeline) :
  GanttChart.projectTimeline activities = Some timeline →
  GanttChart.projectStart timeline ≤ GanttChart.projectEnd timeline →
  ∃ d,
    GanttChart.totalDays timeline = Fin (inject_Z d)
    ∧ 60 ≤ d
    ∧ (d - 1) * GanttChart.msPerDay
      < GanttChart.end_ timeline - GanttChart.start timeline
      ≤ d * GanttChart.msPerDay
    ∧ GanttChart.start timeline
      = GanttChart.projectStart timeline - 30 * GanttChart.msPerDay
    ∧ GanttChart.end_ timeline
      = GanttChart.projectEnd timeline + 30 * GanttChart.msPerDay.
Proof.
  unfold GanttChart.projectTimeline. case_bool_decide; [done|].
  destruct (minStart _) as [ps|]; [|done]. destruct (maxEnd _) as [pe|]; [|done].
  intros [= <-]. cbn [GanttChart.totalDays GanttChart.start GanttChart.end_
                      GanttChart.projectStart GanttChart.projectEnd].
  intros Hle.
  set (span := pe + 30 * 24 * 60 * 60 * 1000 - (ps - 30 * 24 * 60 * 60 * 1000)).
  assert (Hspan : 60 * GanttChart.msPerDay ≤ span)
    by (unfold span, GanttChart.msPerDay; lia).
  replace (Qeq_bool (inject_Z span) 0) with false.
  2:{ symmetry. destruct (Qeq_bool (inject_Z span) 0) eqn:E; [|done].
      apply Qeq_bool_iff in E. unfold Qeq in E. simpl in E.
      unfold GanttChart.msPerDay in Hspan. lia. }
  unfold num_ceil. rewrite Qceiling_days.
  set (d := - (- span / GanttChart.msPerDay)).
  assert (Hd : (d - 1) * GanttChart.msPerDay < span ≤ d * GanttChart.msPerDay).
  { unfold d. clearbody span. clear d.
    change GanttChart.msPerDay with 86400000 in *.
    pose proof (Z.div_mod (- span) 86400000 ltac:(lia)) as H1.
    pose proof (Z.mod_pos_bound (- span) 86400000 ltac:(lia)) as H2.
    set (q := (- span) `div` 86400000) in *. set (r := (- span) `mod` 86400000) in *.
    clearbody q r. lia. }
  assert (Hd60 : 60 ≤ d).
  { clearbody d span. change GanttChart.msPerDay with 86400000 in *. lia. }
  exists d. split.
  - replace (bool_decide (d = 0)) with false; [done|].
    symmetry. apply bool_decide_eq_false. lia.
  - split; [exact Hd60|]. split; [exact Hd|]. unfold GanttChart.msPerDay. lia.
Qed.

Lemma projectTimeline_range (activities : list Activity.t) (timeline : GanttChart.Timeline) :
  GanttChart.projectTimeline activities = Some timeline →
  isDateRange activities (Some (GanttChart.projectStart timeline))
                         (Some (GanttChart.projectEnd timeline)).
Proof.
  unfold GanttChart.projectTimeline. case_bool_decide; [done|].
  pose proof (validActivities_range activities) as Hrange.
  destruct (minStart _) as [ps|]; [|done]. destruct (maxEnd _) as [pe|]; [|done].
  intros [= <-]. exact Hrange.
Qed.

(** X12.  The timeline of the Gantt chart exists exactly when some activity
    has both early dates.  Its project start and end are then the earliest
    early start and the latest early end among those activities, every such
    activity lies between them, and the window extends thirty days of
    86400000 ms on each side. *)
Theorem timeline_is_the_padded_range (activities : list Activity.t) :
  match GanttChart.projectTimeline activities with
  | None => validActivities activities = []
  | Some timeline =>
      isDateRange activities (Some (GanttChart.projectStart timeline))
                             (Some (GanttChart.projectEnd timeline))
      ∧ GanttChart.start timeline
        = GanttChart.projectStart timeline - 30 * GanttChart.msPerDay
      ∧ GanttChart.end_ timeline
        = GanttChart.projectEnd timeline + 30 * GanttChart.msPerDay
  end.
Proof.
  destruct (GanttChart.projectTimeline activities) as [timeline|] eqn:E.
  - split; [by apply projectTimeline_range|].
    revert E. unfold GanttChart.projectTimeline. case_bool_decide; [done|].
    destruct (minStart _) as [ps|]; [|done]. destruct (maxEnd _) as [pe|]; [|done].
    intros [= <-]. simpl. unfold GanttChart.msPerDay. lia.
  - revert E. unfold GanttChart.projectTimeline. case_bool_decide as Hlen.
    + intros _. destruct activities; [done|]. simpl in Hlen. lia.
    + pose proof (minStart_spec (validActivities activities)) as Hmin.
      pose proof (maxEnd_spec (validActivities activities)) as Hmax.
      destruct (minStart _); [|done]. destruct (maxEnd _); done.
Qed.

(** X13.  When some activity has both early dates and does not end before it
    starts, the timeline counts a whole number of days, at least 60: the
    length of the padded window in days, rounded up. *)
Theorem timeline_counts_sixty_days_or_more (activities : list Activity.t)
    (timeline : GanttChart.Timeline) (a : Activity.t) (s e : Z) :
  GanttChart.projectTimeline activities = Some timeline →
  a ∈ activities →
  Activity.early_start_date a = Some s →
  Activity.early_end_date a = Some e →
  s ≤ e →
  ∃ d,
    GanttChart.totalDays timeline = Fin (inject_Z d)
    ∧ 60 ≤ d
    ∧ (d - 1) * GanttChart.msPerDay
      < GanttChart.end_ timeline - GanttChart.start timeline
      ≤ d * GanttChart.msPerDay.
Proof.
  intros Htimeline Ha Hs He Hle.
  destruct (projectTimeline_range _ _ Htimeline) as [Hin _].
  destruct (Hin a s e Ha Hs He) as (s0 & e0 & [= <-] & [= <-] & Hs0 & He0).
  destruct (projectTimeline_days _ _ Htimeline ltac:(lia)) as (d & Hd & H60 & Hspan & _).
  by exists d.
Qed.

(** The theorem at [twoActivities], which span 2024-01-01..2024-01-10: 69 days. *)
Lemma timeline_counts_sixty_days_or_more_witness :
  ∃ d,
    GanttChart.totalDays timelineOfTwo = Fin (inject_Z d)
    ∧ 60 ≤ d
    ∧ (d - 1) * GanttChart.msPerDay
      < GanttChart.end_ timelineOfTwo - GanttChart.start timelineOfTwo
      ≤ d * GanttChart.msPerDay.
Proof.
  refine (timeline_counts_sixty_days_or_more twoActivities timelineOfTwo
            (act "T1" "W1" 1 100 (Some jan01) (Some jan10)) jan01 jan10 _ _ _ _ _).
  - vm_compute. reflexivity.
  - left.
  - reflexivity.
  - reflexivity.
  - vm_compute. discriminate.
Defined.

Lemma num_max_Fin (a b : Q) :
  ∃ w, num_max (Fin a) (Fin b) = Fin w ∧ (w = a ∨ w = b) ∧ (a <= w)%Q ∧ (b <= w)%Q.
Proof.
  unfold num_max. cbn [num_val num_neg]. unfold Qltb.
  destruct (Qle_bool b a) eqn:E1; cbn [negb].
  - apply Qle_bool_iff in E1. destruct (Qle_bool a b) eqn:E2; cbn [negb].
    + apply Qle_bool_iff in E2. destruct (negb (Qle_bool 0 a)).
      * exists b. split; [done|]. split; [by right|]. split; lra.
      * exists a. split; [done|]. split; [by left|]. split; lra.
    + exists a. split; [done|]. split; [by left|]. split; lra.
  - exists b. split; [done|]. split; [by right|].
    assert (¬ (b <= a)%Q) by (intros ?%Qle_bool_iff; congruence). split; lra.
Qed.

(** A quantity of milliseconds as a percentage of the timeline: the value the
    page computes by two divisions and a multiplication. *)
Lemma percent_of_timeline (x d : Z) :
  0 < d →
  ∃ p, num_mul (num_div (num_div (num_of_Z x) (num_of_Z GanttChart.msPerDay))
                        (Fin (inject_Z d))) (Fin 100) = Fin p
       ∧ (p * inject_Z d * inject_Z GanttChart.msPerDay == 100 * inject_Z x)%Q.
Proof.
  intros Hd. unfold num_of_Z.
  destruct (num_div_pos (inject_Z x) (inject_Z GanttChart.msPerDay) inject_Z_days_pos)
    as (u & -> & Hu).
  assert (HD : (0 < inject_Z d)%Q) by (rewrite (Zlt_Qlt 0 d) in Hd; exact Hd).
  destruct (num_div_pos u (inject_Z d) HD) as (q & -> & Hq).
  destruct (num_mul_pos q 100 ltac:(reflexivity)) as (p & -> & Hp).
  exists p. split; [done|]. rewrite Hp, <- Hu, <- Hq. ring.
Qed.

(** X14.  A bar whose dates lie within the project range, in that order,
    stays on the track: it starts right of the left edge, its width is at
    least 0.5, and it ends left of the right edge unless the width is the
    minimum 0.5; for a window of at most 6000 days it ends on the track in
    either case. *)
Theorem bar_inside_the_track (activities : list Activity.t) (timeline : GanttChart.Timeline)
    (showCriticalPath : bool) (node : GanttChart.GanttNode) (barType : GanttChart.BarType)
    (s e : Z) :
  GanttChart.projectTimeline activities = Some timeline →
  barStart node barType = Some s →
  barEnd node barType = Some e →
  GanttChart.projectStart timeline ≤ s →
  s ≤ e →
  e ≤ GanttChart.projectEnd timeline →
  ∃ left width color opacity,
    GanttChart.calculateBarStyle (Some timeline) showCriticalPath node barType
      = GanttChart.Bar (Fin left) (Fin width) color opacity
    ∧ (0 < left)%Q
    ∧ (1 # 2 <= width)%Q
    ∧ ((left + width < 100)%Q ∨ (width = (1 # 2)%Q ∧ (left < 100)%Q))
    ∧ (GanttChart.end_ timeline - GanttChart.start timeline ≤ 6000 * GanttChart.msPerDay →
       (left + width <= 100)%Q).
Proof.
  intros Htimeline Hs He Hps Hse Hpe.
  destruct (projectTimeline_days _ _ Htimeline ltac:(lia))
    as (d & Hd & H60 & Hspan & Hstart & Hend).
  unfold GanttChart.calculateBarStyle.
  fold (barStart node barType). fold (barEnd node barType). rewrite Hs, He, Hd.
  destruct (percent_of_timeline (s - GanttChart.start timeline) d ltac:(lia))
    as (l & -> & Hl).
  destruct (percent_of_timeline (e - s) d ltac:(lia)) as (w' & -> & Hw').
  destruct (num_max_Fin w' (1 # 2)) as (w & -> & Hw & Hw1 & Hw2).
  exists l, w. eexists _, _. split; [reflexivity|].
  change GanttChart.msPerDay with 86400000 in *.
  assert (HX : (30 * 86400000 <= inject_Z (s - GanttChart.start timeline))%Q).
  { change (30 * 86400000)%Q with (inject_Z (30 * 86400000)).
    rewrite <- Zle_Qle. lia. }
  assert (HW : (0 <= inject_Z (e - s))%Q).
  { change 0%Q with (inject_Z 0). rewrite <- Zle_Qle. lia. }
  assert (HXW : (inject_Z (s - GanttChart.start timeline) + inject_Z (e - s) + 30 * 86400000
                 <= inject_Z d * 86400000)%Q).
  { change (30 * 86400000)%Q with (inject_Z (30 * 86400000)).
    change 86400000%Q with (inject_Z 86400000).
    rewrite <- !inject_Z_plus, <- inject_Z_mult. rewrite <- Zle_Qle. lia. }
  assert (HD : (60 <= inject_Z d)%Q).
  { change 60%Q with (inject_Z 60). rewrite <- Zle_Qle. lia. }
  assert (HD6 : GanttChart.end_ timeline - GanttChart.start timeline ≤ 6000 * 86400000 →
                (inject_Z d <= 6000)%Q).
  { intros H6000. change 6000%Q with (inject_Z 6000). rewrite <- Zle_Qle. lia. }
  change (inject_Z 86400000) with 86400000%Q in *.
  set (X := inject_Z (s - GanttChart.start timeline)) in *.
  set (W := inject_Z (e - s)) in *. set (D := inject_Z d) in *.
  clearbody X W D.
  assert (Hl0 : (0 < l)%Q) by nra.
  assert (Hw0 : (0 <= w')%Q) by nra.
  assert (Hlw : (l + w' < 100)%Q) by nra.
  split; [exact Hl0|]. split; [exact Hw2|]. split.
  - destruct Hw as [->| ->]; [by left|]. right. split; [done|]. lra.
  - intros H6000. specialize (HD6 H6000). destruct Hw as [->| ->]; [lra|]. nra.
Qed.

(** The theorem at a milestone on 2024-01-10, in the timeline of
    [twoActivities]. *)
Lemma bar_inside_the_track_witness :
  ∃ left width color opacity,
    GanttChart.calculateBarStyle (Some timelineOfTwo) true
      (GanttChart.activityNode 1 milestone) GanttChart.planned
      = GanttChart.Bar (Fin left) (Fin width) color opacity
    ∧ (0 < left)%Q
    ∧ (1 # 2 <= width)%Q
    ∧ ((left + width < 100)%Q ∨ (width = (1 # 2)%Q ∧ (left < 100)%Q))
    ∧ (GanttChart.end_ timelineOfTwo - GanttChart.start timelineOfTwo
         ≤ 6000 * GanttChart.msPerDay →
       (left + width <= 100)%Q).
Proof.
  refine (bar_inside_the_track twoActivities timelineOfTwo true
            (GanttChart.activityNode 1 milestone) GanttChart.planned jan10 jan10
            _ _ _ _ _ _).
  - vm_compute. reflexivity.
  - reflexivity.
  - reflexivity.
  - vm_compute. discriminate.
  - lia.
  - vm_compute. discriminate.
Defined.

(** X15.  The today line of the Gantt chart, for a timeline whose project
    start is not after its project end: it is drawn whenever the current time
    lies in the padded window, and it is not drawn before the window nor a
    day or more after its end. *)
Theorem today_line_inside_the_window (activities : list Activity.t)
    (timeline : GanttChart.Timeline) (today : Z) :
  GanttChart.projectTimeline activities = Some timeline →
  GanttChart.projectStart timeline ≤ GanttChart.projectEnd timeline →
  (GanttChart.start timeline ≤ today ≤ GanttChart.end_ timeline →
   GanttChart.todayLineShown (Some timeline) today = true)
  ∧ (today < GanttChart.start timeline →
     GanttChart.todayLineShown (Some timeline) today = false)
  ∧ (GanttChart.end_ timeline + GanttChart.msPerDay ≤ today →
     GanttChart.todayLineShown (Some timeline) today = false).
Proof.
  intros Htimeline Hle.
  destruct (projectTimeline_days _ _ Htimeline Hle) as (d & Hd & H60 & Hspan & _).
  unfold GanttChart.todayLineShown, GanttChart.todayPercent. rewrite Hd.
  destruct (percent_of_timeline (today - GanttChart.start timeline) d ltac:(lia))
    as (p & -> & Hp).
  cbn [GanttChart.num_leb num_val].
  change GanttChart.msPerDay with 86400000 in *.
  assert (HD : (60 <= inject_Z d)%Q).
  { change 60%Q with (inject_Z 60). rewrite <- Zle_Qle. lia. }
  change (inject_Z 86400000) with 86400000%Q in Hp.
  split; [|split].
  - intros [H1 H2]. apply andb_true_iff. split; apply Qle_bool_iff.
    + assert (HT : (0 <= inject_Z (today - GanttChart.start timeline))%Q).
      { change 0%Q with (inject_Z 0). rewrite <- Zle_Qle. lia. }
      set (T := inject_Z (today - GanttChart.start timeline)) in *.
      set (D := inject_Z d) in *. clearbody T D. nra.
    + assert (HT : (inject_Z (today - GanttChart.start timeline) <= inject_Z d * 86400000)%Q).
      { change 86400000%Q with (inject_Z 86400000).
        rewrite <- inject_Z_mult. rewrite <- Zle_Qle. lia. }
      set (T := inject_Z (today - GanttChart.start timeline)) in *.
      set (D := inject_Z d) in *. clearbody T D. nra.
  - intros H1. apply andb_false_iff. left.
    destruct (Qle_bool 0 p) eqn:E; [|done]. apply Qle_bool_iff in E. exfalso.
    assert (HT : (inject_Z (today - GanttChart.start timeline) < 0)%Q).
    { change 0%Q with (inject_Z 0). rewrite <- Zlt_Qlt. lia. }
    set (T := inject_Z (today - GanttChart.start timeline)) in *.
    set (D := inject_Z d) in *. clearbody T D. nra.
  - intros H1. apply andb_false_iff. right.
    destruct (Qle_bool p 100) eqn:E; [|done]. apply Qle_bool_iff in E. exfalso.
    assert (HT : (inject_Z d * 86400000 < inject_Z (today - GanttChart.start timeline))%Q).
    { change 86400000%Q with (inject_Z 86400000).
      rewrite <- inject_Z_mult. rewrite <- Zlt_Qlt. lia. }
    set (T := inject_Z (today - GanttChart.start timeline)) in *.
    set (D := inject_Z d) in *. clearbody T D. nra.
Qed.

(** The theorem at the timeline of [twoActivities] and 2024-01-10. *)
Lemma today_line_inside_the_window_witness :
  GanttChart.todayLineShown (Some timelineOfTwo) jan10 = true.
Proof.
  refine (proj1 (today_line_inside_the_window twoActivities timelineOfTwo jan10 _ _) _).
  - vm_compute. reflexivity.
  - vm_compute. discriminate.
  - split; vm_compute; discriminate.
Defined.

(** ** The activities a rollup is computed from *)

Lemma flatMapM_elem {A B} (f : A → option (list B)) (l : list A) (out : list B) :
  flatMapM f l = Some out →
  (∀ x, x ∈ l → ∃ ys, f x = Some ys ∧ ∀ y, y ∈ ys → y ∈ out)
  ∧ (∀ y, y ∈ out → ∃ x ys, x ∈ l ∧ f x = Some ys ∧ y ∈ ys).
Proof.
  revert out. induction l as [|x l IH]; intros out; simpl.
  - intros [= <-]. split; [by intros x ?%elem_of_nil|by intros y ?%elem_of_nil].
  - destruct (f x) as [ys|] eqn:E; [|done].
    destruct (flatMapM f l) as [zs|]; [|done]. intros [= <-].
    destruct (IH zs eq_refl) as [IH1 IH2]. split.
    + intros x' [->|Hx]%elem_of_cons.
      * exists ys. split; [done|]. intros y Hy. apply elem_of_app. by left.
      * destruct (IH1 x' Hx) as (ys' & Hf & Hsub). exists ys'. split; [done|].
        intros y Hy. apply elem_of_app. right. by apply Hsub.
    + intros y [Hy|Hy]%elem_of_app.
      * exists x, ys. split; [by left|done].
      * destruct (IH2 y Hy) as (x' & ys' & Hx & Hf & Hin).
        exists x', ys'. split; [by right|done].
Qed.

Lemma flatMapM_ext {A B} (f g : A → option (list B)) (l : list A) :
  (∀ x, f x = g x) → flatMapM f l = flatMapM g l.
Proof.
  intros Hfg. induction l as [|x l IH]; simpl; [done|]. by rewrite Hfg, IH.
Qed.

(** The two pages that roll up a subtree collect its activities alike. *)
Lemma getAllDescendantActivities_same (wbsStructure : list WBSItem.t) (fuel : nat)
    (byWBS : gmap string (list Activity.t)) (wbsId : string) :
  EnhancedActivitiesPage.getAllDescendantActivities wbsStructure fuel byWBS wbsId
  = ActivitiesPage.getAllDescendantActivities wbsStructure fuel byWBS wbsId.
Proof.
  revert wbsId. induction fuel as [|fuel IH]; intros wbsId; [done|].
  cbn [EnhancedActivitiesPage.getAllDescendantActivities
       ActivitiesPage.getAllDescendantActivities].
  change (EnhancedActivitiesPage.childrenOf wbsStructure wbsId)
    with (ActivitiesPage.childrenOf wbsStructure wbsId).
  rewrite (flatMapM_ext _
             (λ c, ActivitiesPage.getAllDescendantActivities wbsStructure fuel byWBS
                     (WBSItem.wbs_id c))); [done|].
  intros c. apply IH.
Qed.

Lemma getAll_subtree (wbsStructure : list WBSItem.t) (fuel : nat)
    (byWBS : gmap string (list Activity.t)) (wbsId : string) (l : list Activity.t) :
  ActivitiesPage.getAllDescendantActivities wbsStructure fuel byWBS wbsId = Some l →
  ∀ a, a ∈ l ↔ ∃ k, (k = wbsId ∨ descends wbsStructure k wbsId)
                     ∧ a ∈ default [] (byWBS !! k).
Proof.
  revert wbsId l. induction fuel as [|fuel IH]; intros wbsId l; [done|].
  cbn [ActivitiesPage.getAllDescendantActivities].
  destruct (flatMapM _ _) as [childActivities|] eqn:E; [|done].
  intros [= <-] a. destruct (flatMapM_elem _ _ _ E) as [Hran Hpushed]. split.
  - intros [Ha|Ha]%elem_of_app.
    + exists wbsId. split; [by left|done].
    + destruct (Hpushed a Ha) as (c & ys & [Hc Hp]%elem_of_childrenOf & Hys & Hin).
      apply (IH _ _ Hys) in Hin as (k & Hk & Hstored).
      exists k. split; [|done]. right.
      assert (Hcp : descends wbsStructure (WBSItem.wbs_id c) wbsId)
        by (by apply descends_child).
      destruct Hk as [->|Hk]; [done|]. by eapply descends_trans.
  - intros (k & [->|Hk] & Hstored); apply elem_of_app; [by left|right].
    destruct (descends_last _ _ _ Hk) as (w & Hw & Hp & Hbelow).
    destruct (Hran w) as (ys & Hys & Hsub); [by apply elem_of_childrenOf|].
    apply Hsub, (IH _ _ Hys). exists k. split; [|done].
    destruct Hbelow as [<-|Hbelow]; [by left|by right].
Qed.

(** X16.  The activities a WBS row is rolled up from, on the activities page
    and on the enhanced page alike, are those of the subtree: an activity is
    among them exactly when the store holds it under the id of the item or
    under an id that leads to it by parent links. *)
Theorem rollup_covers_the_subtree (wbsStructure : list WBSItem.t) (fuel : nat)
    (byWBS : gmap string (list Activity.t)) (wbsId : string) (l : list Activity.t) :
  ActivitiesPage.getAllDescendantActivities wbsStructure fuel byWBS wbsId = Some l →
  EnhancedActivitiesPage.getAllDescendantActivities wbsStructure fuel byWBS wbsId = Some l
  ∧ ∀ a, a ∈ l ↔ ∃ k, (k = wbsId ∨ descends wbsStructure k wbsId)
                       ∧ a ∈ default [] (byWBS !! k).
Proof.
  intros Hl. split.
  - by rewrite getAllDescendantActivities_same.
  - by eapply getAll_subtree.
Qed.

(** The theorem at the phase P of [nestedPhases]: its rollup holds the
    activity of its sub-phase C. *)
Lemma rollup_covers_the_subtree_witness :
  ∃ l,
    EnhancedActivitiesPage.getAllDescendantActivities nestedPhases 3
      (ActivitiesPage.activitiesByWBS nestedActivities) "P" = Some l
    ∧ act "T2" "C" 3 0 (Some jan01) (Some jan10) ∈ l.
Proof.
  assert (Hl : ActivitiesPage.getAllDescendantActivities nestedPhases 3
                 (ActivitiesPage.activitiesByWBS nestedActivities) "P"
               = Some nestedActivities) by (vm_compute; reflexivity).
  destruct (rollup_covers_the_subtree nestedPhases 3 _ "P" nestedActivities Hl)
    as [Hsame Hiff].
  exists nestedActivities. split; [exact Hsame|]. apply Hiff.
  exists "C". split.
  - right. apply (descends_child nestedPhases (item "C" "Civil works" (Some "P") 1) "P").
    + right. left.
    + reflexivity.
  - vm_compute. left.
Defined.

(** ** Gantt chart: which rows are listed *)

Section GanttRows.
Variable localeCompare : string → string → Z.
Variable wbsStructure : list WBSItem.t.
Variable expandedWBS : gset string.

Local Abbreviation gantt := (GanttChart.buildWBSNodes localeCompare wbsStructure expandedWBS).

Lemma sameBuckets_sorted_if_stored (cmp : Activity.t → Activity.t → Z)
    (m : gmap string (list Activity.t)) (k : string) :
  sameBuckets m
    match m !! k with
    | Some _ => <[k := sortBy cmp (default [] (m !! k))]> m
    | None => m
    end.
Proof.
  destruct (m !! k) eqn:E; [|reflexivity].
  pose proof (sameBuckets_sorted cmp m k) as H. by rewrite E in H.
Qed.

Lemma gantt_sameBuckets (fuel : nat) (m : gmap string (list Activity.t))
    (parent : option string) (lvl : nat) (m' : gmap string (list Activity.t))
    (out : list GanttChart.GanttNode) :
  gantt fuel m parent lvl = Some (m', out) → sameBuckets m m'.
Proof.
  revert m parent lvl m' out. induction fuel as [|fuel IH]; intros m parent lvl m' out; [done|].
  cbn [GanttChart.buildWBSNodes]. apply forEachM_preserves; [apply _..|].
  intros s w s' o _ Hbody. case_bool_decide as Hexp.
  - destruct (GanttChart.buildWBSNodes _ _ _ _ _ _ _) as [[m2 sub]|] eqn:E; [|done].
    injection Hbody as <- _. apply IH in E. etrans; [|exact E].
    apply sameBuckets_sorted_if_stored.
  - by injection Hbody as <- _.
Qed.

(** Where a row of the output of [buildWBSNodes] comes from. *)
Lemma gantt_rows (fuel : nat) (m : gmap string (list Activity.t))
    (parent : option string) (lvl : nat) (m' : gmap string (list Activity.t))
    (out : list GanttChart.GanttNode) (r : GanttChart.GanttNode) :
  gantt fuel m parent lvl = Some (m', out) →
  r ∈ out →
  (∃ a k lvl',
      r = GanttChart.activityNode lvl' a
      ∧ a ∈ default [] (m !! k) ∧ k ∈ expandedWBS ∧ (lvl < lvl')%nat)
  ∨ (∃ w lvl' acts,
        r = GanttChart.wbsNode expandedWBS lvl' w acts
        ∧ w ∈ wbsStructure
        ∧ acts ≡ₚ default [] (m !! WBSItem.wbs_id w)
        ∧ ((lvl' = lvl ∧ GanttChart.isChildOf parent w = true)
           ∨ (∃ p, WBSItem.parent_wbs_id w = Some p ∧ p ∈ expandedWBS ∧ (lvl < lvl')%nat))).
Proof.
  revert m parent lvl m' out. induction fuel as [|fuel IH]; intros m parent lvl m' out; [done|].
  cbn [GanttChart.buildWBSNodes]. intros Hloop Hr.
  eapply (forEachM_pushed sameBuckets) in Hloop
    as (w & s0 & s1 & o & [Hw Hchild]%elem_of_sorted_filter & Hs0 & Hrun & Hin); [| |exact Hr].
  2:{ intros s x s' o' _ Hbody. case_bool_decide as Hexp.
      - destruct (GanttChart.buildWBSNodes _ _ _ _ _ _ _) as [[m2 sub]|] eqn:E; [|done].
        injection Hbody as <- _. apply gantt_sameBuckets in E. etrans; [|exact E].
        apply sameBuckets_sorted_if_stored.
      - by injection Hbody as <- _. }
  assert (Hnode : ∃ w' lvl' acts,
             GanttChart.wbsNode expandedWBS lvl w (default [] (s0 !! WBSItem.wbs_id w))
             = GanttChart.wbsNode expandedWBS lvl' w' acts
             ∧ w' ∈ wbsStructure
             ∧ acts ≡ₚ default [] (m !! WBSItem.wbs_id w')
             ∧ ((lvl' = lvl ∧ GanttChart.isChildOf parent w' = true)
                ∨ (∃ p, WBSItem.parent_wbs_id w' = Some p ∧ p ∈ expandedWBS
                        ∧ (lvl < lvl')%nat))).
  { exists w, lvl, (default [] (s0 !! WBSItem.wbs_id w)).
    split; [done|]. split; [done|]. split; [apply Hs0|]. by left. }
  case_bool_decide as Hexp.
  - destruct (GanttChart.buildWBSNodes _ _ _ _ _ _ _) as [[m2 sub]|] eqn:E; [|done].
    injection Hrun as <- <-.
    apply elem_of_cons in Hin as [->|Hin]; [by right|].
    apply elem_of_app in Hin as [Hin|Hin].
    + left. apply list_elem_of_In, in_map_iff in Hin as (a & <- & Ha%list_elem_of_In).
      exists a, (WBSItem.wbs_id w), (lvl + 1)%nat. split; [done|].
      split; [|split; [done|lia]].
      rewrite sortBy_perm in Ha. by rewrite <- (Hs0 (WBSItem.wbs_id w)).
    + pose proof (sameBuckets_sorted_if_stored GanttChart.compareActivities s0
                    (WBSItem.wbs_id w)) as Hs1.
      destruct (IH _ _ _ _ _ E Hin)
        as [(a & k & lvl' & -> & Ha & Hk & Hlt)
           |(w' & lvl' & acts & -> & Hw' & Hacts & Hwhere)].
      * left. exists a, k, lvl'. split; [done|]. split; [|split; [done|lia]].
        rewrite <- (Hs0 k), <- (Hs1 k). exact Ha.
      * right. exists w', lvl', acts. split; [done|]. split; [done|]. split.
        { rewrite Hacts, (Hs1 _). apply Hs0. }
        right. destruct Hwhere as [[-> Hc]|(p & Hp & Hpexp & Hlt)].
        -- exists (WBSItem.wbs_id w). simpl in Hc. apply bool_decide_eq_true in Hc.
           split; [done|]. split; [done|lia].
        -- exists p. split; [done|]. split; [done|lia].
  - injection Hrun as <- <-. apply list_elem_of_singleton in Hin as ->. by right.
Qed.

End GanttRows.

(** X17.  The Gantt chart descends only through expanded items.  A row of
    its output is either the row of an input activity whose WBS id is
    expanded, below level 0, or the row of a WBS item that is root-level and
    at level 0 or whose parent is expanded; a WBS row is computed from the
    activities that carry the WBS id of the item. *)
Theorem gantt_rows_under_expanded_items (localeCompare : string → string → Z)
    (activities : list Activity.t) (wbsStructure : list WBSItem.t) (expandedWBS : gset string)
    (fuel : nat) (out : list GanttChart.GanttNode) (r : GanttChart.GanttNode) :
  GanttChart.ganttData localeCompare activities wbsStructure expandedWBS fuel = Some out →
  r ∈ out →
  ganttRowOrigin activities wbsStructure expandedWBS r.
Proof.
  unfold ganttRowOrigin, GanttChart.ganttData.
  destruct (GanttChart.projectTimeline activities); [|by intros [= <-] ?%elem_of_nil].
  case_bool_decide; [by intros [= <-] ?%elem_of_nil|].
  destruct (GanttChart.buildWBSNodes _ _ _ _ _ _ _) as [[m' nodes]|] eqn:E; [|done].
  intros [= <-] Hr.
  destruct (gantt_rows _ _ _ _ _ _ _ _ _ _ E Hr)
    as [(a & k & lvl & -> & Ha & Hk & Hlt)|(w & lvl & acts & -> & Hw & Hacts & Hwhere)].
  - left. exists a, lvl. split; [done|].
    unfold GanttChart.activitiesByWBS, groupByWBS in Ha.
    rewrite groupByWBS_fold, lookup_empty in Ha. simpl in Ha.
    apply list_elem_of_In, filter_In in Ha as [Ha%list_elem_of_In Hkey].
    apply bool_decide_eq_true in Hkey. by rewrite Hkey.
  - right. exists w, lvl, acts. split; [done|]. split; [done|]. split; [|done].
    rewrite Hacts. unfold GanttChart.activitiesByWBS, groupByWBS.
    by rewrite groupByWBS_fold, lookup_empty.
Qed.

(** The theorem at [nestedPhases] with the phase P expanded: the row of the
    sub-phase C is listed as the child of an expanded item. *)
Lemma gantt_rows_under_expanded_items_witness :
  ganttRowOrigin nestedActivities nestedPhases {["P"]}
    (GanttChart.wbsNode {["P"]} 1 (item "C" "Civil works" (Some "P") 1)
       [act "T2" "C" 3 0 (Some jan01) (Some jan10)]).
Proof.
  assert (∃ out,
            GanttChart.ganttData codeUnitCompare nestedActivities nestedPhases {["P"]} 3
            = Some out
            ∧ GanttChart.wbsNode {["P"]} 1 (item "C" "Civil works" (Some "P") 1)
                [act "T2" "C" 3 0 (Some jan01) (Some jan10)] ∈ out)
    as (out & Hout & Hin).
  { eexists. split; [vm_compute; reflexivity|]. do 2 right. left. }
  exact (gantt_rows_under_expanded_items codeUnitCompare nestedActivities nestedPhases
           {["P"]} 3 out _ Hout Hin).
Defined.

Lemma forEachM_singletons {St A B} (body : St → A → option (St * list B)) (g : A → B)
    (s : St) (l : list A) :
  (∀ x, x ∈ l → body s x = Some (s, [g x])) →
  forEachM body s l = Some (s, List.map g l).
Proof.
  induction l as [|x l IH]; intros Hbody; simpl; [done|].
  rewrite Hbody by (by left). rewrite IH; [done|].
  intros y Hy. apply Hbody. by right.
Qed.

(** X18.  With no root-level item expanded the Gantt chart returns on every
    WBS list, cyclic parent links included, after one call of the builder:
    one row per root-level item at level 0, in the order of the names, each
    computed from the activities that carry the WBS id of the item. *)
Theorem gantt_collapsed_lists_the_roots (localeCompare : string → string → Z)
    (activities : list Activity.t) (wbsStructure : list WBSItem.t) (expandedWBS : gset string)
    (fuel : nat) :
  is_Some (GanttChart.projectTimeline activities) →
  wbsStructure ≠ [] →
  (∀ w, w ∈ wbsStructure → GanttChart.isChildOf None w = true →
        WBSItem.wbs_id w ∉ expandedWBS) →
  GanttChart.ganttData localeCompare activities wbsStructure expandedWBS (S fuel)
  = Some (List.map
            (λ w, GanttChart.wbsNode expandedWBS 0 w
                    (List.filter (λ a, bool_decide (Activity.wbs_id a = WBSItem.wbs_id w))
                       activities))
            (sortBy (λ a b, localeCompare (WBSItem.wbs_name a) (WBSItem.wbs_name b))
               (List.filter (GanttChart.isChildOf None) wbsStructure))).
Proof.
  intros [timeline Htimeline] Hwbs Hcollapsed.
  unfold GanttChart.ganttData. rewrite Htimeline.
  rewrite bool_decide_eq_false_2 by (by destruct wbsStructure).
  cbn [GanttChart.buildWBSNodes].
  rewrite (forEachM_singletons _
             (λ w, GanttChart.wbsNode expandedWBS 0 w
                     (List.filter (λ a, bool_decide (Activity.wbs_id a = WBSItem.wbs_id w))
                        activities))); [done|].
  intros w [Hw Hroot]%elem_of_sorted_filter.
  rewrite bool_decide_eq_false_2 by (by apply Hcollapsed).
  unfold GanttChart.activitiesByWBS, groupByWBS.
  by rewrite groupByWBS_fold, lookup_empty.
Qed.

(** The theorem at [isolatedCycle], whose items A and B name each other as
    parent: the chart lists the phase R. *)
Lemma gantt_collapsed_lists_the_roots_witness :
  GanttChart.ganttData codeUnitCompare twoActivities isolatedCycle ∅ 1
  = Some [GanttChart.wbsNode ∅ 0 (item "R" "Phase" None 0) []].
Proof.
  refine (gantt_collapsed_lists_the_roots codeUnitCompare twoActivities isolatedCycle ∅ 0
            _ _ _).
  - vm_compute. eauto.
  - discriminate.
  - intros w _ _. apply not_elem_of_empty.
Defined.

(** ** Order of the activities of the Gantt chart *)

Section Sorted.
Context {A : Type} (key : A → Z).

Local Abbreviation byKey := (λ a b : A, key a - key b).




End Sorted.


(** ** The expanded set after a load *)

Lemma elem_of_take_3 {A} (x : A) (l : list A) : x ∈ take 3 l → x ∈ l.
Proof. apply subseteq_take. Qed.

Lemma size_list_to_set_le (l : list string) :
  (size (list_to_set (C := gset string) l) ≤ length l)%nat.
Proof.
  induction l as [|x l IH]; simpl.
  - change (size (∅ : gset string) ≤ 0)%nat. by rewrite size_empty.
  - change (size ({[x]} ∪ list_to_set (C := gset string) l) ≤ S (length l))%nat.
    rewrite size_union_alt, size_singleton.
    assert (size (list_to_set (C := gset string) l ∖ {[x]})
            ≤ size (list_to_set (C := gset string) l))%nat; [|lia].
    apply subseteq_size. intros y Hy. apply elem_of_difference in Hy. tauto.
Qed.

(** X20.  After a load the Gantt chart and the enhanced page expand the
    project root and at most three WBS items, each of level 1 or less (or, on
    the enhanced page, flagged as project node): the set holds
    ['project-root'], at most four ids, and every other id is that of such an
    item of the loaded list.  The enhanced page does so for a loaded list that
    is not empty and leaves the set as it is for an empty one. *)
Theorem load_expands_at_most_three (expandedWBS : gset string)
    (wbs_structure : list WBSItem.t) :
  ("project-root" ∈ GanttChart.expandedAfterLoad wbs_structure
   ∧ (size (GanttChart.expandedAfterLoad wbs_structure) ≤ 4)%nat
   ∧ ∀ i, i ∈ GanttChart.expandedAfterLoad wbs_structure → i ≠ "project-root" →
          ∃ w, w ∈ wbs_structure ∧ WBSItem.wbs_id w = i ∧ WBSItem.level w ≤ 1)
  ∧ match wbs_structure with
    | [] => EnhancedActivitiesPage.expandedAfterLoad expandedWBS wbs_structure = expandedWBS
    | _ :: _ =>
        let loaded := EnhancedActivitiesPage.expandedAfterLoad expandedWBS wbs_structure in
        "project-root" ∈ loaded
        ∧ (size loaded ≤ 4)%nat
        ∧ ∀ i, i ∈ loaded → i ≠ "project-root" →
               ∃ w, w ∈ wbs_structure ∧ WBSItem.wbs_id w = i
                    ∧ (WBSItem.proj_node_flag w = "Y" ∨ WBSItem.level w ≤ 1)
    end.
Proof.
  assert (Hsize : ∀ l : list string,
            (size (list_to_set (C := gset string) ("project-root" :: take 3 l)) ≤ 4)%nat).
  { intros l. etrans; [apply size_list_to_set_le|]. simpl.
    rewrite length_take. lia. }
  split.
  - unfold GanttChart.expandedAfterLoad.
    split; [apply elem_of_list_to_set; by left|]. split; [apply Hsize|].
    intros i [->|Hi%elem_of_take_3]%elem_of_list_to_set%elem_of_cons Hne; [done|].
    apply list_elem_of_In, in_map_iff in Hi as (w & <- & [Hw Hlvl]%filter_In).
    exists w. split; [by apply list_elem_of_In|]. split; [done|]. by apply Z.leb_le.
  - destruct wbs_structure as [|w0 rest]; [done|].
    unfold EnhancedActivitiesPage.expandedAfterLoad.
    replace (0 <? Z.of_nat (length (w0 :: rest))) with true
      by (symmetry; apply Z.ltb_lt; simpl length; lia).
    cbv zeta.
    split; [apply elem_of_list_to_set; by left|]. split; [apply Hsize|].
    intros i [->|Hi%elem_of_take_3]%elem_of_list_to_set%elem_of_cons Hne; [done|].
    apply list_elem_of_In, in_map_iff in Hi as (w & <- & [Hw Hlvl]%filter_In).
    exists w. split; [by apply list_elem_of_In|]. split; [done|].
    apply orb_true_iff in Hlvl as [Hflag%bool_decide_eq_true|Hlvl%Z.leb_le]; auto.
Qed.

(** ** Enhanced page: which rows are listed *)

Section TreeRows.
Variable localeCompare : string → string → Z.
Variable wbsStructure : list WBSItem.t.
Variable expandedWBS : gset string.

Local Abbreviation tree :=
  (EnhancedActivitiesPage.buildWBSNodes localeCompare wbsStructure expandedWBS).

Lemma sortStored_spec (m m2 : gmap string (list Activity.t)) (k : string)
    (sorted : list Activity.t) :
  EnhancedActivitiesPage.sortStored localeCompare m k = (m2, sorted) →
  sameBuckets m m2 ∧ sorted ≡ₚ default [] (m !! k).
Proof.
  unfold EnhancedActivitiesPage.sortStored.
  pose proof (sameBuckets_sorted (EnhancedActivitiesPage.compareActivities localeCompare) m k)
    as Hsame.
  destruct (m !! k) as [l|] eqn:E; intros [= <- <-].
  - split; [exact Hsame|apply sortBy_perm].
  - split; [reflexivity|done].
Qed.

Lemma tree_sameBuckets (fuel : nat) (m : gmap string (list Activity.t))
    (parent : option string) (lvl : nat) (m' : gmap string (list Activity.t))
    (out : list EnhancedActivitiesPage.TreeNode) :
  tree fuel m parent lvl = Some (m', out) → sameBuckets m m'.
Proof.
  revert m parent lvl m' out. induction fuel as [|fuel IH]; intros m parent lvl m' out; [done|].
  cbn [EnhancedActivitiesPage.buildWBSNodes]. apply forEachM_preserves; [apply _..|].
  intros s w s' o _ Hbody.
  destruct (EnhancedActivitiesPage.getAllDescendantActivities _ _ _ _) as [all|]; [|done].
  case_bool_decide as Hexp; [|by injection Hbody as <- _].
  destruct (existsb _ _).
  - destruct (EnhancedActivitiesPage.buildWBSNodes _ _ _ _ _ _ _) as [[m1 sub]|] eqn:E; [|done].
    destruct (EnhancedActivitiesPage.sortStored _ _ _) as [m2 sorted] eqn:Es.
    injection Hbody as <- _. apply IH in E. apply sortStored_spec in Es as [Hs _].
    by etrans.
  - destruct (EnhancedActivitiesPage.sortStored _ _ _) as [m2 sorted] eqn:Es.
    injection Hbody as <- _. by apply sortStored_spec in Es as [Hs _].
Qed.

(** Where a row of the output of [buildWBSNodes] comes from. *)
Lemma tree_rows (fuel : nat) (m : gmap string (list Activity.t))
    (parent : option string) (lvl : nat) (m' : gmap string (list Activity.t))
    (out : list EnhancedActivitiesPage.TreeNode) (r : EnhancedActivitiesPage.TreeNode) :
  tree fuel m parent lvl = Some (m', out) →
  r ∈ out →
  (∃ a k lvl',
      r = EnhancedActivitiesPage.activityNode lvl' a
      ∧ a ∈ default [] (m !! k) ∧ k ∈ expandedWBS ∧ (lvl < lvl')%nat)
  ∨ (∃ w lvl' acts hasChildWBS all,
        r = EnhancedActivitiesPage.wbsNode expandedWBS lvl' w acts hasChildWBS all
        ∧ w ∈ wbsStructure
        ∧ acts ≡ₚ default [] (m !! WBSItem.wbs_id w)
        ∧ (∀ a, a ∈ all ↔ ∃ k, (k = WBSItem.wbs_id w
                                 ∨ descends wbsStructure k (WBSItem.wbs_id w))
                                ∧ a ∈ default [] (m !! k))
        ∧ ((lvl' = lvl ∧ EnhancedActivitiesPage.isChildOf parent w = true)
           ∨ (∃ p, WBSItem.parent_wbs_id w = Some p ∧ p ∈ expandedWBS ∧ (lvl < lvl')%nat))).
Proof.
  revert m parent lvl m' out. induction fuel as [|fuel IH]; intros m parent lvl m' out; [done|].
  cbn [EnhancedActivitiesPage.buildWBSNodes]. intros Hloop Hr.
  eapply (forEachM_pushed sameBuckets) in Hloop
    as (w & s0 & s1 & o & [Hw Hchild]%elem_of_sorted_filter & Hs0 & Hrun & Hin); [| |exact Hr].
  2:{ intros s x s' o' _ Hbody.
      destruct (EnhancedActivitiesPage.getAllDescendantActivities _ _ _ _) as [all|]; [|done].
      case_bool_decide as Hexp; [|by injection Hbody as <- _].
      destruct (existsb _ _).
      - destruct (EnhancedActivitiesPage.buildWBSNodes _ _ _ _ _ _ _) as [[m1 sub]|] eqn:E;
          [|done].
        destruct (EnhancedActivitiesPage.sortStored _ _ _) as [m2 sorted] eqn:Es.
        injection Hbody as <- _. apply tree_sameBuckets in E.
        apply sortStored_spec in Es as [Hs _]. by etrans.
      - destruct (EnhancedActivitiesPage.sortStored _ _ _) as [m2 sorted] eqn:Es.
        injection Hbody as <- _. by apply sortStored_spec in Es as [Hs _]. }
  destruct (EnhancedActivitiesPage.getAllDescendantActivities _ _ _ _) as [all|] eqn:Eall;
    [|done].
  rewrite getAllDescendantActivities_same in Eall.
  pose proof (getAll_subtree _ _ _ _ _ Eall) as Hall.
  set (hasChildWBS := existsb _ _) in Hrun.
  assert (Hnode : ∃ w' lvl' acts has all',
             EnhancedActivitiesPage.wbsNode expandedWBS lvl w
               (default [] (s0 !! WBSItem.wbs_id w)) hasChildWBS all
             = EnhancedActivitiesPage.wbsNode expandedWBS lvl' w' acts has all'
             ∧ w' ∈ wbsStructure
             ∧ acts ≡ₚ default [] (m !! WBSItem.wbs_id w')
             ∧ (∀ a, a ∈ all' ↔ ∃ k, (k = WBSItem.wbs_id w'
                                       ∨ descends wbsStructure k (WBSItem.wbs_id w'))
                                      ∧ a ∈ default [] (m !! k))
             ∧ ((lvl' = lvl ∧ EnhancedActivitiesPage.isChildOf parent w' = true)
                ∨ (∃ p, WBSItem.parent_wbs_id w' = Some p ∧ p ∈ expandedWBS
                        ∧ (lvl < lvl')%nat))).
  { exists w, lvl, (default [] (s0 !! WBSItem.wbs_id w)), hasChildWBS, all.
    split; [done|]. split; [done|]. split; [apply Hs0|]. split; [|by left].
    intros a. rewrite Hall. split; intros (k & Hk & Ha); exists k; (split; [done|]).
    - by rewrite <- (Hs0 k).
    - by rewrite (Hs0 k). }
  case_bool_decide as Hexp.
  2:{ injection Hrun as <- <-. apply list_elem_of_singleton in Hin as ->. by right. }
  assert (Hsub : ∃ m1 sub,
             (if hasChildWBS
              then tree fuel s0 (Some (WBSItem.wbs_id w)) (lvl + 1)%nat
              else Some (s0, [])) = Some (m1, sub)
             ∧ sameBuckets s0 m1
             ∧ ∀ r', r' ∈ sub →
                 tree fuel s0 (Some (WBSItem.wbs_id w)) (lvl + 1)%nat = Some (m1, sub)).
  { destruct hasChildWBS.
    - destruct (EnhancedActivitiesPage.buildWBSNodes _ _ _ _ _ _ _) as [[m1 sub]|] eqn:E;
        [|done].
      exists m1, sub. split; [done|]. split; [by eapply tree_sameBuckets|done].
    - exists s0, []. split; [done|]. split; [reflexivity|]. by intros r' ?%elem_of_nil. }
  destruct Hsub as (m1 & sub & Hsubeq & Hm1 & Hcall). rewrite Hsubeq in Hrun.
  destruct (EnhancedActivitiesPage.sortStored _ _ _) as [m2 sorted] eqn:Es.
  apply sortStored_spec in Es as [_ Hsorted].
  injection Hrun as <- <-.
  apply elem_of_cons in Hin as [->|Hin]; [by right|].
  apply elem_of_app in Hin as [Hin|Hin].
  - destruct (IH _ _ _ _ _ (Hcall r Hin) Hin)
      as [(a & k & lvl' & -> & Ha & Hk & Hlt)
         |(w' & lvl' & acts & has & all' & -> & Hw' & Hacts & Hall' & Hwhere)].
    + left. exists a, k, lvl'. split; [done|]. split; [|split; [done|lia]].
      by rewrite <- (Hs0 k).
    + right. exists w', lvl', acts, has, all'. split; [done|]. split; [done|]. split.
      { rewrite Hacts. apply Hs0. }
      split.
      { intros a. rewrite Hall'. split; intros (k & Hk & Ha); exists k; (split; [done|]).
        - by rewrite <- (Hs0 k).
        - by rewrite (Hs0 k). }
      right. destruct Hwhere as [[-> Hc]|(p & Hp & Hpexp & Hlt)].
      * exists (WBSItem.wbs_id w). simpl in Hc. apply bool_decide_eq_true in Hc.
        split; [done|]. split; [done|lia].
      * exists p. split; [done|]. split; [done|lia].
  - left. apply list_elem_of_In, in_map_iff in Hin as (a & <- & Ha%list_elem_of_In).
    exists a, (WBSItem.wbs_id w), (lvl + 1)%nat. split; [done|].
    split; [|split; [done|lia]].
    rewrite Hsorted, (Hm1 _) in Ha. by rewrite <- (Hs0 (WBSItem.wbs_id w)).
Qed.

End TreeRows.

Lemma groupByWBS_elem (activities : list Activity.t) (k : string) (a : Activity.t) :
  a ∈ default [] (groupByWBS Activity.wbs_id activities !! k)
  ↔ a ∈ activities ∧ Activity.wbs_id a = k.
Proof.
  unfold groupByWBS. rewrite groupByWBS_fold, lookup_empty. simpl.
  rewrite !list_elem_of_In, filter_In. by rewrite bool_decide_eq_true.
Qed.

(** X21.  The tree of the enhanced page descends only through expanded
    items.  A row of its output is the project row, or the row of an input
    activity whose WBS id is expanded, or the row of a WBS item that is
    root-level and at level 1 or whose parent is expanded; rows other than
    the project row need the project root expanded.  A WBS row counts the
    activities that carry the WBS id of the item and is rolled up from those
    of the subtree below it. *)
Theorem tree_rows_under_expanded_items (localeCompare : string → string → Z)
    (activities : list Activity.t) (wbsStructure : list WBSItem.t) (expandedWBS : gset string)
    (schedule : EnhancedActivitiesPage.Schedule) (fuel : nat)
    (projectSummary : option EnhancedActivitiesPage.ProjectSummary)
    (out : list EnhancedActivitiesPage.TreeNode) (r : EnhancedActivitiesPage.TreeNode) :
  EnhancedActivitiesPage.treeData localeCompare activities wbsStructure expandedWBS schedule
    fuel projectSummary = Some out →
  r ∈ out →
  treeRowOrigin activities wbsStructure expandedWBS schedule projectSummary r.
Proof.
  unfold treeRowOrigin, EnhancedActivitiesPage.treeData.
  case_bool_decide; [by intros [= <-] ?%elem_of_nil|].
  destruct projectSummary as [summary|]; [|by intros [= <-] ?%elem_of_nil].
  case_bool_decide as Hroot.
  2:{ intros [= <-] ->%list_elem_of_singleton. left. by exists summary. }
  destruct (EnhancedActivitiesPage.buildWBSNodes _ _ _ _ _ _ _) as [[m' nodes]|] eqn:E; [|done].
  intros [= <-] [->|Hr]%elem_of_cons; [left; by exists summary|].
  right. split; [done|].
  destruct (tree_rows _ _ _ _ _ _ _ _ _ _ E Hr)
    as [(a & k & lvl & -> & [Ha <-]%groupByWBS_elem & Hk & Hlt)
       |(w & lvl & acts & has & all & -> & Hw & Hacts & Hall & Hwhere)].
  - left. by exists a, lvl.
  - right. exists w, lvl, acts, has, all. split; [done|]. split; [done|]. split.
    { rewrite Hacts. unfold EnhancedActivitiesPage.activitiesByWBS, groupByWBS.
      by rewrite groupByWBS_fold, lookup_empty. }
    split; [|done].
    intros a. rewrite Hall. split.
    + intros (k & Hk & [Ha <-]%groupByWBS_elem). done.
    + intros [Ha Hk]. exists (Activity.wbs_id a). split; [done|].
      by apply groupByWBS_elem.
Qed.

(** The theorem at [nestedPhases] with the project root and the phase P
    expanded, for the row of the activity T1 of P. *)
Lemma tree_rows_under_expanded_items_witness :
  treeRowOrigin nestedActivities nestedPhases {["project-root"; "P"]} plantSchedule
    (Some plantSummary)
    (EnhancedActivitiesPage.activityNode 2 (act "T1" "P" 2 0 (Some jan01) (Some jan10))).
Proof.
  assert (∃ out,
            EnhancedActivitiesPage.treeData codeUnitCompare nestedActivities nestedPhases
              {["project-root"; "P"]} plantSchedule 4 (Some plantSummary) = Some out
            ∧ EnhancedActivitiesPage.activityNode 2
                (act "T1" "P" 2 0 (Some jan01) (Some jan10)) ∈ out) as (out & Hout & Hin).
  { eexists. split; [vm_compute; reflexivity|]. do 3 right. left. }
  exact (tree_rows_under_expanded_items codeUnitCompare nestedActivities nestedPhases
           {["project-root"; "P"]} plantSchedule 4 (Some plantSummary) out _ Hout Hin).
Defined.

(** ** Summary row of the Gantt chart and project summary *)




(** ** Gantt chart: what is expanded is listed *)

Section GanttShown.
Variable localeCompare : string → string → Z.
Variable wbsStructure : list WBSItem.t.
Variable expandedWBS : gset string.

Local Abbreviation gantt := (GanttChart.buildWBSNodes localeCompare wbsStructure expandedWBS).
Local Abbreviation shown := (shownAt wbsStructure expandedWBS).

(** The loop of [buildWBSNodes] keeps the buckets of the store. *)
Ltac gantt_body_preserves :=
  let Hbody := fresh "Hbody" in
  let E := fresh "E" in
  intros ? ? ? ? _ Hbody; case_bool_decide;
  [ match type of Hbody with
    | context [GanttChart.buildWBSNodes ?lc ?ws ?ex ?fuel ?m ?parent ?lvl] =>
        destruct (GanttChart.buildWBSNodes lc ws ex fuel m parent lvl) as [[? ?]|] eqn:E;
        [|done]
    end;
    injection Hbody as <- _; apply gantt_sameBuckets in E; etrans; [|exact E];
    apply sameBuckets_sorted_if_stored
  | by injection Hbody as <- _ ].

(** A shown item is among the items some call of the builder loops over, at
    its level, from a store that holds the buckets of the first. *)
Lemma shown_looped (fuel : nat) (m0 m' : gmap string (list Activity.t))
    (out : list GanttChart.GanttNode) (lvl : nat) (w : WBSItem.t) :
  gantt fuel m0 None 0 = Some (m', out) →
  shown lvl w →
  ∃ fuel1 m1 parent m1' sub,
    gantt (S fuel1) m1 parent lvl = Some (m1', sub)
    ∧ sameBuckets m0 m1
    ∧ (∀ r, r ∈ sub → r ∈ out)
    ∧ w ∈ wbsStructure
    ∧ GanttChart.isChildOf parent w = true.
Proof.
  intros Htop. induction 1 as [w Hw Hroot|w p lvl Hw Hp _ IH Hexp].
  - destruct fuel as [|fuel]; [done|]. by exists fuel, m0, None, m', out.
  - destruct IH as (fuel1 & m1 & parent & m1' & sub & Hcall & Hm1 & Hsub & Hwp & Hchild).
    cbn [GanttChart.buildWBSNodes] in Hcall.
    eapply (forEachM_ran sameBuckets) in Hcall as (s0 & s1 & o & Hs0 & Hrun & Ho);
      [|gantt_body_preserves|by apply elem_of_sorted_filter].
    rewrite bool_decide_eq_true_2 in Hrun by done.
    destruct (GanttChart.buildWBSNodes _ _ _ fuel1 _ _ _) as [[m2 sub2]|] eqn:E; [|done].
    injection Hrun as <- <-.
    destruct fuel1 as [|fuel1]; [done|].
    eexists fuel1, _, (Some (WBSItem.wbs_id p)), m2, sub2.
    split; [exact E|]. split.
    { etrans; [exact Hm1|]. etrans; [exact Hs0|]. apply sameBuckets_sorted_if_stored. }
    split.
    { intros r Hr. apply Hsub, Ho. right. apply elem_of_app. by right. }
    split; [done|]. simpl. by apply bool_decide_eq_true.
Qed.

Lemma looped_rows (m0 : gmap string (list Activity.t)) (out : list GanttChart.GanttNode)
    (fuel1 : nat) (m1 : gmap string (list Activity.t)) (parent : option string)
    (m1' : gmap string (list Activity.t)) (sub : list GanttChart.GanttNode)
    (lvl : nat) (w : WBSItem.t) :
  gantt (S fuel1) m1 parent lvl = Some (m1', sub) →
  sameBuckets m0 m1 →
  (∀ r, r ∈ sub → r ∈ out) →
  w ∈ wbsStructure →
  GanttChart.isChildOf parent w = true →
  (∃ acts, acts ≡ₚ default [] (m0 !! WBSItem.wbs_id w)
           ∧ GanttChart.wbsNode expandedWBS lvl w acts ∈ out)
  ∧ (WBSItem.wbs_id w ∈ expandedWBS →
     ∀ a, a ∈ default [] (m0 !! WBSItem.wbs_id w) →
          GanttChart.activityNode (lvl + 1) a ∈ out).
Proof.
  intros Hcall Hm1 Hsub Hw Hchild.
  cbn [GanttChart.buildWBSNodes] in Hcall.
  eapply (forEachM_ran sameBuckets) in Hcall as (s0 & s1 & o & Hs0 & Hrun & Ho);
    [|gantt_body_preserves|by apply elem_of_sorted_filter].
  assert (Hbucket : default [] (s0 !! WBSItem.wbs_id w) ≡ₚ default [] (m0 !! WBSItem.wbs_id w)).
  { rewrite (Hs0 _). apply Hm1. }
  case_bool_decide as Hexp.
  - destruct (GanttChart.buildWBSNodes _ _ _ fuel1 _ _ _) as [[m2 sub2]|] eqn:E; [|done].
    injection Hrun as <- <-. split.
    + exists (default [] (s0 !! WBSItem.wbs_id w)). split; [exact Hbucket|].
      apply Hsub, Ho. by left.
    + intros _ a Ha. apply Hsub, Ho. right. apply elem_of_app. left.
      apply list_elem_of_In, in_map, list_elem_of_In.
      by rewrite sortBy_perm, Hbucket.
  - injection Hrun as <- <-. split; [|done].
    exists (default [] (s0 !! WBSItem.wbs_id w)). split; [exact Hbucket|].
    apply Hsub, Ho. by left.
Qed.

End GanttShown.

(** X23.  When the Gantt chart returns rows for a schedule that has a
    timeline and WBS items, it lists every shown item, at its level and with
    the activities that carry its WBS id; and for a shown item that is
    expanded it lists every input activity with that WBS id, one level below
    the item.  An item is shown when it is root-level or the child of a
    shown and expanded item. *)
Theorem gantt_lists_what_is_expanded (localeCompare : string → string → Z)
    (activities : list Activity.t) (wbsStructure : list WBSItem.t) (expandedWBS : gset string)
    (fuel : nat) (out : list GanttChart.GanttNode) (lvl : nat) (w : WBSItem.t) :
  GanttChart.ganttData localeCompare activities wbsStructure expandedWBS fuel = Some out →
  is_Some (GanttChart.projectTimeline activities) →
  shownAt wbsStructure expandedWBS lvl w →
  (∃ acts,
      acts ≡ₚ List.filter (λ a, bool_decide (Activity.wbs_id a = WBSItem.wbs_id w)) activities
      ∧ GanttChart.wbsNode expandedWBS lvl w acts ∈ out)
  ∧ (WBSItem.wbs_id w ∈ expandedWBS →
     ∀ a, a ∈ activities → Activity.wbs_id a = WBSItem.wbs_id w →
          GanttChart.activityNode (lvl + 1) a ∈ out).
Proof.
  unfold GanttChart.ganttData. intros Hout [timeline Htimeline] Hshown.
  rewrite Htimeline in Hout.
  assert (Hwbs : wbsStructure ≠ []).
  { destruct Hshown as [w Hw _|w p lvl Hw _ _ _]; intros ->; by apply elem_of_nil in Hw. }
  rewrite bool_decide_eq_false_2 in Hout by (by destruct wbsStructure).
  destruct (GanttChart.buildWBSNodes _ _ _ _ _ _ _) as [[m' nodes]|] eqn:E; [|done].
  injection Hout as <-.
  destruct (shown_looped _ _ _ _ _ _ _ _ _ E Hshown)
    as (fuel1 & m1 & parent & m1' & sub & Hcall & Hm1 & Hsub & Hw & Hchild).
  destruct (looped_rows _ _ _ _ _ _ _ _ _ _ _ _ Hcall Hm1 Hsub Hw Hchild)
    as [(acts & Hacts & Hnode) Hrows].
  split.
  - exists acts. split; [|done]. rewrite Hacts.
    unfold GanttChart.activitiesByWBS, groupByWBS.
    by rewrite groupByWBS_fold, lookup_empty.
  - intros Hexp a Ha Hkey. apply Hrows; [done|]. by apply groupByWBS_elem.
Qed.

(** The theorem at [nestedPhases] with the phase P expanded: the activity of
    P is listed at level 1. *)
Lemma gantt_lists_what_is_expanded_witness :
  ∃ out,
    GanttChart.ganttData codeUnitCompare nestedActivities nestedPhases {["P"]} 3 = Some out
    ∧ GanttChart.activityNode 1 (act "T1" "P" 2 0 (Some jan01) (Some jan10)) ∈ out.
Proof.
  assert (∃ out,
            GanttChart.ganttData codeUnitCompare nestedActivities nestedPhases {["P"]} 3
            = Some out) as [out Hout] by (vm_compute; eauto).
  exists out. split; [exact Hout|].
  refine (proj2 (gantt_lists_what_is_expanded codeUnitCompare nestedActivities nestedPhases
                   {["P"]} 3 out 0 (item "P" "Phase" None 0) Hout _ _) _ _ _ _).
  - vm_compute. eauto.
  - apply shownAt_root; [by left|reflexivity].
  - by apply elem_of_singleton.
  - by left.
  - reflexivity.
Defined.

(** ** Enhanced page: what is expanded is listed *)

Section TreeShown.
Variable localeCompare : string → string → Z.
Variable wbsStructure : list WBSItem.t.
Variable expandedWBS : gset string.

Local Abbreviation tree :=
  (EnhancedActivitiesPage.buildWBSNodes localeCompare wbsStructure expandedWBS).
Local Abbreviation shown := (treeShownAt wbsStructure expandedWBS).

(** One iteration of the loop of [buildWBSNodes], from the store [s] and for
    the item [w]. *)
Lemma tree_iteration (fuel lvl : nat) (s s' : gmap string (list Activity.t)) (w : WBSItem.t)
    (out : list EnhancedActivitiesPage.TreeNode) :
  (let wbsActivities := default [] (s !! WBSItem.wbs_id w) in
   let hasChildWBS :=
     existsb (λ c, bool_decide (WBSItem.parent_wbs_id c = Some (WBSItem.wbs_id w)))
             wbsStructure in
   match EnhancedActivitiesPage.getAllDescendantActivities wbsStructure fuel s
           (WBSItem.wbs_id w) with
   | None => None
   | Some allDescendantActivities =>
       let node :=
         EnhancedActivitiesPage.wbsNode expandedWBS lvl w wbsActivities hasChildWBS
           allDescendantActivities in
       if bool_decide (WBSItem.wbs_id w ∈ expandedWBS)
       then
         match (if hasChildWBS
                then tree fuel s (Some (WBSItem.wbs_id w)) (lvl + 1)%nat
                else Some (s, [])) with
         | None => None
         | Some (byWBS1, sub) =>
             let '(byWBS2, sorted) :=
               EnhancedActivitiesPage.sortStored localeCompare byWBS1 (WBSItem.wbs_id w) in
             Some (byWBS2,
                   node :: sub ++ List.map (EnhancedActivitiesPage.activityNode (lvl + 1)) sorted)
         end
       else Some (s, [node])
   end) = Some (s', out) →
  sameBuckets s s'
  ∧ ∃ has all rest,
      out = EnhancedActivitiesPage.wbsNode expandedWBS lvl w
              (default [] (s !! WBSItem.wbs_id w)) has all :: rest
      ∧ (WBSItem.wbs_id w ∈ expandedWBS →
         ∃ m1 sub sorted,
           rest = sub ++ List.map (EnhancedActivitiesPage.activityNode (lvl + 1)) sorted
           ∧ sorted ≡ₚ default [] (s !! WBSItem.wbs_id w)
           ∧ ((∃ c, c ∈ wbsStructure
                    ∧ WBSItem.parent_wbs_id c = Some (WBSItem.wbs_id w)) →
              tree fuel s (Some (WBSItem.wbs_id w)) (lvl + 1)%nat = Some (m1, sub))).
Proof.
  cbv zeta.
  destruct (EnhancedActivitiesPage.getAllDescendantActivities _ _ _ _) as [all|]; [|done].
  case_bool_decide as Hexp.
  2:{ intros [= <- <-]. split; [reflexivity|]. eexists _, _, _. split; [reflexivity|done]. }
  destruct (existsb _ _) eqn:Ehas.
  - destruct (EnhancedActivitiesPage.buildWBSNodes _ _ _ _ _ _ _) as [[m1 sub]|] eqn:E; [|done].
    destruct (EnhancedActivitiesPage.sortStored _ _ _) as [m2 sorted] eqn:Es.
    intros [= <- <-]. apply sortStored_spec in Es as [Hs Hsorted].
    pose proof (tree_sameBuckets _ _ _ _ _ _ _ _ _ E) as Hm1.
    split; [by etrans|]. eexists _, _, _. split; [reflexivity|].
    intros _. exists m1, sub, sorted. split; [done|]. split; [|done].
    by rewrite Hsorted, (Hm1 _).
  - destruct (EnhancedActivitiesPage.sortStored _ _ _) as [m2 sorted] eqn:Es.
    intros [= <- <-]. apply sortStored_spec in Es as [Hs Hsorted].
    split; [done|]. eexists _, _, _. split; [reflexivity|].
    intros _. exists s, [], sorted. split; [done|]. split; [done|].
    intros (c & Hc & Hp). exfalso.
    assert (Hsome : existsb
              (λ c, bool_decide (WBSItem.parent_wbs_id c = Some (WBSItem.wbs_id w)))
              wbsStructure = true).
    { apply existsb_exists. exists c. split; [by apply list_elem_of_In|].
      by apply bool_decide_eq_true. }
    congruence.
Qed.

Lemma tree_shown_looped (fuel : nat) (m0 m' : gmap string (list Activity.t))
    (out : list EnhancedActivitiesPage.TreeNode) (lvl : nat) (w : WBSItem.t) :
  tree fuel m0 None 1 = Some (m', out) →
  shown lvl w →
  ∃ fuel1 m1 parent m1' sub,
    tree (S fuel1) m1 parent lvl = Some (m1', sub)
    ∧ sameBuckets m0 m1
    ∧ (∀ r, r ∈ sub → r ∈ out)
    ∧ w ∈ wbsStructure
    ∧ EnhancedActivitiesPage.isChildOf parent w = true.
Proof.
  intros Htop. induction 1 as [w Hw Hroot|w p lvl Hw Hp _ IH Hexp].
  - destruct fuel as [|fuel]; [done|]. by exists fuel, m0, None, m', out.
  - destruct IH as (fuel1 & m1 & parent & m1' & sub & Hcall & Hm1 & Hsub & Hwp & Hchild).
    cbn [EnhancedActivitiesPage.buildWBSNodes] in Hcall.
    eapply (forEachM_ran sameBuckets) in Hcall as (s0 & s1 & o & Hs0 & Hrun & Ho);
      [|intros ? ? ? ? _ Hbody; by apply tree_iteration in Hbody as [? _]
       |by apply elem_of_sorted_filter].
    apply tree_iteration in Hrun as (_ & has & all & rest & -> & Hrest).
    destruct (Hrest Hexp) as (m2 & sub2 & sorted & -> & _ & Hrec).
    specialize (Hrec (ex_intro _ w (conj Hw Hp))).
    destruct fuel1 as [|fuel1]; [done|].
    exists fuel1, s0, (Some (WBSItem.wbs_id p)), m2, sub2.
    split; [exact Hrec|]. split; [by etrans|]. split.
    { intros r Hr. apply Hsub, Ho. right. apply elem_of_app. by left. }
    split; [done|]. simpl. by apply bool_decide_eq_true.
Qed.

Lemma tree_looped_rows (m0 : gmap string (list Activity.t))
    (out : list EnhancedActivitiesPage.TreeNode)
    (fuel1 : nat) (m1 : gmap string (list Activity.t)) (parent : option string)
    (m1' : gmap string (list Activity.t)) (sub : list EnhancedActivitiesPage.TreeNode)
    (lvl : nat) (w : WBSItem.t) :
  tree (S fuel1) m1 parent lvl = Some (m1', sub) →
  sameBuckets m0 m1 →
  (∀ r, r ∈ sub → r ∈ out) →
  w ∈ wbsStructure →
  EnhancedActivitiesPage.isChildOf parent w = true →
  (∃ acts has all,
      acts ≡ₚ default [] (m0 !! WBSItem.wbs_id w)
      ∧ EnhancedActivitiesPage.wbsNode expandedWBS lvl w acts has all ∈ out)
  ∧ (WBSItem.wbs_id w ∈ expandedWBS →
     ∀ a, a ∈ default [] (m0 !! WBSItem.wbs_id w) →
          EnhancedActivitiesPage.activityNode (lvl + 1) a ∈ out).
Proof.
  intros Hcall Hm1 Hsub Hw Hchild.
  cbn [EnhancedActivitiesPage.buildWBSNodes] in Hcall.
  eapply (forEachM_ran sameBuckets) in Hcall as (s0 & s1 & o & Hs0 & Hrun & Ho);
    [|intros ? ? ? ? _ Hbody; by apply tree_iteration in Hbody as [? _]
     |by apply elem_of_sorted_filter].
  assert (Hbucket : default [] (s0 !! WBSItem.wbs_id w) ≡ₚ default [] (m0 !! WBSItem.wbs_id w)).
  { rewrite (Hs0 _). apply Hm1. }
  apply tree_iteration in Hrun as (_ & has & all & rest & -> & Hrest). split.
  - exists (default [] (s0 !! WBSItem.wbs_id w)), has, all. split; [exact Hbucket|].
    apply Hsub, Ho. by left.
  - intros Hexp a Ha. destruct (Hrest Hexp) as (m2 & sub2 & sorted & -> & Hsorted & _).
    apply Hsub, Ho. right. apply elem_of_app. right.
    apply list_elem_of_In, in_map, list_elem_of_In.
    by rewrite Hsorted, Hbucket.
Qed.

End TreeShown.

(** X24.  When the tree of the enhanced page returns rows, with the project
    root expanded, it lists every shown item, at its level and with the
    activities that carry its WBS id; and for a shown item that is expanded
    it lists every input activity with that WBS id, one level below the item.
    An item is shown when it is root-level or the child of a shown and
    expanded item. *)
Theorem tree_lists_what_is_expanded (localeCompare : string → string → Z)
    (activities : list Activity.t) (wbsStructure : list WBSItem.t) (expandedWBS : gset string)
    (schedule : EnhancedActivitiesPage.Schedule) (fuel : nat)
    (summary : EnhancedActivitiesPage.ProjectSummary)
    (out : list EnhancedActivitiesPage.TreeNode) (lvl : nat) (w : WBSItem.t) :
  EnhancedActivitiesPage.treeData localeCompare activities wbsStructure expandedWBS schedule
    fuel (Some summary) = Some out →
  activities ≠ [] →
  "project-root" ∈ expandedWBS →
  treeShownAt wbsStructure expandedWBS lvl w →
  (∃ acts hasChildWBS all,
      acts ≡ₚ List.filter (λ a, bool_decide (Activity.wbs_id a = WBSItem.wbs_id w)) activities
      ∧ EnhancedActivitiesPage.wbsNode expandedWBS lvl w acts hasChildWBS all ∈ out)
  ∧ (WBSItem.wbs_id w ∈ expandedWBS →
     ∀ a, a ∈ activities → Activity.wbs_id a = WBSItem.wbs_id w →
          EnhancedActivitiesPage.activityNode (lvl + 1) a ∈ out).
Proof.
  unfold EnhancedActivitiesPage.treeData. intros Hout Hacts Hroot Hshown.
  assert (Hwbs : wbsStructure ≠ []).
  { destruct Hshown as [w Hw _|w p lvl Hw _ _ _]; intros ->; by apply elem_of_nil in Hw. }
  rewrite bool_decide_eq_false_2 in Hout
    by (intros [?|?]; [by destruct wbsStructure|by destruct activities]).
  rewrite bool_decide_eq_true_2 in Hout by done.
  destruct (EnhancedActivitiesPage.buildWBSNodes _ _ _ _ _ _ _) as [[m' nodes]|] eqn:E; [|done].
  injection Hout as <-.
  destruct (tree_shown_looped _ _ _ _ _ _ _ _ _ E Hshown)
    as (fuel1 & m1 & parent & m1' & sub & Hcall & Hm1 & Hsub & Hw & Hchild).
  destruct (tree_looped_rows _ _ _ _ (nodes) _ _ _ _ _ _ _ Hcall Hm1 Hsub Hw Hchild)
    as [(acts & has & all & Hacts' & Hnode) Hrows].
  split.
  - exists acts, has, all. split; [|by right]. rewrite Hacts'.
    unfold EnhancedActivitiesPage.activitiesByWBS, groupByWBS.
    by rewrite groupByWBS_fold, lookup_empty.
  - intros Hexp a Ha Hkey. right. apply Hrows; [done|]. by apply groupByWBS_elem.
Qed.

(** The theorem at [nestedPhases] with the project root and the phase P
    expanded: the activity of P is listed at level 2. *)
Lemma tree_lists_what_is_expanded_witness :
  ∃ out,
    EnhancedActivitiesPage.treeData codeUnitCompare nestedActivities nestedPhases
      {["project-root"; "P"]} plantSchedule 4 (Some plantSummary) = Some out
    ∧ EnhancedActivitiesPage.activityNode 2 (act "T1" "P" 2 0 (Some jan01) (Some jan10)) ∈ out.
Proof.
  assert (∃ out,
            EnhancedActivitiesPage.treeData codeUnitCompare nestedActivities nestedPhases
              {["project-root"; "P"]} plantSchedule 4 (Some plantSummary) = Some out)
    as [out Hout] by (vm_compute; eauto).
  exists out. split; [exact Hout|].
  refine (proj2 (tree_lists_what_is_expanded codeUnitCompare nestedActivities nestedPhases
                   {["project-root"; "P"]} plantSchedule 4 plantSummary out 1
                   (item "P" "Phase" None 0) Hout _ _ _) _ _ _ _).
  - discriminate.
  - apply elem_of_union. left. by apply elem_of_singleton.
  - apply treeShownAt_root; [by left|reflexivity].
  - apply elem_of_union. right. by apply elem_of_singleton.
  - by left.
  - reflexivity.
Defined.

(** ** Activities page: Expand All and Collapse All *)

Lemma visitedAt_item (wbsStructure : list WBSItem.t) (info : ActivitiesPage.ProjectInfo)
    (lvl : nat) (i : string) :
  visitedAt wbsStructure info lvl i → ∃ w, w ∈ wbsStructure ∧ WBSItem.wbs_id w = i.
Proof. intros [w Hw _|w p l Hw _ _]; by exists w. Qed.

Lemma elem_of_expandAll (wbsStructure : list WBSItem.t) (i : string) :
  i ∈ ActivitiesPage.expandAll wbsStructure
  ↔ i = "project-root" ∨ i = "unassigned" ∨ ∃ w, w ∈ wbsStructure ∧ WBSItem.wbs_id w = i.
Proof.
  unfold ActivitiesPage.expandAll.
  rewrite elem_of_list_to_set, elem_of_cons, elem_of_app, list_elem_of_singleton.
  rewrite list_elem_of_In, in_map_iff.
  split.
  - intros [?|[(w & Hid & Hw%list_elem_of_In)|?]]; eauto.
  - intros [?|[?|(w & Hw%list_elem_of_In & Hid)]]; eauto.
Qed.

(** X25.  After Expand All the activities page, when its builder returns,
    lists every input activity that is filed under the id of a visited WBS
    item, one level below that item, and every activity without WBS id in
    the unassigned bucket.  After Collapse All it lists the project row and
    nothing else, whatever the WBS list. *)
Theorem expand_all_lists_every_filed_activity (localeCompare : string → string → Z)
    (fuel : nat) (activities : list Activity.t) (wbsStructure : list WBSItem.t)
    (info : ActivitiesPage.ProjectInfo) (out : list ActivitiesPage.HierarchyNode)
    (a : Activity.t) :
  ActivitiesPage.hierarchy localeCompare fuel activities wbsStructure (Some info)
    (ActivitiesPage.expandAll wbsStructure) = Some out →
  a ∈ activities →
  (∀ lvl, visitedAt wbsStructure info lvl (bucketKey a) →
          ActivitiesPage.activityNode (lvl + 1) (bucketKey a) a ∈ out)
  ∧ (bucketKey a = "unassigned" → ActivitiesPage.activityNode 2 "unassigned" a ∈ out)
  ∧ ActivitiesPage.hierarchy localeCompare fuel activities wbsStructure (Some info)
      ActivitiesPage.collapseAll
    = Some [ActivitiesPage.projectNode wbsStructure info ActivitiesPage.collapseAll].
Proof.
  intros Hout Ha. split; [|split].
  3:{ apply hierarchy_collapsed_root. apply not_elem_of_empty. }
  all: unfold ActivitiesPage.hierarchy, ActivitiesPage.hierarchyWith in Hout.
  all: rewrite bool_decide_eq_true_2 in Hout by (apply elem_of_expandAll; by left).
  all: destruct (ActivitiesPage.buildWBSTree _ _ _ _ _ _ _ _) as [[byWBS tree]|] eqn:E;
    [|done].
  all: injection Hout as <-.
  all: assert (Hstored :
         a ∈ default [] (ActivitiesPage.activitiesByWBS activities !! bucketKey a))
         by (by apply activitiesByWBS_elem).
  - intros lvl Hvisited. right. apply elem_of_app. left.
    eapply called_rows; [|apply elem_of_expandAll|exact Hstored].
    + eapply visited_called; [exact E|exact Hvisited].
    + right. right. by eapply visitedAt_item.
  - intros Hkey. right. apply elem_of_app. right.
    rewrite Hkey in Hstored.
    rewrite <- (build_sameBuckets _ _ _ _ _ _ _ _ _ _ E "unassigned") in Hstored.
    unfold ActivitiesPage.unassignedRows.
    destruct (default [] (byWBS !! "unassigned")) as [|b l] eqn:Hl;
      [by apply elem_of_nil in Hstored|].
    replace (0 <? Z.of_nat (length (b :: l))) with true
      by (symmetry; apply Z.ltb_lt; simpl length; lia).
    right. rewrite bool_decide_eq_true_2 by (apply elem_of_expandAll; auto).
    apply list_elem_of_In, in_map, list_elem_of_In. exact Hstored.
Qed.

(** The theorem at [strayActivities] and [onePhase]: the activity without WBS
    id is listed in the unassigned bucket. *)
Lemma expand_all_lists_every_filed_activity_witness :
  ∃ out,
    ActivitiesPage.hierarchy codeUnitCompare 5 strayActivities onePhase (Some plant)
      (ActivitiesPage.expandAll onePhase) = Some out
    ∧ ActivitiesPage.activityNode 2 "unassigned"
        (act "T2" "" 5 0 (Some jan01) (Some jan10)) ∈ out.
Proof.
  assert (∃ out,
            ActivitiesPage.hierarchy codeUnitCompare 5 strayActivities onePhase (Some plant)
              (ActivitiesPage.expandAll onePhase) = Some out)
    as [out Hout] by (vm_compute; eauto).
  exists out. split; [exact Hout|].
  refine (proj1 (proj2 (expand_all_lists_every_filed_activity codeUnitCompare 5 strayActivities
                          onePhase plant out (act "T2" "" 5 0 (Some jan01) (Some jan10))
                          Hout _)) _).
  - right. left.
  - reflexivity.
Defined.

(** ** The class of an activity on the three pages *)

Lemma Qle_bool_orZero (c x : Q) : Qle_bool c (orZero x) = Qle_bool c x.
Proof.
  pose proof (orZero_eq x) as Hx.
  destruct (Qle_bool c x) eqn:E.
  - apply Qle_bool_iff. apply Qle_bool_iff in E. lra.
  - destruct (Qle_bool c (orZero x)) eqn:E'; [|done].
    apply Qle_bool_iff in E'. assert (c <= x)%Q as H%Qle_bool_iff by lra. congruence.
Qed.

Lemma Qltb_orZero (c x : Q) : Qltb c (orZero x) = Qltb c x.
Proof.
  unfold Qltb. f_equal. pose proof (orZero_eq x) as Hx.
  destruct (Qle_bool x c) eqn:E.
  - apply Qle_bool_iff. apply Qle_bool_iff in E. lra.
  - destruct (Qle_bool (orZero x) c) eqn:E'; [|done].
    apply Qle_bool_iff in E'. assert (x <= c)%Q as H%Qle_bool_iff by lra. congruence.
Qed.

Lemma Qltb_orZero_l (x c : Q) : Qltb (orZero x) c = Qltb x c.
Proof. unfold Qltb. f_equal. apply Qle_bool_orZero. Qed.

(** X26.  For an activity whose progress is not negative the three pages
    agree with the project summary on its class.  The summary counts the
    activity as completed, in progress or not started, exactly one of the
    three; the status label of the activities page, which ignores the float,
    names that class; and the icon of the enhanced page and the colour of the
    Gantt chart are those of that class unless the summary counts the activity
    as critical, which gives the red icon and the red bar whatever the
    progress. *)
Theorem activity_class_agrees (lvl lvl' lvl'' : nat) (parentId : string) (a : Activity.t) :
  (0 <= Activity.progress_pct a)%Q →
  let status := ActivitiesPage.statusLabel (ActivitiesPage.activityNode lvl parentId a) in
  let icon :=
    EnhancedActivitiesPage.getActivityIcon (EnhancedActivitiesPage.activityNode lvl' a) in
  let colour := GanttChart.color (GanttChart.activityNode lvl'' a) in
  let critical := EnhancedActivitiesPage.isCriticalActivity a in
  (EnhancedActivitiesPage.isCompleted a = true
   ∧ EnhancedActivitiesPage.isInProgress a = false
   ∧ EnhancedActivitiesPage.isNotStarted a = false
   ∧ status = "Complete"
   ∧ icon = (if critical then "🔴" else "✅")
   ∧ colour = (if critical then "#FF5722" else "#4CAF50"))
  ∨ (EnhancedActivitiesPage.isCompleted a = false
     ∧ EnhancedActivitiesPage.isInProgress a = true
     ∧ EnhancedActivitiesPage.isNotStarted a = false
     ∧ status = "In Progress"
     ∧ icon = (if critical then "🔴" else "🟡")
     ∧ colour = (if critical then "#FF5722" else "#2196F3"))
  ∨ (EnhancedActivitiesPage.isCompleted a = false
     ∧ EnhancedActivitiesPage.isInProgress a = false
     ∧ EnhancedActivitiesPage.isNotStarted a = true
     ∧ status = "Not Started"
     ∧ icon = (if critical then "🔴" else "⚪")
     ∧ colour = (if critical then "#FF5722" else "#9E9E9E")).
Proof.
  intros Hp status icon colour critical.
  unfold status, icon, colour, critical, ActivitiesPage.statusLabel,
    ActivitiesPage.getActivityStatus, EnhancedActivitiesPage.getActivityIcon,
    EnhancedActivitiesPage.isCriticalActivity, EnhancedActivitiesPage.isCompleted,
    EnhancedActivitiesPage.isInProgress, EnhancedActivitiesPage.isNotStarted.
  cbn [ActivitiesPage.activityNode ActivitiesPage.progress_pct
       EnhancedActivitiesPage.activityNode EnhancedActivitiesPage.type
       EnhancedActivitiesPage.total_float_days EnhancedActivitiesPage.progress_pct
       GanttChart.activityNode GanttChart.color default from_option id].
  rewrite !Qle_bool_orZero, !Qltb_orZero, !Qltb_orZero_l.
  pose proof (orZero_eq (Activity.progress_pct a)) as Hzero.
  assert (H100 : if Qle_bool 100 (Activity.progress_pct a)
                 then (100 <= Activity.progress_pct a)%Q
                 else (Activity.progress_pct a < 100)%Q).
  { destruct (Qle_bool 100 (Activity.progress_pct a)) eqn:E.
    - by apply Qle_bool_iff.
    - apply Qnot_le_lt. intros H%Qle_bool_iff. congruence. }
  assert (H0 : if Qle_bool (Activity.progress_pct a) 0
               then (Activity.progress_pct a <= 0)%Q
               else (0 < Activity.progress_pct a)%Q).
  { destruct (Qle_bool (Activity.progress_pct a) 0) eqn:E.
    - by apply Qle_bool_iff.
    - apply Qnot_le_lt. intros H%Qle_bool_iff. congruence. }
  assert (Hlt : Qltb (Activity.progress_pct a) 100
                = negb (Qle_bool 100 (Activity.progress_pct a))) by reflexivity.
  assert (Heq : if Qeq_bool (orZero (Activity.progress_pct a)) 0
                then (Activity.progress_pct a == 0)%Q
                else ¬ (Activity.progress_pct a == 0)%Q).
  { destruct (Qeq_bool (orZero (Activity.progress_pct a)) 0) eqn:E.
    - apply Qeq_bool_iff in E. by rewrite <- Hzero.
    - intros H. rewrite <- Hzero in H. apply Qeq_bool_iff in H. congruence. }
  rewrite Hlt. unfold Qltb. clear Hlt. revert H100 H0 Heq.
  destruct (Qeq_bool (orZero (Activity.total_float_days a)) 0);
    destruct (Qle_bool 100 (Activity.progress_pct a));
    destruct (Qle_bool (Activity.progress_pct a) 0);
    destruct (Qeq_bool (orZero (Activity.progress_pct a)) 0);
    cbn [negb andb]; intros H100 H0 Heq;
    first [ by left | by (right; left) | by (right; right) | exfalso; lra ].
Qed.

(** The theorem at a critical activity of progress 50. *)
Lemma activity_class_agrees_witness :
  ActivitiesPage.statusLabel
    (ActivitiesPage.activityNode 2 "W1" (act "T1" "W1" 10 50 (Some jan01) (Some jan10)))
  = "In Progress"
  ∧ EnhancedActivitiesPage.getActivityIcon
      (EnhancedActivitiesPage.activityNode 2 (act "T1" "W1" 10 50 (Some jan01) (Some jan10)))
    = "🔴".
Proof.
  destruct (activity_class_agrees 2 2 1 "W1" (act "T1" "W1" 10 50 (Some jan01) (Some jan10)))
    as [(H & _)|[(_ & _ & _ & Hs & Hi & _)|(_ & H & _)]].
  - vm_compute. discriminate.
  - vm_compute in H. discriminate.
  - split; [exact Hs|exact Hi].
  - vm_compute in H. discriminate.
Defined.
